(** * Gesture detector: fist classifier and alert state machine

    A shallow embedding of [gesture_detector.py] (class [GestureDetector]).

    - Python floats are IEEE binary64 values: Rocq's primitive floats, with
      the comparisons and arithmetic of the source ([>], [<], [-], [*],
      [abs]) mapped to [PrimFloat.ltb], [PrimFloat.sub], [PrimFloat.mul]
      and [PrimFloat.abs].
    - Indexing a sequence out of range raises [IndexError]; [int] of a NaN
      raises [ValueError] and of an infinity [OverflowError]: fallible code
      returns a [result].
    - [time.time()], the detector's attributes and [print] are effects on
      a [World]; every call of [time.time()] takes the next reading of the
      clock.
    - MediaPipe and OpenCV are external: the provider's results are inputs
      of [process_frame], and the drawing calls change pixels only. They
      are taken to return, which they do on hands of exactly 21 points
      with a label position that fits a C int ([well_formed]); what is
      proved of a call that returns, or of the exception it raises, is
      stated within these bounds. *)

From Stdlib Require Import List Bool Arith Lia ZArith String.
From Stdlib Require Import Floats.
Import ListNotations.

Set Warnings "-inexact-float".

(** ** Exceptions and results *)

Inductive exn : Type :=
| IndexError
| ValueError
| OverflowError.

Inductive result (A : Type) : Type :=
| Ok (a : A)
| Raise (e : exn).

Arguments Ok {A} a.
Arguments Raise {A} e.

Class Monad (M : Type -> Type) : Type := {
  ret : forall {A : Type}, A -> M A;
  bind : forall {A B : Type}, M A -> (A -> M B) -> M B
}.

Declare Scope py_scope.
Delimit Scope py_scope with py.
Notation "x <- c1 ;; c2" := (bind c1 (fun x => c2))
  (at level 61, c1 at next level, right associativity) : py_scope.
Notation "c1 ;; c2" := (bind c1 (fun _ => c2))
  (at level 61, right associativity) : py_scope.
Open Scope py_scope.

#[export] Instance Monad_result : Monad result := {
  ret := fun A a => Ok a;
  bind := fun A B m k =>
    match m with
    | Ok a => k a
    | Raise e => Raise e
    end
}.

(** ** Floats as Python uses them *)

Module PyFloat.

(** [a > b] and [a < b]; both are false when an operand is NaN. *)
Definition gt (a b : float) : bool := PrimFloat.ltb b a.
Definition lt (a b : float) : bool := PrimFloat.ltb a b.

(** [float(n)] for an [int] n, rounded to nearest even; the sides of a
    frame are far below the range where the conversion overflows. *)
Definition of_int (n : Z) : float :=
  SF2Prim (binary_normalize prec emax n 0 false).

(** [int(f)]: truncation toward zero. *)
Definition to_int (f : float) : result Z :=
  match Prim2SF f with
  | S754_nan => Raise ValueError
  | S754_infinity _ => Raise OverflowError
  | S754_zero _ => Ok 0%Z
  | S754_finite s m e =>
      let mag := match e with
                 | Z0 => Zpos m
                 | Zpos p => (Zpos m * Z.pow_pos 2 p)%Z
                 | Zneg p => (Zpos m / Z.pow_pos 2 p)%Z
                 end in
      Ok (if s then (- mag)%Z else mag)
  end.

End PyFloat.

(** ** The provider's data *)

(** A MediaPipe [NormalizedLandmark]. *)
Record Landmark : Type := mkLandmark {
  x : float;
  y : float;
  z : float
}.

(** A MediaPipe [NormalizedLandmarkList]: the field [landmark]. *)
Record HandLandmarks : Type := mkHand {
  landmark : list Landmark
}.

(** [seq[i]] for an index [i >= 0]. *)
Definition getitem {A : Type} (seq : list A) (i : nat) : result A :=
  match nth_error seq i with
  | Some a => Ok a
  | None => Raise IndexError
  end.

(** ** [GestureDetector.is_fist] *)

Definition finger_tips : list nat := [8; 12; 16; 20].
Definition finger_pips : list nat := [6; 10; 14; 18].

(** The loop [for tip, pip in zip(finger_tips, finger_pips)], with the
    running counter [fingers_curled]. *)
Fixpoint count_curled (landmarks : list Landmark) (pairs : list (nat * nat))
    (fingers_curled : nat) : result nat :=
  match pairs with
  | [] => Ok fingers_curled
  | (tip, pip) :: rest =>
      t <- getitem landmarks tip ;;
      p <- getitem landmarks pip ;;
      count_curled landmarks rest
        (if PyFloat.gt (y t) (y p) then S fingers_curled else fingers_curled)
  end.

Definition is_fist (hand_landmarks : HandLandmarks) : result bool :=
  let landmarks := landmark hand_landmarks in
  fingers_curled <- count_curled landmarks (combine finger_tips finger_pips) 0 ;;
  thumb_tip <- getitem landmarks 4 ;;
  thumb_ip <- getitem landmarks 3 ;;
  thumb_mcp <- getitem landmarks 2 ;;
  index_mcp <- getitem landmarks 5 ;;
  let thumb_curled :=
    PyFloat.lt (PrimFloat.abs (PrimFloat.sub (x thumb_tip) (x thumb_mcp)))
               (PrimFloat.abs (PrimFloat.sub (x index_mcp) (x thumb_mcp))) in
  ret ((3 <=? fingers_curled) && thumb_curled).

(** ** [GestureDetector.is_left_hand] *)

Definition is_left_hand (hand_landmarks : HandLandmarks) (image_width : Z)
    : result bool :=
  wrist <- getitem (landmark hand_landmarks) 0 ;;
  middle_mcp <- getitem (landmark hand_landmarks) 9 ;;
  let hand_center_x := x wrist in
  ret (PyFloat.lt hand_center_x 0.5%float).

(** ** The detector object and the world it runs in *)

(** The attributes [__init__] sets under "Alert state management". *)
Record Detector : Type := mkDetector {
  alert_active : bool;
  alert_start_time : float;
  alert_duration : float
}.

(** [__init__]: [alert_start_time = 0] and [alert_duration = 2] are
    Python ints; in the float arithmetic of [check_alert_timeout] they
    stand for the floats of the same value. *)
Definition init : Detector := mkDetector false 0%float 2%float.

Record World : Type := mkWorld {
  self : Detector;
  clock : nat -> float;   (* the successive readings of [time.time()] *)
  reads : nat;            (* how many readings were taken *)
  stdout : list string    (* what [print] wrote, oldest first *)
}.

(** Effectful code: a state transformer that may raise; the state
    written before an exception stays written. *)
Definition M (A : Type) : Type := World -> result A * World.

#[export] Instance Monad_M : Monad M := {
  ret := fun A a w => (Ok a, w);
  bind := fun A B m k w =>
    match m w with
    | (Ok a, w') => k a w'
    | (Raise e, w') => (Raise e, w')
    end
}.

Definition lift {A : Type} (r : result A) : M A := fun w => (r, w).

Definition get_self {A : Type} (field : Detector -> A) : M A :=
  fun w => (Ok (field (self w)), w).

Definition set_alert_active (b : bool) : M unit :=
  fun w => (Ok tt,
            mkWorld (mkDetector b (alert_start_time (self w))
                                  (alert_duration (self w)))
                    (clock w) (reads w) (stdout w)).

Definition set_alert_start_time (t : float) : M unit :=
  fun w => (Ok tt,
            mkWorld (mkDetector (alert_active (self w)) t
                                (alert_duration (self w)))
                    (clock w) (reads w) (stdout w)).

Definition time_time : M float :=
  fun w => (Ok (clock w (reads w)),
            mkWorld (self w) (clock w) (S (reads w)) (stdout w)).

Definition print (s : string) : M unit :=
  fun w => (Ok tt, mkWorld (self w) (clock w) (reads w) (stdout w ++ [s])).

(** [s * n] on strings. *)
Fixpoint str_mul (s : string) (n : nat) : string :=
  match n with
  | O => EmptyString
  | S n' => (s ++ str_mul s n')%string
  end.

Definition newline : string := String (Ascii.ascii_of_nat 10) EmptyString.

(** ** [GestureDetector.trigger_alert] *)

(** The three lines [trigger_alert] prints. *)
Definition alert_banner : list string :=
  [ (newline ++ str_mul "=" 50)%string;
    "ALERT: LEFT HAND FIST DETECTED!"%string;
    (str_mul "=" 50 ++ newline)%string ].

Definition trigger_alert : M unit :=
  set_alert_active true ;;
  now <- time_time ;;
  set_alert_start_time now ;;
  print (newline ++ str_mul "=" 50)%string ;;
  print "ALERT: LEFT HAND FIST DETECTED!"%string ;;
  print (str_mul "=" 50 ++ newline)%string.

(** ** [GestureDetector.check_alert_timeout] *)

Definition check_alert_timeout : M unit :=
  active <- get_self alert_active ;;
  if active then
    now <- time_time ;;
    start <- get_self alert_start_time ;;
    duration <- get_self alert_duration ;;
    if PyFloat.gt (PrimFloat.sub now start) duration
    then set_alert_active false
    else ret tt
  else ret tt.

(** ** [GestureDetector.process_frame] *)

(** One entry of a handedness [ClassificationList]. *)
Record Classification : Type := mkClassification {
  index : Z;
  score : float;
  label : string
}.

Record ClassificationList : Type := mkClassificationList {
  classification : list Classification
}.

(** A face detection; only their number is used. *)
Record Detection : Type := mkDetection {
  detection_score : float
}.

(** What [self.face_detection.process] returned. *)
Record FaceResults : Type := mkFaceResults {
  detections : option (list Detection)
}.

(** What [self.hands.process] returned. *)
Record HandResults : Type := mkHandResults {
  multi_hand_landmarks : option (list HandLandmarks);
  multi_handedness : option (list ClassificationList)
}.

(** A camera frame as [process_frame] uses it: its [shape] and what the
    two providers answer on it. *)
Record Frame : Type := mkFrame {
  height : Z;
  width : Z;
  face_results : FaceResults;
  hand_results : HandResults
}.

(** The dict [detection_info]. *)
Record DetectionInfo : Type := mkInfo {
  faces_detected : nat;
  hands_detected : nat;
  left_fist_detected : bool
}.

(** The truth value of an attribute that is [None] or a list. *)
Definition truthy {A : Type} (v : option (list A)) : bool :=
  match v with
  | Some (_ :: _) => true
  | _ => false
  end.

(** [len] of a value known to be a list. *)
Definition len {A : Type} (v : option (list A)) : nat :=
  match v with
  | Some l => List.length l
  | None => 0
  end.

Definition items {A : Type} (v : option (list A)) : list A :=
  match v with
  | Some l => l
  | None => []
  end.

(** The body of the loop over [enumerate(hand_results.multi_hand_landmarks)].
    The calls of [draw_landmarks] and [cv2.putText] are external and are
    taken to return; the arguments computed for them are kept, since
    computing them may raise. The two calls do return on a hand of exactly
    21 points and a label position that fits a C int; on other hands
    MediaPipe's or OpenCV's own checks may raise first, so whatever says
    that [process_frame] returns, or names the exception it raises, is
    stated for frames of such hands only (see [well_formed]). *)
Definition process_hand (frame : Frame) (idx : nat)
    (hand_landmarks : HandLandmarks) (detection_info : DetectionInfo)
    : M DetectionInfo :=
  let hand_results := hand_results frame in
  fist <- lift (is_fist hand_landmarks) ;;
  is_left <- lift (is_left_hand hand_landmarks (width frame)) ;;
  if truthy (multi_handedness hand_results) then
    handedness <- lift (getitem (items (multi_handedness hand_results)) idx) ;;
    first <- lift (getitem (classification handedness) 0) ;;
    let hand_label := label first in
    wrist <- lift (getitem (landmark hand_landmarks) 0) ;;
    label_x <- lift (PyFloat.to_int
                 (PrimFloat.mul (x wrist) (PyFloat.of_int (width frame)))) ;;
    label_y0 <- lift (PyFloat.to_int
                 (PrimFloat.mul (y wrist) (PyFloat.of_int (height frame)))) ;;
    let label_y := (label_y0 - 20)%Z in
    let label_text :=
      if fist then (hand_label ++ " - FIST")%string else hand_label in
    if String.eqb hand_label "Left" && fist then
      let detection_info :=
        mkInfo (faces_detected detection_info)
               (hands_detected detection_info) true in
      trigger_alert ;;
      ret detection_info
    else ret detection_info
  else ret detection_info.

Fixpoint hands_loop (frame : Frame) (idx : nat) (hands : list HandLandmarks)
    (detection_info : DetectionInfo) : M DetectionInfo :=
  match hands with
  | [] => ret detection_info
  | hand_landmarks :: rest =>
      detection_info <- process_hand frame idx hand_landmarks detection_info ;;
      hands_loop frame (S idx) rest detection_info
  end.

(** [process_frame] returns the drawn frame and [detection_info]; the
    model returns [detection_info]. [draw_alert_overlay] and
    [draw_info_panel] read the state and write pixels. *)
Definition process_frame (frame : Frame) : M DetectionInfo :=
  let detection_info := mkInfo 0 0 false in
  let detection_info :=
    if truthy (detections (face_results frame))
    then mkInfo (len (detections (face_results frame)))
                (hands_detected detection_info)
                (left_fist_detected detection_info)
    else detection_info in
  detection_info <-
    (if truthy (multi_hand_landmarks (hand_results frame)) then
       let detection_info :=
         mkInfo (faces_detected detection_info)
                (len (multi_hand_landmarks (hand_results frame)))
                (left_fist_detected detection_info) in
       hands_loop frame 0 (items (multi_hand_landmarks (hand_results frame)))
                  detection_info
     else ret detection_info) ;;
  check_alert_timeout ;;
  ret detection_info.

(** Consecutive calls of [process_frame], as the main loop makes them;
    the loop ends at the first exception. *)
Fixpoint run_frames (frames : list Frame) : M (list DetectionInfo) :=
  match frames with
  | [] => ret []
  | f :: rest =>
      info <- process_frame f ;;
      infos <- run_frames rest ;;
      ret (info :: infos)
  end.

(** ** The classifier as the specification words it *)

Module Spec.

(** Point [i] of a hand, by its anatomical index. *)
Definition point (h : HandLandmarks) (i : nat) : Landmark :=
  nth i (landmark h) (mkLandmark 0 0 0).

(** A non-thumb finger is curled when its tip's y-coordinate is greater
    than its PIP joint's. *)
Definition finger_curled (h : HandLandmarks) (tip pip : nat) : bool :=
  PrimFloat.ltb (y (point h pip)) (y (point h tip)).

Definition index_curled (h : HandLandmarks) := finger_curled h 8 6.
Definition middle_curled (h : HandLandmarks) := finger_curled h 12 10.
Definition ring_curled (h : HandLandmarks) := finger_curled h 16 14.
Definition pinky_curled (h : HandLandmarks) := finger_curled h 20 18.

(** How many of the four non-thumb fingers are curled. *)
Definition curled_fingers (h : HandLandmarks) : nat :=
  Nat.b2n (index_curled h) + Nat.b2n (middle_curled h)
  + Nat.b2n (ring_curled h) + Nat.b2n (pinky_curled h).

(** The thumb is curled when |thumb_tip.x - thumb_mcp.x| is smaller
    than |index_mcp.x - thumb_mcp.x| (points 4, 2 and 5). *)
Definition thumb_curled (h : HandLandmarks) : bool :=
  PrimFloat.ltb
    (PrimFloat.abs (PrimFloat.sub (x (point h 4)) (x (point h 2))))
    (PrimFloat.abs (PrimFloat.sub (x (point h 5)) (x (point h 2)))).

(** A fist: at least three of the four fingers and the thumb. *)
Definition fist (h : HandLandmarks) : Prop :=
  3 <= curled_fingers h /\ thumb_curled h = true.

(** A hand of the frame qualifies for the alert when the provider
    labels it [Left] and the classifier says fist; [idx] is its place
    in the provider's lists. *)
Definition qualifies (f : Frame) (idx : nat) : Prop :=
  exists h hd c,
    nth_error (items (multi_hand_landmarks (hand_results f))) idx = Some h /\
    nth_error (items (multi_handedness (hand_results f))) idx = Some hd /\
    nth_error (classification hd) 0 = Some c /\
    label c = "Left"%string /\
    is_fist h = Ok true.

(** The frame's trigger event. *)
Definition trigger_event (f : Frame) : Prop :=
  exists idx, qualifies f idx.

End Spec.

(** ** Sample hands and frames *)

Module Samples.

Definition pt (px py : float) : Landmark := mkLandmark px py 0.

(** A hand of 21 points: the four finger tips at heights [t8], [t12],
    [t16], [t20], every PIP joint at 0.5, the thumb tip at [tx], the
    thumb's base at 0.42, the index finger's base at 0.50 and the wrist
    at [wx]. *)
Definition hand (wx tx t8 t12 t16 t20 : float) : HandLandmarks :=
  mkHand [ pt wx 0.8; pt 0.44 0.7; pt 0.42 0.6; pt 0.41 0.55; pt tx 0.5;
           pt 0.50 0.4; pt 0.50 0.5; pt 0.50 0.6; pt 0.50 t8;
           pt 0.55 0.4; pt 0.55 0.5; pt 0.55 0.6; pt 0.55 t12;
           pt 0.60 0.4; pt 0.60 0.5; pt 0.60 0.6; pt 0.60 t16;
           pt 0.65 0.4; pt 0.65 0.5; pt 0.65 0.6; pt 0.65 t20 ].

(** Scenario A of the specification: four fingers and the thumb curled. *)
Definition fist_hand : HandLandmarks := hand 0.3 0.40 0.9 0.9 0.9 0.9.
(** The same fist with the wrist in the right half of the image. *)
Definition fist_hand_right_side : HandLandmarks :=
  hand 0.7 0.40 0.9 0.9 0.9 0.9.
(** Exactly three fingers curled. *)
Definition three_fingers : HandLandmarks := hand 0.3 0.40 0.9 0.9 0.9 0.1.
(** Scenario B: two fingers curled. *)
Definition two_fingers : HandLandmarks := hand 0.3 0.40 0.9 0.9 0.1 0.1.
(** Four fingers curled, the thumb stretched out. *)
Definition thumb_out : HandLandmarks := hand 0.3 0.20 0.9 0.9 0.9 0.9.
Definition open_hand : HandLandmarks := hand 0.3 0.20 0.1 0.1 0.1 0.1.

(** Off the contract: 22 points and 20 points. *)
Definition extra_point : HandLandmarks :=
  mkHand (landmark fist_hand ++ [pt 0.5 0.5]).
Definition missing_point : HandLandmarks :=
  mkHand (removelast (landmark fist_hand)).

Definition handed (lbl : string) : ClassificationList :=
  mkClassificationList [mkClassification 0 0.9 lbl].

Definition face : Detection := mkDetection 0.8.

Definition frame_of (faces : option (list Detection))
    (hands : option (list HandLandmarks))
    (handedness : option (list ClassificationList)) : Frame :=
  mkFrame 720 1280 (mkFaceResults faces) (mkHandResults hands handedness).

(** One face and a left fist. *)
Definition left_fist_frame : Frame :=
  frame_of (Some [face]) (Some [fist_hand]) (Some [handed "Left"]).
(** The same with the hand in the right half of the image. *)
Definition left_fist_frame_right_side : Frame :=
  frame_of (Some [face]) (Some [fist_hand_right_side])
           (Some [handed "Left"]).
(** A right fist and a left open hand. *)
Definition no_trigger_frame : Frame :=
  frame_of (Some [face]) (Some [fist_hand; open_hand])
           (Some [handed "Right"; handed "Left"]).
(** Two faces, no hand. *)
Definition no_hands_frame : Frame :=
  frame_of (Some [face; face]) None None.
Definition empty_hands_frame : Frame :=
  frame_of None (Some []) (Some []).
(** A fist whose handedness list is absent. *)
Definition unlabelled_fist_frame : Frame :=
  frame_of None (Some [fist_hand; open_hand]) None.

(** A clock that reads the given times, then stays at the last one. *)
Fixpoint clock_of (readings : list float) (last : float) (n : nat) : float :=
  match readings, n with
  | [], _ => last
  | t :: _, O => t
  | _ :: rest, S n' => clock_of rest last n'
  end.

Definition world_at (d : Detector) (readings : list float) (last : float)
    : World :=
  mkWorld d (clock_of readings last) 0 [].

(** Scenario C: a left fist at 0 s, then frames without hands at 1.9 s
    and at 2.1 s. The first frame reads the clock twice, for the
    trigger and for the timeout check. *)
Definition scenario_C_frames : list Frame :=
  [left_fist_frame; no_hands_frame; no_hands_frame].
Definition scenario_C_world : World := world_at init [0; 0; 1.9]%float 2.1.

(** Scenario D: left fists at 0 s and at 1.5 s, no hands at 3.0 s. *)
Definition scenario_D_frames : list Frame :=
  [left_fist_frame; left_fist_frame; no_hands_frame].
Definition scenario_D_world : World := world_at init [0; 0; 1.5; 1.5]%float 3.0.

(** An alert active since 10 s; the next frame's trigger reads the
    clock at 100 s and its timeout check at 102.5 s, as when the
    process is held up in between (the banner is printed there). *)
Definition stalled_world : World :=
  world_at (mkDetector true 10 2) [100]%float 102.5.

(** An alert that has run out: active since 10 s, the clock at 100 s. *)
Definition expired_world : World :=
  world_at (mkDetector true 10 2) [] 100.

End Samples.

(** The detector after a run of frames from the world [w]. *)
Definition detector_after (frames : list Frame) (w : World) : Detector :=
  self (snd (run_frames frames w)).

(** ** The loop's decisions, apart from the state *)

(** Whether [process_hand] reaches [trigger_alert] on a hand, or what it
    raises before: the body of [process_hand] without the state. *)
Definition hand_triggers (frame : Frame) (idx : nat)
    (hand_landmarks : HandLandmarks) : result bool :=
  let hand_results := hand_results frame in
  fist <- is_fist hand_landmarks ;;
  is_left <- is_left_hand hand_landmarks (width frame) ;;
  if truthy (multi_handedness hand_results) then
    handedness <- getitem (items (multi_handedness hand_results)) idx ;;
    first <- getitem (classification handedness) 0 ;;
    wrist <- getitem (landmark hand_landmarks) 0 ;;
    label_x <- PyFloat.to_int
                 (PrimFloat.mul (x wrist) (PyFloat.of_int (width frame))) ;;
    label_y0 <- PyFloat.to_int
                 (PrimFloat.mul (y wrist) (PyFloat.of_int (height frame))) ;;
    ret (String.eqb (label first) "Left" && fist)
  else ret false.

(** The decisions for the hands from place [idx] on. *)
Fixpoint loop_decisions (frame : Frame) (idx : nat)
    (hands : list HandLandmarks) : list (result bool) :=
  match hands with
  | [] => []
  | h :: rest => hand_triggers frame idx h :: loop_decisions frame (S idx) rest
  end.

(** The effect of a list of decisions on the state and on
    [detection_info]. *)
Fixpoint replay (decisions : list (result bool))
    (detection_info : DetectionInfo) : M DetectionInfo :=
  match decisions with
  | [] => ret detection_info
  | Ok true :: rest =>
      trigger_alert ;;
      replay rest (mkInfo (faces_detected detection_info)
                          (hands_detected detection_info) true)
  | Ok false :: rest => replay rest detection_info
  | Raise e :: _ => lift (Raise e)
  end.

(** A frame all of whose hands pass the loop without an exception. *)
Definition frame_passes (frame : Frame) : Prop :=
  Forall (fun d => exists b : bool, d = Ok b)
    (loop_decisions frame 0
       (items (multi_hand_landmarks (hand_results frame)))).

(** The readings [k] to [k + n - 1] of the clock are no more than [d]
    seconds after one another. *)
Definition readings_within (w : World) (k n : nat) (d : float) : Prop :=
  forall i j, k <= i -> i <= j -> j < k + n ->
    PyFloat.gt (PrimFloat.sub (clock w j) (clock w i)) d = false.

(** The loop's invariant on the alert: once a hand has triggered, the
    alert is active and its start time is a reading taken since the
    reading [r0]. *)
Definition triggered_since (r0 : nat) (w : World) : Prop :=
  alert_active (self w) = true /\
  exists n, r0 <= n < reads w /\ alert_start_time (self w) = clock w n.

(** [detection_info] when the loop over the hands starts. *)
Definition initial_info (f : Frame) : DetectionInfo :=
  mkInfo (len (detections (face_results f)))
         (len (multi_hand_landmarks (hand_results f))) false.

(** A coordinate [cv2.putText] accepts: a C int. *)
Definition fits_c_int (n : Z) : Prop := (- 2 ^ 31 <= n < 2 ^ 31)%Z.

(** The label of a hand is drawn at a position computed from its wrist;
    [int] accepts the two products when they are finite, [cv2.putText]
    the position when its coordinates are C ints. *)
Definition label_position_defined (f : Frame) (h : HandLandmarks) : Prop :=
  exists lx ly,
    PyFloat.to_int
      (PrimFloat.mul (x (Spec.point h 0)) (PyFloat.of_int (width f))) = Ok lx /\
    PyFloat.to_int
      (PrimFloat.mul (y (Spec.point h 0)) (PyFloat.of_int (height f))) = Ok ly /\
    fits_c_int lx /\ fits_c_int (ly - 20).

(** A frame as the provider's contract describes it, as far as the loop
    over the hands needs it: every hand has exactly its 21 points and a
    label position that can be drawn, and the handedness list, when the
    provider gives one, has a non-empty classification for each hand. On
    such hands the drawing calls return. *)
Definition well_formed (f : Frame) : Prop :=
  let hands := items (multi_hand_landmarks (hand_results f)) in
  let handed := items (multi_handedness (hand_results f)) in
  Forall (fun h => List.length (landmark h) = 21 /\
                   label_position_defined f h) hands /\
  (handed = [] \/
   (List.length hands <= List.length handed /\
    Forall (fun hd => classification hd <> []) handed)).

(** * The rest of the detector *)

(** ** What the loop does, counted *)

(** Two hands with the same coordinates where [is_fist] looks: the y of
    the four tips and the four PIP joints, the x of the points 2, 4, 5. *)
Definition same_fist_coordinates (h1 h2 : HandLandmarks) : Prop :=
  (forall i, In i (finger_tips ++ finger_pips) ->
             y (Spec.point h1 i) = y (Spec.point h2 i)) /\
  (forall i, In i [2; 4; 5] -> x (Spec.point h1 i) = x (Spec.point h2 i)).

(** The tip of a finger level with its PIP joint. *)
Definition level (h : HandLandmarks) (finger : nat * nat) : Prop :=
  y (Spec.point h (fst finger)) = y (Spec.point h (snd finger)).

Definition is_trigger (d : result bool) : bool :=
  match d with
  | Ok true => true
  | _ => false
  end.

(** How many hands of a frame make the loop call [trigger_alert]. *)
Definition trigger_count (f : Frame) : nat :=
  List.length
    (filter is_trigger
       (loop_decisions f 0 (items (multi_hand_landmarks (hand_results f))))).

(** The banner, [n] times over. *)
Fixpoint banners (n : nat) : list string :=
  match n with
  | O => []
  | S n' => alert_banner ++ banners n'
  end.

(** Successive readings of the clock are never more than [d] apart. *)
Definition steady_clock (w : World) (d : float) : Prop :=
  forall n, PyFloat.gt (PrimFloat.sub (clock w (S n)) (clock w n)) d = false.

(** The frame with its first [k] hands only; the handedness list is kept. *)
Definition first_hands (f : Frame) (k : nat) : Frame :=
  mkFrame (height f) (width f) (face_results f)
    (mkHandResults
       (Some (firstn k (items (multi_hand_landmarks (hand_results f)))))
       (multi_handedness (hand_results f))).

(** More sample frames. *)
Module MoreSamples.

(** Two left fists in one frame. *)
Definition two_left_fists_frame : Frame :=
  Samples.frame_of None
    (Some [Samples.fist_hand; Samples.fist_hand_right_side])
    (Some [Samples.handed "Left"; Samples.handed "Left"]).

(** Two hands, a handedness entry for the first only. *)
Definition short_handedness_frame : Frame :=
  Samples.frame_of None
    (Some [Samples.fist_hand; Samples.open_hand])
    (Some [Samples.handed "Left"]).

(** A hand of 20 points behind a left fist. *)
Definition short_hand_behind_fist_frame : Frame :=
  Samples.frame_of None
    (Some [Samples.fist_hand; Samples.missing_point])
    (Some [Samples.handed "Left"; Samples.handed "Right"]).

(** A fist held over three frames, the clock read every half second. *)
Definition held_fist_frames : list Frame :=
  [Samples.left_fist_frame; Samples.left_fist_frame; Samples.left_fist_frame].
Definition held_fist_world : World :=
  Samples.world_at init [0; 0.5; 1; 1.5; 2]%float 2.5.

End MoreSamples.

(** * Drawing *)

From Stdlib Require DecimalString DecimalNat.

Set Warnings "-register-all".

(** [f"{n}"] for a count. *)
Definition fmt (n : nat) : string :=
  DecimalString.NilEmpty.string_of_uint (Nat.to_uint n).

(** Colours are BGR triples, points are pixel coordinates. *)
Definition Color : Type := (Z * Z * Z)%type.
Definition Point : Type := (Z * Z)%type.

Definition red : Color := (0, 0, 255)%Z.
Definition green : Color := (0, 255, 0)%Z.
Definition white : Color := (255, 255, 255)%Z.
Definition black : Color := (0, 0, 0)%Z.

(** The calls that write on an image, as the source makes them; the font
    is always [FONT_HERSHEY_SIMPLEX], the hand connections and styles are
    MediaPipe's defaults. [addWeighted overlay alpha beta gamma] blends
    into the image the copy of it on which [overlay] was drawn. *)
Inductive DrawOp : Type :=
| draw_detection (detection : Detection)
| draw_landmarks (hand_landmarks : HandLandmarks)
| rectangle (pt1 pt2 : Point) (color : Color) (thickness : Z)
| putText (text : string) (org : Point) (font_scale : float)
          (color : Color) (thickness : Z)
| addWeighted (overlay : list DrawOp) (alpha beta gamma : float).

(** An image: the pixels of a camera frame and what was drawn on them,
    in order. Its [shape] is the frame's. *)
Definition Image : Type := list DrawOp.

(** [cv2.getTextSize(text, FONT_HERSHEY_SIMPLEX, font_scale, thickness)]:
    the width and height of the text, and its baseline. *)
Definition TextSizer : Type := string -> float -> Z -> (Z * Z) * Z.

(** ** [GestureDetector.draw_alert_overlay] *)

Definition draw_alert_overlay (getTextSize : TextSizer)
    (height width : Z) (image : Image) : M Image :=
  active <- get_self alert_active ;;
  if active then
    let overlay : Image := [] in
    let overlay := overlay ++ [rectangle (0, 0)%Z (width, height) red 30] in
    let alert_text := "ALERT: FIST DETECTED!"%string in
    let font_scale := 1.5%float in
    let thickness := 3%Z in
    let '((text_width, text_height), baseline) :=
      getTextSize alert_text font_scale thickness in
    let text_x := ((width - text_width) / 2)%Z in
    let text_y := 80%Z in
    let overlay :=
      overlay ++ [rectangle (text_x - 10, text_y - text_height - 10)%Z
                            (text_x + text_width + 10, text_y + 10)%Z
                            red (-1)] in
    let overlay :=
      overlay ++ [putText alert_text (text_x, text_y) font_scale white
                          thickness] in
    ret (image ++ [addWeighted overlay 0.7 0.3 0])
  else ret image.

(** ** [GestureDetector.draw_info_panel] *)

Definition draw_info_panel (frame : Image) (info : DetectionInfo) : Image :=
  let y_offset := 30%Z in
  let font_scale := 0.6%float in
  let thickness := 2%Z in
  let frame := frame ++ [rectangle (10, 10)%Z (300, 100)%Z black (-1)] in
  let frame := frame ++ [rectangle (10, 10)%Z (300, 100)%Z white 2] in
  let frame :=
    frame ++ [putText ("Faces: " ++ fmt (faces_detected info))%string
                      (20, y_offset)%Z font_scale white thickness] in
  let y_offset := (y_offset + 30)%Z in
  let frame :=
    frame ++ [putText ("Hands: " ++ fmt (hands_detected info))%string
                      (20, y_offset)%Z font_scale white thickness] in
  let y_offset := (y_offset + 30)%Z in
  let status_color :=
    if negb (left_fist_detected info) then green else red in
  frame ++ [putText ("Status: " ++ (if left_fist_detected info
                                    then "ALERT!" else "Normal"))%string
                    (20, y_offset)%Z font_scale status_color thickness].

(** ** [GestureDetector.process_frame], with what it draws *)

(** The loop's body with the image: [draw_landmarks] comes first, the
    label is drawn for every hand when there is a handedness list. The two
    drawing calls are taken to return, as in [process_hand]: what is said
    of the drawn frame is said of calls that return. *)
Definition process_hand_drawn (frame : Frame) (idx : nat)
    (hand_landmarks : HandLandmarks) (image : Image)
    (detection_info : DetectionInfo) : M (Image * DetectionInfo) :=
  let hand_results := hand_results frame in
  let image := image ++ [draw_landmarks hand_landmarks] in
  fist <- lift (is_fist hand_landmarks) ;;
  is_left <- lift (is_left_hand hand_landmarks (width frame)) ;;
  if truthy (multi_handedness hand_results) then
    handedness <- lift (getitem (items (multi_handedness hand_results)) idx) ;;
    first <- lift (getitem (classification handedness) 0) ;;
    let hand_label := label first in
    wrist <- lift (getitem (landmark hand_landmarks) 0) ;;
    label_x <- lift (PyFloat.to_int
                 (PrimFloat.mul (x wrist) (PyFloat.of_int (width frame)))) ;;
    label_y0 <- lift (PyFloat.to_int
                 (PrimFloat.mul (y wrist) (PyFloat.of_int (height frame)))) ;;
    let label_y := (label_y0 - 20)%Z in
    let label_text :=
      if fist then (hand_label ++ " - FIST")%string else hand_label in
    let image :=
      image ++ [putText label_text (label_x, label_y) 0.7
                        (if negb fist then green else red) 2] in
    if String.eqb hand_label "Left" && fist then
      let detection_info :=
        mkInfo (faces_detected detection_info)
               (hands_detected detection_info) true in
      trigger_alert ;;
      ret (image, detection_info)
    else ret (image, detection_info)
  else ret (image, detection_info).

Fixpoint hands_loop_drawn (frame : Frame) (idx : nat)
    (hands : list HandLandmarks) (image : Image)
    (detection_info : DetectionInfo) : M (Image * DetectionInfo) :=
  match hands with
  | [] => ret (image, detection_info)
  | hand_landmarks :: rest =>
      r <- process_hand_drawn frame idx hand_landmarks image detection_info ;;
      hands_loop_drawn frame (S idx) rest (fst r) (snd r)
  end.

(** [process_frame] as the source has it: the drawn frame and
    [detection_info]. *)
Definition process_frame_drawn (getTextSize : TextSizer) (frame : Frame)
    : M (Image * DetectionInfo) :=
  let image : Image := [] in
  let detection_info := mkInfo 0 0 false in
  let '(image, detection_info) :=
    if truthy (detections (face_results frame))
    then (image ++ map draw_detection (items (detections (face_results frame))),
          mkInfo (len (detections (face_results frame)))
                 (hands_detected detection_info)
                 (left_fist_detected detection_info))
    else (image, detection_info) in
  r <-
    (if truthy (multi_hand_landmarks (hand_results frame)) then
       let detection_info :=
         mkInfo (faces_detected detection_info)
                (len (multi_hand_landmarks (hand_results frame)))
                (left_fist_detected detection_info) in
       hands_loop_drawn frame 0
         (items (multi_hand_landmarks (hand_results frame)))
         image detection_info
     else ret (image, detection_info)) ;;
  check_alert_timeout ;;
  image <- draw_alert_overlay getTextSize (height frame) (width frame) (fst r) ;;
  let image := draw_info_panel image (snd r) in
  ret (image, snd r).

(** ** Reading a drawn frame *)

(** Whether the alert overlay was blended into the image. *)
Definition has_overlay (image : Image) : bool :=
  existsb (fun op => match op with addWeighted _ _ _ _ => true | _ => false end)
          image.

(** The texts written on the image itself, in order. *)
Definition texts (image : Image) : list string :=
  flat_map (fun op => match op with putText t _ _ _ _ => [t] | _ => [] end)
           image.

(** The labels of the hands: the texts drawn at scale 0.7. *)
Definition hand_labels (image : Image) : list (string * Color) :=
  flat_map (fun op =>
              match op with
              | putText t _ s c _ =>
                  if PrimFloat.eqb s 0.7 then [(t, c)] else []
              | _ => []
              end) image.

Definition count_op (p : DrawOp -> bool) (image : Image) : nat :=
  List.length (filter p image).

Definition is_draw_detection (op : DrawOp) : bool :=
  match op with draw_detection _ => true | _ => false end.
Definition is_draw_landmarks (op : DrawOp) : bool :=
  match op with draw_landmarks _ => true | _ => false end.

(** A text sizer for the samples: 30 pixels a character, 33 high. *)
Definition sample_sizer : TextSizer :=
  fun text font_scale thickness =>
    ((Z.of_nat (String.length text) * 30, 33), 14)%Z.

(** ** What the loop draws, apart from the state *)

(** What [process_hand_drawn] draws for a hand, or what it raises. *)
Definition hand_drawing (frame : Frame) (idx : nat)
    (hand_landmarks : HandLandmarks) : result Image :=
  let hand_results := hand_results frame in
  fist <- is_fist hand_landmarks ;;
  is_left <- is_left_hand hand_landmarks (width frame) ;;
  if truthy (multi_handedness hand_results) then
    handedness <- getitem (items (multi_handedness hand_results)) idx ;;
    first <- getitem (classification handedness) 0 ;;
    wrist <- getitem (landmark hand_landmarks) 0 ;;
    label_x <- PyFloat.to_int
                 (PrimFloat.mul (x wrist) (PyFloat.of_int (width frame))) ;;
    label_y0 <- PyFloat.to_int
                 (PrimFloat.mul (y wrist) (PyFloat.of_int (height frame))) ;;
    ret [ draw_landmarks hand_landmarks;
          putText (if (fist : bool) then (label first ++ " - FIST")%string
                   else label first)
                  (label_x, (label_y0 - 20)%Z) 0.7
                  (if negb fist then green else red) 2 ]
  else ret [draw_landmarks hand_landmarks].

Fixpoint loop_drawing (frame : Frame) (idx : nat)
    (hands : list HandLandmarks) : Image :=
  match hands with
  | [] => []
  | h :: rest =>
      match hand_drawing frame idx h with
      | Ok ops => ops
      | Raise _ => []
      end ++ loop_drawing frame (S idx) rest
  end.

(** What is on the frame when the alert overlay is considered. *)
Definition frame_drawing (f : Frame) : Image :=
  map draw_detection (items (detections (face_results f)))
  ++ loop_drawing f 0 (items (multi_hand_landmarks (hand_results f))).

(** The overlay of an active alert on an image of the given shape. *)
Definition alert_overlay (getTextSize : TextSizer) (height width : Z)
    : DrawOp :=
  let text_width := fst (fst (getTextSize "ALERT: FIST DETECTED!"%string 1.5%float 3%Z)) in
  let text_height := snd (fst (getTextSize "ALERT: FIST DETECTED!"%string 1.5%float 3%Z)) in
  let text_x := ((width - text_width) / 2)%Z in
  addWeighted
    [ rectangle (0, 0)%Z (width, height) red 30;
      rectangle (text_x - 10, 80 - text_height - 10)%Z
                (text_x + text_width + 10, 80 + 10)%Z red (-1);
      putText "ALERT: FIST DETECTED!" (text_x, 80%Z) 1.5 white 3 ]
    0.7 0.3 0.

(** * The program: [main.py] *)

(** ** What the program does to the outside *)

Inductive Backend : Type :=
| CAP_DSHOW
| CAP_ANY.       (* [cv2.VideoCapture(index)] without a backend *)

Inductive CapProp : Type :=
| CAP_PROP_FRAME_WIDTH
| CAP_PROP_FRAME_HEIGHT
| CAP_PROP_FPS.

(** The calls that acquire, release, show or write something, in the
    order the program makes them. [FaceDetection_init] and [Hands_init]
    are the two MediaPipe objects [GestureDetector.__init__] creates,
    [face_detection_close] and [hands_close] the two calls of
    [GestureDetector.cleanup]. *)
Inductive Action : Type :=
| FaceDetection_init
| Hands_init
| VideoCapture (camera_index : nat) (backend : Backend)
| test_cap_release (camera_index : nat) (backend : Backend)
| cap_set (prop : CapProp) (value : Z)
| imshow (winname : string) (image : Image)
| imwrite (filename : string) (image : Image)
| cap_release
| destroyAllWindows
| face_detection_close
| hands_close.

(** ** What the outside answers *)

(** [cv2.getWindowProperty] returns a number or raises [cv2.error]. *)
Inductive WindowProbe : Type :=
| Visible (window_prop : float)
| cv2_error.

(** One turn of the [while True] loop, as the outside decides it: a
    [KeyboardInterrupt] while [cap.read()] waits, a read that fails, or a
    frame (the providers' answers on the flipped frame) with what
    [cv2.waitKey(1)] and [cv2.getWindowProperty] return after it is
    shown. *)
Inductive Tick : Type :=
| KeyboardInterrupt
| NoFrame
| Grabbed (frame : Frame) (key : Z) (window : WindowProbe).

Record Env : Type := mkEnv {
  opens : nat -> Backend -> bool;   (* [test_cap.isOpened()] *)
  still_opened : bool;              (* [cap.isOpened()], asked again *)
  getTextSize : TextSizer;
  time_readings : nat -> float;
  ticks : list Tick
}.

(** ** The program's state *)

Record Run : Type := mkRun {
  world : World;                (* the detector, the clock, the output *)
  actions : list Action;
  frame_count : nat;
  screenshot_count : nat
}.

Inductive Outcome : Type :=
| Returned                      (* [main] returned *)
| SystemExit (code : Z)         (* [sys.exit(code)] *)
| Uncaught (e : exn)            (* an exception left [main] *)
| Running.                      (* the loop waits for the next turn *)

Definition say (s : string) (r : Run) : Run :=
  mkRun (snd (print s (world r))) (actions r) (frame_count r)
        (screenshot_count r).

Definition act (a : Action) (r : Run) : Run :=
  mkRun (world r) (actions r ++ [a]) (frame_count r) (screenshot_count r).

Definition set_world (w : World) (r : Run) : Run :=
  mkRun w (actions r) (frame_count r) (screenshot_count r).

(** ** Opening the camera *)

(** The first loop: DirectShow, indices 0, 1, 2. *)
Fixpoint try_dshow (opens : nat -> Backend -> bool) (indices : list nat)
    (r : Run) : option (nat * Backend) * Run :=
  match indices with
  | [] => (None, r)
  | camera_index :: rest =>
      let r := say ("Trying camera index " ++ fmt camera_index ++ "...") r in
      let r := act (VideoCapture camera_index CAP_DSHOW) r in
      if opens camera_index CAP_DSHOW then
        (Some (camera_index, CAP_DSHOW),
         say ("Successfully opened camera at index " ++ fmt camera_index) r)
      else try_dshow opens rest (act (test_cap_release camera_index CAP_DSHOW) r)
  end.

(** The second loop: the default backend. *)
Fixpoint try_default (opens : nat -> Backend -> bool) (indices : list nat)
    (r : Run) : option (nat * Backend) * Run :=
  match indices with
  | [] => (None, r)
  | camera_index :: rest =>
      let r := act (VideoCapture camera_index CAP_ANY) r in
      if opens camera_index CAP_ANY then
        (Some (camera_index, CAP_ANY),
         say ("Successfully opened camera at index " ++ fmt camera_index) r)
      else try_default opens rest (act (test_cap_release camera_index CAP_ANY) r)
  end.

Definition open_camera (opens : nat -> Backend -> bool) (r : Run)
    : option (nat * Backend) * Run :=
  match try_dshow opens [0; 1; 2] r with
  | (Some cap, r) => (Some cap, r)
  | (None, r) =>
      let r := say "DirectShow failed, trying default backend..." r in
      try_default opens [0; 1; 2] r
  end.

(** ** The loop *)

(** [ord('q')] and [ord('s')]. *)
Definition ord_q : Z := 113.
Definition ord_s : Z := 115.

Definition window_title : string := "Gesture Detection System".

Fixpoint main_loop (getTextSize : TextSizer) (ticks : list Tick) (r : Run)
    : Outcome * Run :=
  match ticks with
  | [] => (Running, r)
  | KeyboardInterrupt :: _ =>
      (Returned, say (newline ++ newline ++ "Interrupted by user") r)
  | NoFrame :: _ =>
      (Returned, say "Error: Failed to capture frame" r)
  | Grabbed frame key window :: rest =>
      match process_frame_drawn getTextSize frame (world r) with
      | (Raise e, w) => (Uncaught e, set_world w r)
      | (Ok (processed_frame, detection_info), w) =>
          let r := set_world w r in
          let r := mkRun (world r) (actions r) (frame_count r + 1)
                         (screenshot_count r) in
          let processed_frame :=
            processed_frame
            ++ [putText ("Frame: " ++ fmt (frame_count r))
                        (width frame - 150, 30)%Z 0.5 white 1] in
          let r := act (imshow window_title processed_frame) r in
          let key := Z.land key 255 in
          match window with
          | cv2_error =>
              (Returned, say (newline ++ "Window closed by user...") r)
          | Visible window_prop =>
              if PyFloat.lt window_prop 1 then
                (Returned, say (newline ++ "Window closed by user...") r)
              else if (key =? ord_q)%Z then
                (Returned, say (newline ++ "Quitting...") r)
              else if (key =? ord_s)%Z then
                let r := mkRun (world r) (actions r) (frame_count r)
                               (screenshot_count r + 1) in
                let filename :=
                  ("screenshot_" ++ fmt (screenshot_count r) ++ ".png")%string in
                let r := act (imwrite filename processed_frame) r in
                let r := say ("Screenshot saved: " ++ filename) r in
                main_loop getTextSize rest r
              else main_loop getTextSize rest r
          end
      end
  end.

(** The [finally] block, with [GestureDetector.cleanup]. *)
Definition cleanup (r : Run) : Run :=
  act hands_close (act face_detection_close r).

Definition finally (r : Run) : Run :=
  say "Done!"
    (cleanup
       (act destroyAllWindows
          (act cap_release (say (newline ++ "Cleaning up...") r)))).

(** ** [main] *)

Definition greeting : list string :=
  [ str_mul "=" 60;
    "Face and Hand Gesture Detection System";
    str_mul "=" 60;
    newline ++ "Instructions:";
    "- The system will detect your face and hands";
    "- Make a fist with your LEFT hand to trigger an alert";
    "- Press 'q' to quit";
    "- Press 's' to take a screenshot";
    newline ++ "Starting camera...";
    str_mul "=" 60 ++ newline ]%string.

Definition no_camera_help : list string :=
  [ "Error: Could not open camera";
    "Please ensure:";
    "- Camera is connected and powered on";
    "- No other application is using the camera";
    "- Camera drivers are installed (Windows)" ]%string.

Definition main (env : Env) : Outcome * Run :=
  let r := mkRun (mkWorld init (time_readings env) 0 []) [] 0 0 in
  let r := fold_left (fun r s => say s r) greeting r in
  (* detector = GestureDetector() *)
  let r := act Hands_init (act FaceDetection_init r) in
  let '(cap, r) := open_camera (opens env) r in
  match cap with
  | None =>
      (SystemExit 1, fold_left (fun r s => say s r) no_camera_help r)
  | Some _ =>
      if negb (still_opened env) then
        (SystemExit 1, fold_left (fun r s => say s r) no_camera_help r)
      else
        let r := act (cap_set CAP_PROP_FRAME_WIDTH 1280) r in
        let r := act (cap_set CAP_PROP_FRAME_HEIGHT 720) r in
        let r := act (cap_set CAP_PROP_FPS 30) r in
        let r := mkRun (world r) (actions r) 0 0 in
        match main_loop (getTextSize env) (ticks env) r with
        | (Running, r) => (Running, r)
        | (outcome, r) => (outcome, finally r)
        end
  end.

(** ** Reading a run *)

(** The files written, in order. *)
Definition written (acts : list Action) : list string :=
  flat_map (fun a => match a with imwrite name _ => [name] | _ => [] end) acts.

(** The images shown, in order. *)
Definition shown (acts : list Action) : list Image :=
  flat_map (fun a => match a with imshow _ image => [image] | _ => [] end) acts.

Definition is_display (a : Action) : bool :=
  match a with
  | imshow _ _ | imwrite _ _ => true
  | _ => false
  end.

Definition screenshot_name (n : nat) : string :=
  ("screenshot_" ++ fmt n ++ ".png")%string.

(** The frame number written on a shown image: its last text. *)
Definition frame_number_text (image : Image) : string :=
  last (texts image) EmptyString.

(** A run with a camera at index 0 under DirectShow. *)
Definition sample_env (ticks : list Tick) : Env :=
  mkEnv (fun _ _ => true) true sample_sizer (fun _ => 0%float) ticks.

(** The camera the program is to use: the first index that opens under
    DirectShow, else the first that opens under the default backend. *)
Definition first_camera (opens : nat -> Backend -> bool)
    : option (nat * Backend) :=
  match find (fun i => opens i CAP_DSHOW) [0; 1; 2] with
  | Some i => Some (i, CAP_DSHOW)
  | None =>
      match find (fun i => opens i CAP_ANY) [0; 1; 2] with
      | Some i => Some (i, CAP_ANY)
      | None => None
      end
  end.

Definition is_capture_action (a : Action) : bool :=
  match a with
  | VideoCapture _ _ | test_cap_release _ _ => true
  | _ => false
  end.

Definition closing : list Action :=
  [cap_release; destroyAllWindows; face_detection_close; hands_close].

Definition is_closing (a : Action) : bool :=
  match a with
  | cap_release | destroyAllWindows | face_detection_close | hands_close => true
  | _ => false
  end.

(** The program's state when it starts to look for the camera, and when
    it enters the loop. *)
Definition before_camera (env : Env) : Run :=
  act Hands_init
    (act FaceDetection_init
       (fold_left (fun r s => say s r) greeting
          (mkRun (mkWorld init (time_readings env) 0 []) [] 0 0))).

Definition loop_start (env : Env) : Run :=
  let r := snd (open_camera (opens env) (before_camera env)) in
  let r := act (cap_set CAP_PROP_FPS 30)
             (act (cap_set CAP_PROP_FRAME_HEIGHT 720)
                (act (cap_set CAP_PROP_FRAME_WIDTH 1280) r)) in
  mkRun (world r) (actions r) 0 0.

(** Whether a camera was opened and is still open. *)
Definition camera_ready (env : Env) : bool :=
  match fst (open_camera (opens env) (before_camera env)) with
  | Some _ => still_opened env
  | None => false
  end.

(** Sample runs. *)
Module Runs.

Definition no_camera (ticks : list Tick) : Env :=
  mkEnv (fun _ _ => false) true sample_sizer (fun _ => 0%float) ticks.

(** A turn with no hand in the frame, the window visible. *)
Definition turn (key : Z) : Tick :=
  Grabbed Samples.no_hands_frame key (Visible 1).

(** No key, [s], [s] with a flag above the low byte, [q], [s]. *)
Definition two_screenshots : list Tick :=
  [turn (-1); turn 115; turn (115 + 256); turn 113; turn 115].

(** The first frame has two hands and one handedness entry. *)
Definition short_handedness_first : list Tick :=
  [Grabbed MoreSamples.short_handedness_frame 115 (Visible 1); turn 115].

Definition start : Run :=
  mkRun (Samples.world_at init [] 0) [] 0 0.

End Runs.

(** The frames of the turns that delivered one. *)
Definition frames_of (ticks : list Tick) : list Frame :=
  flat_map (fun t => match t with Grabbed f _ _ => [f] | _ => [] end) ticks.

(** Two worlds with the same detector and the same clock, read equally
    far; their outputs may differ. *)
Definition same_detector (w1 w2 : World) : Prop :=
  self w1 = self w2 /\ clock w1 = clock w2 /\ reads w1 = reads w2.


(** * Properties *)

(** ** Indexing *)

Lemma getitem_in_range {A : Type} (seq : list A) (i : nat) (d : A) :
  i < List.length seq -> getitem seq i = Ok (nth i seq d).
Proof.
  intros Hi. unfold getitem.
  rewrite (nth_error_nth' seq d Hi). reflexivity.
Qed.

Lemma getitem_out_of_range {A : Type} (seq : list A) (i : nat) :
  List.length seq <= i -> getitem seq i = Raise IndexError.
Proof.
  intros Hi. unfold getitem.
  rewrite (proj2 (nth_error_None seq i) Hi). reflexivity.
Qed.

Lemma getitem_cases {A : Type} (seq : list A) (i : nat) :
  (exists a, getitem seq i = Ok a) \/ getitem seq i = Raise IndexError.
Proof.
  unfold getitem. destruct (nth_error seq i); eauto.
Qed.

Lemma getitem_Ok {A : Type} (seq : list A) (i : nat) (a : A) :
  getitem seq i = Ok a <-> nth_error seq i = Some a.
Proof.
  unfold getitem. destruct (nth_error seq i); split; congruence.
Qed.

(** ** The classifier *)

(** With 21 points or more every index of [is_fist] is in range, and the
    loop's counter is the number of curled fingers. *)
Lemma is_fist_in_range (h : HandLandmarks) :
  21 <= List.length (landmark h) ->
  is_fist h = Ok ((3 <=? Spec.curled_fingers h) && Spec.thumb_curled h).
Proof.
  intros Hlen. unfold is_fist. cbn [combine finger_tips finger_pips count_curled].
  pose (d := mkLandmark 0 0 0).
  repeat match goal with
  | |- context [getitem (landmark h) ?i] =>
      rewrite (@getitem_in_range _ (landmark h) i d) by lia
  end.
  cbn [bind ret Monad_result].
  unfold Spec.curled_fingers, Spec.thumb_curled, Spec.index_curled,
    Spec.middle_curled, Spec.ring_curled, Spec.pinky_curled,
    Spec.finger_curled, Spec.point, PyFloat.gt, PyFloat.lt.
  fold d.
  destruct (PrimFloat.ltb (y (nth 6 (landmark h) d)) (y (nth 8 (landmark h) d)));
  destruct (PrimFloat.ltb (y (nth 10 (landmark h) d)) (y (nth 12 (landmark h) d)));
  destruct (PrimFloat.ltb (y (nth 14 (landmark h) d)) (y (nth 16 (landmark h) d)));
  destruct (PrimFloat.ltb (y (nth 18 (landmark h) d)) (y (nth 20 (landmark h) d)));
  reflexivity.
Qed.

(** With fewer than 21 points the pinky's tip, index 20, is out of range,
    and every earlier failure is an [IndexError] too. *)
Lemma is_fist_out_of_range (h : HandLandmarks) :
  List.length (landmark h) < 21 -> is_fist h = Raise IndexError.
Proof.
  intros Hlen. unfold is_fist. cbn [combine finger_tips finger_pips count_curled].
  assert (H20 : getitem (landmark h) 20 = Raise IndexError)
    by (apply getitem_out_of_range; lia).
  rewrite H20. cbn [bind ret Monad_result].
  repeat match goal with
  | |- context [getitem (landmark h) ?i] =>
      destruct (getitem_cases (landmark h) i) as [[? ->] | ->];
      try reflexivity
  end.
Qed.

Lemma is_fist_Ok_length (h : HandLandmarks) (b : bool) :
  is_fist h = Ok b -> 21 <= List.length (landmark h).
Proof.
  intros Hb.
  destruct (Nat.lt_ge_cases (List.length (landmark h)) 21) as [Hlt | Hge];
    [ | exact Hge ].
  rewrite (is_fist_out_of_range h Hlt) in Hb. discriminate.
Qed.

Lemma fist_verdict (h : HandLandmarks) :
  (3 <=? Spec.curled_fingers h) && Spec.thumb_curled h = true <-> Spec.fist h.
Proof.
  unfold Spec.fist. rewrite andb_true_iff, Nat.leb_le. reflexivity.
Qed.

(** C1: on a hand of exactly 21 points [is_fist] returns a verdict, and
    the verdict is true if and only if at least three of the four
    non-thumb fingers have their tip's y strictly greater than their
    PIP's y and the thumb is curled (|x4 - x2| < |x5 - x2|); exactly three
    curled fingers with a curled thumb give true. *)
Theorem is_fist_iff_three_fingers_and_thumb (h : HandLandmarks) :
  List.length (landmark h) = 21 ->
  (exists b, is_fist h = Ok b /\ (b = true <-> Spec.fist h)) /\
  (Spec.curled_fingers h = 3 -> Spec.thumb_curled h = true ->
   is_fist h = Ok true).
Proof.
  intros Hlen.
  assert (Hfist := is_fist_in_range h). rewrite Hlen in Hfist.
  specialize (Hfist (Nat.le_refl 21)).
  split.
  - eexists. split; [ exact Hfist | apply fist_verdict ].
  - intros H3 Hthumb. rewrite Hfist, H3, Hthumb. reflexivity.
Qed.

Lemma is_fist_iff_three_fingers_and_thumb_witness :
  List.length (landmark Samples.three_fingers) = 21 /\
  Spec.curled_fingers Samples.three_fingers = 3 /\
  is_fist Samples.three_fingers = Ok true.
Proof.
  split; [ reflexivity | split; [ vm_compute; reflexivity | ] ].
  apply (proj2 (is_fist_iff_three_fingers_and_thumb Samples.three_fingers
                  eq_refl));
    vm_compute; reflexivity.
Defined.

(** The scenarios A and B of the specification, and the thumb alone
    deciding. *)
Example is_fist_scenarios :
  is_fist Samples.fist_hand = Ok true /\
  is_fist Samples.two_fingers = Ok false /\
  is_fist Samples.thumb_out = Ok false.
Proof. vm_compute. repeat split. Qed.

(** C2, as stated, fails: a set of 22 points gets a verdict. *)
Lemma is_fist_extra_point_verdict :
  List.length (landmark Samples.extra_point) <> 21 /\
  is_fist Samples.extra_point = Ok true.
Proof. split; [ vm_compute; discriminate | vm_compute; reflexivity ]. Qed.

(** C2, amended: [is_fist] raises [IndexError] exactly on the sets of
    fewer than 21 points; on 21 points or more it returns the verdict of
    the points 0 to 20. *)
Theorem is_fist_by_point_count (h : HandLandmarks) :
  is_fist h =
  if List.length (landmark h) <? 21
  then Raise IndexError
  else Ok ((3 <=? Spec.curled_fingers h) && Spec.thumb_curled h).
Proof.
  destruct (Nat.ltb_spec (List.length (landmark h)) 21) as [Hlt | Hge].
  - apply is_fist_out_of_range, Hlt.
  - apply is_fist_in_range, Hge.
Qed.

Example is_fist_missing_point :
  is_fist Samples.missing_point = Raise IndexError.
Proof. vm_compute. reflexivity. Qed.

(** ** Float facts the timing rule needs *)

(** No instant is more than 2 seconds after itself: [t - t] is a zero
    for a finite [t] and NaN otherwise. *)
Lemma elapsed_since_now (t : float) :
  PyFloat.gt (PrimFloat.sub t t) 2%float = false.
Proof.
  unfold PyFloat.gt. rewrite ltb_spec, sub_spec.
  destruct (Prim2SF t) as [s | s | | s m e] eqn:Et.
  - destruct s; reflexivity.
  - destruct s; reflexivity.
  - reflexivity.
  - unfold SF64sub, SFsub. cbv zeta. rewrite Z.sub_diag.
    reflexivity.
Qed.

(** ** The alert state machine *)

Lemma trigger_alert_eq (w : World) :
  trigger_alert w =
  (Ok tt,
   mkWorld (mkDetector true (clock w (reads w)) (alert_duration (self w)))
           (clock w) (S (reads w)) (stdout w ++ alert_banner)).
Proof.
  unfold trigger_alert, alert_banner, bind, Monad_M, set_alert_active,
    time_time, set_alert_start_time, print.
  cbn [self clock reads stdout alert_active alert_start_time alert_duration].
  rewrite <- !app_assoc. reflexivity.
Qed.

Lemma check_alert_timeout_eq (w : World) :
  check_alert_timeout w =
  (Ok tt,
   if alert_active (self w) then
     mkWorld
       (mkDetector
          (negb (PyFloat.gt
                   (PrimFloat.sub (clock w (reads w))
                                  (alert_start_time (self w)))
                   (alert_duration (self w))))
          (alert_start_time (self w)) (alert_duration (self w)))
       (clock w) (S (reads w)) (stdout w)
   else w).
Proof.
  unfold check_alert_timeout. destruct w as [[a s d] c r o]. cbn.
  destruct a; cbn; [ | reflexivity ].
  unfold PyFloat.gt.
  destruct (PrimFloat.ltb d (PrimFloat.sub (c r) s)); reflexivity.
Qed.

(** ** One hand *)

Lemma process_hand_eq (f : Frame) (idx : nat) (h : HandLandmarks)
    (info : DetectionInfo) (w : World) :
  process_hand f idx h info w =
  match hand_triggers f idx h with
  | Ok true =>
      (Ok (mkInfo (faces_detected info) (hands_detected info) true),
       snd (trigger_alert w))
  | Ok false => (Ok info, w)
  | Raise e => (Raise e, w)
  end.
Proof.
  unfold process_hand, hand_triggers, lift.
  cbn [bind ret Monad_M Monad_result].
  repeat match goal with
  | |- context [match ?r with Ok _ => _ | Raise _ => _ end] =>
      lazymatch r with
      | context [match _ with _ => _ end] => fail
      | _ => destruct r; try reflexivity
      end
  | |- context [if truthy ?v then _ else _] =>
      destruct (truthy v); try reflexivity
  end.
  match goal with
  | |- context [if ?c then _ else _] => destruct c
  end; [ rewrite trigger_alert_eq | ]; reflexivity.
Qed.

Lemma hands_loop_replay (f : Frame) (hands : list HandLandmarks) :
  forall (idx : nat) (info : DetectionInfo) (w : World),
    hands_loop f idx hands info w = replay (loop_decisions f idx hands) info w.
Proof.
  induction hands as [ | h rest IH ]; intros idx info w; [ reflexivity | ].
  cbn [hands_loop loop_decisions replay bind Monad_M].
  rewrite process_hand_eq.
  destruct (hand_triggers f idx h) as [ [ | ] | e ].
  - rewrite trigger_alert_eq. cbn [snd]. apply IH.
  - apply IH.
  - reflexivity.
Qed.

(** ** The loop over the hands *)

Lemma replay_frame (ds : list (result bool)) :
  forall (info : DetectionInfo) (w : World) r w',
    replay ds info w = (r, w') ->
    clock w' = clock w /\
    alert_duration (self w') = alert_duration (self w) /\
    reads w <= reads w'.
Proof.
  induction ds as [ | [ [ | ] | e ] ds IH ]; intros info w r w' Hrun;
    cbn [replay bind ret Monad_M lift] in Hrun.
  - inversion Hrun; subst. auto.
  - rewrite trigger_alert_eq in Hrun.
    apply IH in Hrun. cbn [clock self reads alert_duration] in Hrun.
    destruct Hrun as (Hc & Hd & Hr). repeat split; auto; lia.
  - eapply IH, Hrun.
  - inversion Hrun; subst. auto.
Qed.

(** Without a decision to trigger, the loop leaves the state and
    [detection_info] as they were, whether it completes or raises. *)
Lemma replay_no_trigger (ds : list (result bool)) :
  ~ In (Ok true) ds ->
  forall (info : DetectionInfo) (w : World) r w',
    replay ds info w = (r, w') ->
    w' = w /\ (forall info', r = Ok info' -> info' = info).
Proof.
  induction ds as [ | [ [ | ] | e ] ds IH ]; intros Hno info w r w' Hrun;
    cbn [replay bind ret Monad_M lift] in Hrun.
  - inversion Hrun; subst. split; [ reflexivity | congruence ].
  - exfalso. apply Hno. left. reflexivity.
  - eapply IH; [ | exact Hrun ]. intros Hin. apply Hno. right. exact Hin.
  - inversion Hrun; subst. split; [ reflexivity | discriminate ].
Qed.

(** A loop that completes took a decision for every hand, and reports a
    left fist exactly when one of them was to trigger. *)
Lemma replay_Ok (ds : list (result bool)) :
  forall (info info' : DetectionInfo) (w w' : World),
    replay ds info w = (Ok info', w') ->
    Forall (fun d => exists b : bool, d = Ok b) ds /\
    faces_detected info' = faces_detected info /\
    hands_detected info' = hands_detected info /\
    (left_fist_detected info' = true <->
     left_fist_detected info = true \/ In (Ok true) ds).
Proof.
  induction ds as [ | [ [ | ] | e ] ds IH ]; intros info info' w w' Hrun;
    cbn [replay bind ret Monad_M lift] in Hrun.
  - inversion Hrun; subst. repeat split; auto.
    intros [ H | [] ]; exact H.
  - rewrite trigger_alert_eq in Hrun. apply IH in Hrun.
    cbn [faces_detected hands_detected left_fist_detected] in Hrun.
    destruct Hrun as (Hall & Hf & Hh & Hl).
    repeat split; eauto.
    + intros _. right. left. reflexivity.
    + intros _. apply Hl. left. reflexivity.
  - apply IH in Hrun. destruct Hrun as (Hall & Hf & Hh & Hl).
    repeat split; eauto.
    + intros H. apply Hl in H. destruct H as [ H | H ]; [ left | right; right ];
        exact H.
    + intros [ H | [ H | H ] ]; [ | discriminate | ]; apply Hl; auto.
  - discriminate.
Qed.

Lemma replay_total (ds : list (result bool)) :
  Forall (fun d => exists b : bool, d = Ok b) ds ->
  forall (info : DetectionInfo) (w : World),
    exists info' w', replay ds info w = (Ok info', w').
Proof.
  induction 1 as [ | d ds [b ->] _ IH ]; intros info w.
  - cbn. eauto.
  - destruct b; cbn [replay bind ret Monad_M].
    + rewrite trigger_alert_eq. apply IH.
    + apply IH.
Qed.

Lemma replay_triggered (ds : list (result bool)) :
  forall (info info' : DetectionInfo) (w w' : World) (r0 : nat),
    replay ds info w = (Ok info', w') ->
    r0 <= reads w ->
    In (Ok true) ds \/ triggered_since r0 w ->
    triggered_since r0 w'.
Proof.
  induction ds as [ | [ [ | ] | e ] ds IH ]; intros info info' w w' r0 Hrun Hr0 Hpre;
    cbn [replay bind ret Monad_M lift] in Hrun.
  - inversion Hrun; subst. destruct Hpre as [ [] | Hpre ]. exact Hpre.
  - rewrite trigger_alert_eq in Hrun.
    apply (IH _ _ _ _ r0 Hrun); cbn [reads]; [ lia | ].
    right. split; [ reflexivity | ].
    exists (reads w). cbn [self reads clock alert_start_time].
    split; [ lia | reflexivity ].
  - apply (IH _ _ _ _ r0 Hrun Hr0).
    destruct Hpre as [ [ Hin | Hin ] | Hpre ];
      [ discriminate | left; exact Hin | right; exact Hpre ].
  - discriminate.
Qed.

Lemma loop_decisions_nth (f : Frame) (hands : list HandLandmarks) :
  forall idx k,
    nth_error (loop_decisions f idx hands) k =
    option_map (hand_triggers f (idx + k)) (nth_error hands k).
Proof.
  induction hands as [ | h rest IH ]; intros idx k.
  - destruct k; reflexivity.
  - destruct k as [ | k ]; cbn [loop_decisions nth_error option_map].
    + rewrite Nat.add_0_r. reflexivity.
    + rewrite IH. rewrite Nat.add_succ_r. reflexivity.
Qed.

Lemma loop_decisions_length (f : Frame) (hands : list HandLandmarks) :
  forall idx, List.length (loop_decisions f idx hands) = List.length hands.
Proof.
  induction hands as [ | h rest IH ]; intros idx; cbn; [ | rewrite IH ];
    reflexivity.
Qed.

(** ** The frame processor *)

Lemma truthy_false_items {A : Type} (v : option (list A)) :
  truthy v = false <-> items v = [].
Proof.
  destruct v as [ [ | a l ] | ]; cbn; split; congruence.
Qed.

Lemma len_items {A : Type} (v : option (list A)) :
  len v = List.length (items v).
Proof. destruct v; reflexivity. Qed.

(** [process_frame] is the loop over the hands from [initial_info],
    followed, when the loop completes, by the timeout check. *)
Lemma process_frame_eq (f : Frame) (w : World) :
  process_frame f w =
  match replay (loop_decisions f 0
                  (items (multi_hand_landmarks (hand_results f))))
               (initial_info f) w with
  | (Ok info, w1) => (Ok info, snd (check_alert_timeout w1))
  | (Raise e, w1) => (Raise e, w1)
  end.
Proof.
  unfold process_frame, initial_info.
  destruct f as [hh ww [dets] [hands handed]].
  cbn [face_results hand_results detections multi_hand_landmarks
       multi_handedness faces_detected hands_detected left_fist_detected].
  assert (Hfaces :
    (if truthy dets then mkInfo (len dets) 0 false else mkInfo 0 0 false)
    = mkInfo (len dets) 0 false)
    by (destruct dets as [ [ | ] | ]; reflexivity).
  rewrite Hfaces. clear Hfaces.
  cbn [bind ret Monad_M faces_detected hands_detected left_fist_detected].
  destruct hands as [ [ | h hands ] | ]; cbn [truthy items len].
  - cbn [loop_decisions replay ret Monad_M].
    rewrite check_alert_timeout_eq. reflexivity.
  - rewrite hands_loop_replay.
    match goal with
    | |- context [replay ?ds ?i w] =>
        destruct (replay ds i w) as [ [info | e] w1 ]
    end; [ | reflexivity ].
    rewrite check_alert_timeout_eq. reflexivity.
  - cbn [loop_decisions replay ret Monad_M].
    rewrite check_alert_timeout_eq. reflexivity.
Qed.

(** A hand triggers exactly when the provider labels it [Left] and the
    classifier says fist. *)
Lemma hand_triggers_Ok (f : Frame) (idx : nat) (h : HandLandmarks) (b : bool) :
  hand_triggers f idx h = Ok b ->
  (b = true <->
   exists hd c,
     nth_error (items (multi_handedness (hand_results f))) idx = Some hd /\
     nth_error (classification hd) 0 = Some c /\
     label c = "Left"%string /\
     is_fist h = Ok true).
Proof.
  unfold hand_triggers. cbn [bind ret Monad_result].
  destruct (is_fist h) as [ fist | ]; [ | discriminate ].
  destruct (is_left_hand h (width f)); [ | discriminate ].
  destruct (truthy (multi_handedness (hand_results f))) eqn:Htruthy.
  - destruct (getitem _ idx) as [ hd | ] eqn:Hhd; [ | discriminate ].
    destruct (getitem (classification hd) 0) as [ c | ] eqn:Hc;
      [ | discriminate ].
    destruct (getitem (landmark h) 0); [ | discriminate ].
    destruct (PyFloat.to_int _); [ | discriminate ].
    destruct (PyFloat.to_int _); [ | discriminate ].
    apply getitem_Ok in Hhd, Hc.
    intros Hb. inversion Hb; subst b. clear Hb.
    rewrite andb_true_iff, String.eqb_eq. split.
    + intros [ Hl -> ]. exists hd, c. auto.
    + intros (hd' & c' & Hhd' & Hc' & Hl & Hfist).
      rewrite Hhd in Hhd'. inversion Hhd'; subst hd'.
      rewrite Hc in Hc'. inversion Hc'; subst c'.
      split; congruence.
  - intros Hb. inversion Hb; subst b.
    apply truthy_false_items in Htruthy. rewrite Htruthy.
    split; [ discriminate | ].
    intros (hd & c & Hhd & _). destruct idx; discriminate.
Qed.

(** The decisions to trigger are the qualifying hands. *)
Lemma decision_qualifies (f : Frame) (k : nat) :
  nth_error (loop_decisions f 0
               (items (multi_hand_landmarks (hand_results f)))) k
    = Some (Ok true) ->
  Spec.qualifies f k.
Proof.
  rewrite loop_decisions_nth. cbn [Nat.add].
  destruct (nth_error _ k) as [ h | ] eqn:Hh; [ | discriminate ].
  cbn [option_map]. intros Hd. inversion Hd as [ Hd' ].
  destruct (proj1 (hand_triggers_Ok f k h true Hd') eq_refl)
    as (hd & c & Hhd & Hc & Hl & Hfist).
  exists h, hd, c. auto.
Qed.

Lemma qualifies_decision (f : Frame) (k : nat) :
  frame_passes f ->
  Spec.qualifies f k ->
  nth_error (loop_decisions f 0
               (items (multi_hand_landmarks (hand_results f)))) k
    = Some (Ok true).
Proof.
  intros Hpass (h & hd & c & Hh & Hhd & Hc & Hl & Hfist).
  rewrite loop_decisions_nth, Hh. cbn [option_map Nat.add].
  assert (Hin : In (hand_triggers f k h)
                   (loop_decisions f 0
                      (items (multi_hand_landmarks (hand_results f))))).
  { apply nth_error_In with (n := k).
    rewrite loop_decisions_nth, Hh. reflexivity. }
  destruct (proj1 (Forall_forall _ _) Hpass _ Hin) as [ b Hb ].
  rewrite Hb. f_equal. f_equal.
  apply (hand_triggers_Ok f k h b Hb). exists hd, c. auto.
Qed.

Lemma no_trigger_no_decision (f : Frame) :
  ~ Spec.trigger_event f ->
  ~ In (Ok true) (loop_decisions f 0
                    (items (multi_hand_landmarks (hand_results f)))).
Proof.
  intros Hno Hin. apply In_nth_error in Hin. destruct Hin as [ k Hk ].
  apply Hno. exists k. apply decision_qualifies, Hk.
Qed.

Lemma trigger_event_decision (f : Frame) :
  frame_passes f ->
  Spec.trigger_event f ->
  In (Ok true) (loop_decisions f 0
                  (items (multi_hand_landmarks (hand_results f)))).
Proof.
  intros Hpass [ k Hk ].
  eapply nth_error_In, qualifies_decision; eauto.
Qed.

(** A call that returns took the loop to its end. *)
Lemma process_frame_Ok (f : Frame) (w w' : World) (info : DetectionInfo) :
  process_frame f w = (Ok info, w') ->
  exists w1,
    replay (loop_decisions f 0
              (items (multi_hand_landmarks (hand_results f))))
           (initial_info f) w = (Ok info, w1) /\
    w' = snd (check_alert_timeout w1) /\
    frame_passes f.
Proof.
  rewrite process_frame_eq.
  destruct (replay _ _ w) as [ [ info1 | e ] w1 ] eqn:Hrun; [ | discriminate ].
  intros Hret. inversion Hret; subst. exists w1.
  repeat split. apply (replay_Ok _ _ _ _ _ Hrun).
Qed.

Lemma is_left_hand_in_range (h : HandLandmarks) (image_width : Z) :
  10 <= List.length (landmark h) ->
  is_left_hand h image_width
  = Ok (PyFloat.lt (x (Spec.point h 0)) 0.5%float).
Proof.
  intros Hlen. unfold is_left_hand, Spec.point.
  rewrite (@getitem_in_range _ (landmark h) 0 (mkLandmark 0 0 0)) by lia.
  rewrite (@getitem_in_range _ (landmark h) 9 (mkLandmark 0 0 0)) by lia.
  reflexivity.
Qed.

(** On a hand of a well-formed frame the loop's body does not raise. *)
Lemma hand_triggers_total (f : Frame) (idx : nat) (h : HandLandmarks) :
  well_formed f ->
  nth_error (items (multi_hand_landmarks (hand_results f))) idx = Some h ->
  exists b, hand_triggers f idx h = Ok b.
Proof.
  intros [ Hhands Hhanded ] Hh.
  assert (Hin : In h (items (multi_hand_landmarks (hand_results f))))
    by (eapply nth_error_In; eauto).
  destruct (proj1 (Forall_forall _ _) Hhands h Hin)
    as (Hlen & lx & ly & Hlx & Hly & _ & _).
  unfold hand_triggers.
  rewrite is_fist_in_range by lia.
  rewrite is_left_hand_in_range by lia.
  cbn [bind ret Monad_result].
  destruct (truthy (multi_handedness (hand_results f))) eqn:Htruthy;
    [ | eauto ].
  destruct Hhanded as [ Hnone | [ Hcover Hclass ] ].
  { apply truthy_false_items in Hnone. congruence. }
  assert (Hidx : idx < List.length (items (multi_handedness (hand_results f)))).
  { apply Nat.lt_le_trans with (2 := Hcover).
    apply nth_error_Some. congruence. }
  destruct (nth_error (items (multi_handedness (hand_results f))) idx)
    as [ hd | ] eqn:Hhd; [ | apply nth_error_None in Hhd; lia ].
  rewrite (proj2 (getitem_Ok _ _ _) Hhd).
  assert (Hne : classification hd <> []).
  { apply (proj1 (Forall_forall _ _) Hclass). eapply nth_error_In; eauto. }
  destruct (classification hd) as [ | c cs ] eqn:Hc; [ congruence | ].
  cbn [getitem nth_error].
  rewrite (@getitem_in_range _ (landmark h) 0 (mkLandmark 0 0 0)) by lia.
  fold (Spec.point h 0). rewrite Hlx, Hly. eauto.
Qed.

Lemma well_formed_passes (f : Frame) : well_formed f -> frame_passes f.
Proof.
  intros Hwf. unfold frame_passes. apply Forall_forall. intros d Hin.
  apply In_nth_error in Hin. destruct Hin as [ k Hk ].
  rewrite loop_decisions_nth in Hk. cbn [Nat.add] in Hk.
  destruct (nth_error _ k) as [ h | ] eqn:Hh; [ | discriminate ].
  cbn [option_map] in Hk. inversion Hk; subst d.
  eapply hand_triggers_total; eauto.
Qed.

(** A frame that passes is processed to the end. *)
Lemma process_frame_total (f : Frame) (w : World) :
  frame_passes f -> exists info w', process_frame f w = (Ok info, w').
Proof.
  intros Hpass. rewrite process_frame_eq.
  destruct (replay_total _ Hpass (initial_info f) w) as (info & w1 & Hrun).
  rewrite Hrun. eauto.
Qed.

(** Without a trigger event [process_frame] changes the state by its
    timeout check alone, and not at all when a hand makes it raise. *)
Lemma process_frame_no_trigger (f : Frame) (w : World) :
  ~ Spec.trigger_event f ->
  process_frame f w
  = (Ok (initial_info f), snd (check_alert_timeout w)) \/
  exists e, process_frame f w = (Raise e, w).
Proof.
  intros Hno. rewrite process_frame_eq.
  destruct (replay _ _ w) as [ r w1 ] eqn:Hrun.
  destruct (replay_no_trigger _ (no_trigger_no_decision f Hno) _ _ _ _ Hrun)
    as [ -> Hinfo ].
  destruct r as [ info | e ]; [ left | right; eauto ].
  rewrite (Hinfo info eq_refl). reflexivity.
Qed.

(** ** The alert's timing *)

(** After a frame with a trigger event the start time is a reading the
    loop took, and the alert is active unless the timeout check's reading
    is more than the duration later. *)
Lemma trigger_frame_state (f : Frame) (w w' : World) (info : DetectionInfo) :
  process_frame f w = (Ok info, w') ->
  Spec.trigger_event f ->
  exists n,
    reads w <= n < reads w' - 1 /\
    clock w' = clock w /\
    alert_start_time (self w') = clock w n /\
    alert_duration (self w') = alert_duration (self w) /\
    alert_active (self w')
    = negb (PyFloat.gt
              (PrimFloat.sub (clock w (reads w' - 1)) (clock w n))
              (alert_duration (self w))).
Proof.
  intros Hret Htrig.
  destruct (process_frame_Ok f w w' info Hret) as (w1 & Hrun & -> & Hpass).
  pose proof (trigger_event_decision f Hpass Htrig) as Hin.
  destruct (replay_frame _ _ _ _ _ Hrun) as (Hclock & Hdur & Hreads).
  destruct (replay_triggered _ _ _ _ _ (reads w) Hrun (Nat.le_refl _)
              (or_introl Hin)) as (Hactive & n & Hn & Hstart).
  rewrite check_alert_timeout_eq. cbn [snd]. rewrite Hactive.
  cbn [self clock reads alert_active alert_start_time alert_duration].
  exists n. rewrite Nat.sub_1_r. cbn [Nat.pred].
  rewrite Hstart, Hdur, Hclock. repeat split; auto; lia.
Qed.

(** C3: [trigger_alert] makes the alert active and sets its start time to
    the clock's reading, from every prior state; a frame with a trigger
    event processed at the instant T ends active with start time T; and
    after triggers at 0 s and 1.5 s the alert is still active in the
    frame at 3.0 s. *)
Theorem trigger_activates_and_restarts_window :
  (forall w : World,
     exists w', trigger_alert w = (Ok tt, w') /\
                alert_active (self w') = true /\
                alert_start_time (self w') = clock w (reads w)) /\
  (forall (f : Frame) (w w' : World) (info : DetectionInfo) (T : float),
     alert_duration (self w) = 2%float ->
     process_frame f w = (Ok info, w') ->
     Spec.trigger_event f ->
     (forall n, reads w <= n < reads w' -> clock w n = T) ->
     alert_active (self w') = true /\ alert_start_time (self w') = T) /\
  detector_after Samples.scenario_D_frames Samples.scenario_D_world
  = mkDetector true 1.5 2.
Proof.
  split; [ | split ].
  - intros w. rewrite trigger_alert_eq. eexists. split; [ reflexivity | ].
    split; reflexivity.
  - intros f w w' info T Hdur Hret Htrig Hnow.
    destruct (trigger_frame_state f w w' info Hret Htrig)
      as (n & Hn & _ & Hstart & _ & Hactive).
    rewrite Hactive, Hstart, Hdur.
    rewrite (Hnow n) by lia. rewrite (Hnow (reads w' - 1)) by lia.
    rewrite elapsed_since_now. split; reflexivity.
  - vm_compute. reflexivity.
Qed.

Lemma trigger_activates_and_restarts_window_witness :
  exists info w',
    process_frame Samples.left_fist_frame Samples.expired_world = (Ok info, w') /\
    alert_active (self w') = true /\
    alert_start_time (self w') = 100%float.
Proof.
  do 2 eexists. split; [ vm_compute; reflexivity | ].
  apply (proj1 (proj2 trigger_activates_and_restarts_window)
           Samples.left_fist_frame Samples.expired_world _
           (mkInfo 1 1 true) 100%float).
  - reflexivity.
  - vm_compute. reflexivity.
  - exists 0, Samples.fist_hand, (Samples.handed "Left"),
      (mkClassification 0 0.9 "Left").
    repeat split.
  - intros n _. destruct n; reflexivity.
Defined.

(** C4: the timeout check on an active alert of duration 2 makes it
    inactive when the elapsed time, the clock's reading minus the start
    time, is greater than 2, and leaves it active otherwise; after one
    trigger at 0 s the alert is active in the frame at 1.9 s and inactive
    in the frame at 2.1 s. *)
Theorem timeout_deactivates_after_duration :
  (forall w : World,
     alert_active (self w) = true ->
     alert_duration (self w) = 2%float ->
     exists w',
       check_alert_timeout w = (Ok tt, w') /\
       alert_start_time (self w') = alert_start_time (self w) /\
       (PyFloat.gt (PrimFloat.sub (clock w (reads w))
                                  (alert_start_time (self w))) 2 = true ->
        alert_active (self w') = false) /\
       (PyFloat.gt (PrimFloat.sub (clock w (reads w))
                                  (alert_start_time (self w))) 2 = false ->
        alert_active (self w') = true)) /\
  alert_active (detector_after (firstn 1 Samples.scenario_C_frames)
                               Samples.scenario_C_world) = true /\
  alert_active (detector_after (firstn 2 Samples.scenario_C_frames)
                               Samples.scenario_C_world) = true /\
  alert_active (detector_after Samples.scenario_C_frames
                               Samples.scenario_C_world) = false.
Proof.
  split; [ | vm_compute; repeat split ].
  intros w Hactive Hdur. rewrite check_alert_timeout_eq, Hactive, Hdur.
  eexists. split; [ reflexivity | ].
  cbn [self alert_active alert_start_time].
  split; [ reflexivity | ].
  split; intros ->; reflexivity.
Qed.

Lemma timeout_deactivates_after_duration_witness :
  alert_active (self (snd (check_alert_timeout Samples.expired_world))) = false.
Proof.
  destruct (proj1 timeout_deactivates_after_duration Samples.expired_world
              eq_refl eq_refl) as (w' & Hrun & _ & Hlate & _).
  rewrite Hrun. apply Hlate. vm_compute. reflexivity.
Defined.

(** C5, as stated, fails: [trigger_alert] and [check_alert_timeout] read
    the clock separately. A frame with a left fist whose trigger reads
    100 s and whose timeout check reads 102.5 s reports the fist and ends
    with the alert inactive. *)
Lemma trigger_frame_ends_inactive_when_check_is_late :
  Spec.trigger_event Samples.left_fist_frame /\
  process_frame Samples.left_fist_frame Samples.stalled_world
  = (Ok (mkInfo 1 1 true),
     mkWorld (mkDetector false 100 2) (clock Samples.stalled_world) 2
             alert_banner).
Proof.
  split.
  - exists 0, Samples.fist_hand, (Samples.handed "Left"),
      (mkClassification 0 0.9 "Left").
    repeat split.
  - vm_compute. reflexivity.
Qed.

(** C5, amended: the triggers come before the timeout check, so a frame
    with a qualifying left fist that is processed to the end leaves the
    alert active, provided the clock readings taken during the frame are
    no more than 2 seconds after one another; the state the alert had
    before the frame does not matter. *)
Theorem trigger_frame_stays_active
    (f : Frame) (w w' : World) (info : DetectionInfo) :
  alert_duration (self w) = 2%float ->
  process_frame f w = (Ok info, w') ->
  Spec.trigger_event f ->
  readings_within w (reads w) (reads w' - reads w) 2 ->
  alert_active (self w') = true.
Proof.
  intros Hdur Hret Htrig Hwithin.
  destruct (trigger_frame_state f w w' info Hret Htrig)
    as (n & Hn & _ & _ & _ & Hactive).
  rewrite Hactive, Hdur.
  rewrite (Hwithin n (reads w' - 1)) by lia. reflexivity.
Qed.

Lemma trigger_frame_stays_active_witness :
  alert_active
    (self (snd (process_frame Samples.left_fist_frame Samples.expired_world)))
  = true.
Proof.
  apply (trigger_frame_stays_active Samples.left_fist_frame
           Samples.expired_world _ (mkInfo 1 1 true)).
  - reflexivity.
  - vm_compute. reflexivity.
  - exists 0, Samples.fist_hand, (Samples.handed "Left"),
      (mkClassification 0 0.9 "Left").
    repeat split.
  - intros i j _ _ _. vm_compute. reflexivity.
Defined.

(** ** The detection summary *)

Lemma reported_iff_trigger_event
    (f : Frame) (w w' : World) (info : DetectionInfo) :
  process_frame f w = (Ok info, w') ->
  (left_fist_detected info = true <-> Spec.trigger_event f).
Proof.
  intros Hret.
  destruct (process_frame_Ok f w w' info Hret) as (w1 & Hrun & _ & Hpass).
  destruct (replay_Ok _ _ _ _ _ Hrun) as (_ & _ & _ & Hleft).
  rewrite Hleft. cbn [initial_info left_fist_detected]. split.
  - intros [ H | Hin ]; [ discriminate | ].
    apply In_nth_error in Hin. destruct Hin as [ k Hk ].
    exists k. apply decision_qualifies, Hk.
  - intros Htrig. right. apply trigger_event_decision; assumption.
Qed.



(** The report of a frame does not follow the alert: a frame without a
    fist reports none while the alert is still active, and a frame with
    one reports it from the inactive state too. *)
Example report_independent_of_alert :
  (exists w',
     process_frame Samples.no_trigger_frame
                   (Samples.world_at (mkDetector true 10 2) [] 10.5)
     = (Ok (mkInfo 1 2 false), w') /\ alert_active (self w') = true) /\
  (exists w',
     process_frame Samples.left_fist_frame (Samples.world_at init [] 10.5)
     = (Ok (mkInfo 1 1 true), w')).
Proof.
  split; eexists; [ split | ]; vm_compute; reflexivity.
Qed.

(** ** The position heuristic plays no part *)

(** Two hands with the same label and the same classifier outcome get the
    same decision, wherever they are in the image. *)
Lemma hand_triggers_agree (f1 f2 : Frame) (idx : nat)
    (h1 h2 : HandLandmarks) (b1 b2 : bool) :
  multi_handedness (hand_results f1) = multi_handedness (hand_results f2) ->
  is_fist h1 = is_fist h2 ->
  hand_triggers f1 idx h1 = Ok b1 ->
  hand_triggers f2 idx h2 = Ok b2 ->
  b1 = b2.
Proof.
  intros Hlabels Hfist H1 H2.
  apply hand_triggers_Ok in H1, H2.
  rewrite Hlabels, Hfist in H1.
  apply eq_true_iff_eq. rewrite H1, H2. reflexivity.
Qed.

Lemma loop_decisions_agree (f1 f2 : Frame) (hs1 hs2 : list HandLandmarks) :
  multi_handedness (hand_results f1) = multi_handedness (hand_results f2) ->
  Forall2 (fun h1 h2 => is_fist h1 = is_fist h2) hs1 hs2 ->
  forall idx,
    Forall (fun d => exists b : bool, d = Ok b) (loop_decisions f1 idx hs1) ->
    Forall (fun d => exists b : bool, d = Ok b) (loop_decisions f2 idx hs2) ->
    loop_decisions f1 idx hs1 = loop_decisions f2 idx hs2.
Proof.
  intros Hlabels Hhands.
  induction Hhands as [ | h1 h2 hs1 hs2 Hfist _ IH ]; intros idx Hok1 Hok2;
    [ reflexivity | ].
  cbn [loop_decisions] in *.
  inversion Hok1 as [ | d1 ds1 [ b1 Hb1 ] Hrest1 ]; subst.
  inversion Hok2 as [ | d2 ds2 [ b2 Hb2 ] Hrest2 ]; subst.
  rewrite (IH (S idx) Hrest1 Hrest2), Hb1, Hb2.
  rewrite (hand_triggers_agree f1 f2 idx h1 h2 b1 b2 Hlabels Hfist Hb1 Hb2).
  reflexivity.
Qed.

(** The loop's effect on the state and on [left_fist_detected] depends on
    the decisions alone. *)
Lemma replay_info_irrelevant (ds : list (result bool)) :
  forall (a b a' b' : DetectionInfo) (w wa wb : World),
    left_fist_detected a = left_fist_detected b ->
    replay ds a w = (Ok a', wa) ->
    replay ds b w = (Ok b', wb) ->
    wa = wb /\ left_fist_detected a' = left_fist_detected b'.
Proof.
  induction ds as [ | [ [ | ] | e ] ds IH ]; intros a b a' b' w wa wb Hab Ha Hb;
    cbn [replay bind ret Monad_M lift] in Ha, Hb.
  - inversion Ha; inversion Hb; subst. split; [ reflexivity | exact Hab ].
  - rewrite trigger_alert_eq in Ha, Hb.
    eapply IH; [ | exact Ha | exact Hb ]. reflexivity.
  - eapply IH; eauto.
  - discriminate.
Qed.

(** C7: the trigger follows the provider's label and the verdict of
    [is_fist] alone. Two frames with the same handedness list whose hands
    have, place by place, the same outcome of [is_fist] get, when both are
    processed to the end from the same world, the same
    [left_fist_detected], the same count of hands and the same final
    world: the same calls of [trigger_alert]. Nothing is asked of the
    wrists, which decide [is_left_hand]. *)
Theorem trigger_ignores_position_heuristic
    (f1 f2 : Frame) (w w1 w2 : World) (i1 i2 : DetectionInfo) :
  multi_handedness (hand_results f1) = multi_handedness (hand_results f2) ->
  Forall2 (fun h1 h2 => is_fist h1 = is_fist h2)
    (items (multi_hand_landmarks (hand_results f1)))
    (items (multi_hand_landmarks (hand_results f2))) ->
  process_frame f1 w = (Ok i1, w1) ->
  process_frame f2 w = (Ok i2, w2) ->
  left_fist_detected i1 = left_fist_detected i2 /\
  hands_detected i1 = hands_detected i2 /\
  w1 = w2 /\
  (Spec.trigger_event f1 <-> Spec.trigger_event f2).
Proof.
  intros Hlabels Hhands Hret1 Hret2.
  pose proof (reported_iff_trigger_event f1 w w1 i1 Hret1) as Hrep1.
  pose proof (reported_iff_trigger_event f2 w w2 i2 Hret2) as Hrep2.
  destruct (process_frame_Ok f1 w w1 i1 Hret1) as (v1 & Hrun1 & -> & Hpass1).
  destruct (process_frame_Ok f2 w w2 i2 Hret2) as (v2 & Hrun2 & -> & Hpass2).
  rewrite (loop_decisions_agree f1 f2 _ _ Hlabels Hhands 0 Hpass1 Hpass2)
    in Hrun1.
  destruct (replay_info_irrelevant _ (initial_info f1) (initial_info f2)
              _ _ _ _ _ eq_refl Hrun1 Hrun2)
    as [ <- Hleft ].
  destruct (replay_Ok _ _ _ _ _ Hrun1) as (_ & _ & Hcount1 & _).
  destruct (replay_Ok _ _ _ _ _ Hrun2) as (_ & _ & Hcount2 & _).
  split; [ exact Hleft | ].
  split.
  - rewrite Hcount1, Hcount2. cbn [initial_info hands_detected].
    rewrite !len_items. apply (Forall2_length Hhands).
  - split; [ reflexivity | ].
    rewrite <- Hrep1, <- Hrep2, Hleft. reflexivity.
Qed.

Lemma trigger_ignores_position_heuristic_witness :
  is_left_hand Samples.fist_hand 1280 = Ok true /\
  is_left_hand Samples.fist_hand_right_side 1280 = Ok false /\
  exists i1 w1 i2 w2,
    process_frame Samples.left_fist_frame Samples.expired_world = (Ok i1, w1) /\
    process_frame Samples.left_fist_frame_right_side Samples.expired_world
    = (Ok i2, w2) /\
    left_fist_detected i1 = true /\
    left_fist_detected i1 = left_fist_detected i2 /\
    w1 = w2.
Proof.
  split; [ vm_compute; reflexivity | ].
  split; [ vm_compute; reflexivity | ].
  do 4 eexists.
  split; [ vm_compute; reflexivity | ].
  split; [ vm_compute; reflexivity | ].
  split; [ reflexivity | ].
  assert (Hsame :
    multi_handedness (hand_results Samples.left_fist_frame)
    = multi_handedness (hand_results Samples.left_fist_frame_right_side))
    by reflexivity.
  assert (Hfists :
    Forall2 (fun h1 h2 => is_fist h1 = is_fist h2)
      (items (multi_hand_landmarks (hand_results Samples.left_fist_frame)))
      (items (multi_hand_landmarks
                (hand_results Samples.left_fist_frame_right_side))))
    by (repeat constructor).
  destruct (trigger_ignores_position_heuristic
              Samples.left_fist_frame Samples.left_fist_frame_right_side
              Samples.expired_world _ _ _ _ Hsame Hfists
              ltac:(vm_compute; reflexivity) ltac:(vm_compute; reflexivity))
    as (Hleft & _ & Hworld & _).
  split; [ exact Hleft | exact Hworld ].
Defined.

(** ** Frames without hands, without triggers, without labels *)

(** C8: when the provider returns no hand ([None] or an empty list),
    [process_frame] returns the summary with the number of faces, 0 hands
    and no left fist; the state is the one the timeout check leaves, and
    an inactive alert stays inactive. *)
Theorem no_hands_summary (f : Frame) (w : World) :
  items (multi_hand_landmarks (hand_results f)) = [] ->
  process_frame f w
  = (Ok (mkInfo (List.length (items (detections (face_results f)))) 0 false),
     snd (check_alert_timeout w)) /\
  (alert_active (self w) = false ->
   alert_active (self (snd (process_frame f w))) = false).
Proof.
  intros Hnone.
  assert (Hret : process_frame f w
                 = (Ok (mkInfo (List.length (items (detections (face_results f))))
                               0 false),
                    snd (check_alert_timeout w))).
  { rewrite process_frame_eq, Hnone. cbn [loop_decisions replay ret Monad_M].
    unfold initial_info. rewrite !len_items, Hnone. reflexivity. }
  split; [ exact Hret | ].
  intros Hinactive. rewrite Hret, check_alert_timeout_eq. cbn [snd].
  rewrite Hinactive. exact Hinactive.
Qed.

Lemma no_hands_summary_witness :
  process_frame Samples.no_hands_frame Samples.expired_world
  = (Ok (mkInfo 2 0 false),
     snd (check_alert_timeout Samples.expired_world)) /\
  process_frame Samples.empty_hands_frame (Samples.world_at init [] 5)
  = (Ok (mkInfo 0 0 false), Samples.world_at init [] 5).
Proof.
  split.
  - apply (no_hands_summary Samples.no_hands_frame Samples.expired_world).
    reflexivity.
  - apply (no_hands_summary Samples.empty_hands_frame
             (Samples.world_at init [] 5)).
    reflexivity.
Defined.

(** C9: the timeout check leaves an inactive alert as it is, and a call
    of [process_frame] on a frame without a trigger event, whether it
    returns or raises, leaves an inactive alert inactive, from every
    state and at every reading of the clock. *)
Theorem timeout_never_activates :
  (forall w : World,
     alert_active (self w) = false ->
     check_alert_timeout w = (Ok tt, w)) /\
  (forall (f : Frame) (w : World),
     ~ Spec.trigger_event f ->
     alert_active (self w) = false ->
     alert_active (self (snd (process_frame f w))) = false) /\
  (forall (f : Frame) (w w' : World) (info : DetectionInfo),
     process_frame f w = (Ok info, w') ->
     left_fist_detected info = false ->
     alert_active (self w) = false ->
     alert_active (self w') = false).
Proof.
  assert (Hcheck : forall w : World,
            alert_active (self w) = false ->
            check_alert_timeout w = (Ok tt, w)).
  { intros w Hinactive. rewrite check_alert_timeout_eq, Hinactive.
    reflexivity. }
  assert (Hframe : forall (f : Frame) (w : World),
            ~ Spec.trigger_event f ->
            alert_active (self w) = false ->
            alert_active (self (snd (process_frame f w))) = false).
  { intros f w Hno Hinactive.
    destruct (process_frame_no_trigger f w Hno) as [ -> | [ e -> ] ];
      cbn [snd]; [ | exact Hinactive ].
    rewrite (Hcheck w Hinactive). exact Hinactive. }
  split; [ exact Hcheck | ]. split; [ exact Hframe | ].
  intros f w w' info Hret Hleft Hinactive.
  replace w' with (snd (process_frame f w)) by (rewrite Hret; reflexivity).
  apply Hframe; [ | exact Hinactive ].
  intros Htrig.
  apply (reported_iff_trigger_event f w w' info Hret) in Htrig. congruence.
Qed.

Lemma timeout_never_activates_witness :
  alert_active
    (self (snd (process_frame Samples.no_trigger_frame
                  (Samples.world_at init [] 100)))) = false.
Proof.
  apply (proj1 (proj2 timeout_never_activates) Samples.no_trigger_frame
           (Samples.world_at init [] 100)); [ | reflexivity ].
  intros (idx & h & hd & c & Hh & Hhd & Hc & Hl & Hfist).
  destruct idx as [ | [ | idx ] ]; cbn in Hh, Hhd.
  - inversion Hhd; subst hd. inversion Hc; subst c. discriminate.
  - inversion Hh; subst h. vm_compute in Hfist. discriminate.
  - destruct idx; discriminate.
Defined.

Lemma unlabelled_hand_decision (f : Frame) (idx : nat) (h : HandLandmarks) :
  items (multi_handedness (hand_results f)) = [] ->
  21 <= List.length (landmark h) ->
  hand_triggers f idx h = Ok false.
Proof.
  intros Hnone Hlen. unfold hand_triggers.
  rewrite is_fist_in_range by lia.
  rewrite is_left_hand_in_range by lia.
  cbn [bind ret Monad_result].
  rewrite (proj2 (truthy_false_items _) Hnone). reflexivity.
Qed.

(** C10: when the provider gives hand landmark sets, of 21 points each,
    but no handedness list (absent or empty), [process_frame] returns; it
    counts the hands, reports no left fist and takes no trigger, whatever
    [is_fist] says of the hands, and its state is the one the timeout
    check leaves. *)
Theorem absent_handedness_never_triggers (f : Frame) (w : World) :
  items (multi_handedness (hand_results f)) = [] ->
  Forall (fun h => List.length (landmark h) = 21)
    (items (multi_hand_landmarks (hand_results f))) ->
  process_frame f w
  = (Ok (mkInfo (List.length (items (detections (face_results f))))
                (List.length (items (multi_hand_landmarks (hand_results f))))
                false),
     snd (check_alert_timeout w)) /\
  ~ Spec.trigger_event f.
Proof.
  intros Hnone Hhands.
  assert (Hno : ~ Spec.trigger_event f).
  { intros (idx & h & hd & c & _ & Hhd & _).
    rewrite Hnone in Hhd. destruct idx; discriminate. }
  split; [ | exact Hno ].
  assert (Hpass : frame_passes f).
  { unfold frame_passes. apply Forall_forall. intros d Hin.
    apply In_nth_error in Hin. destruct Hin as [ k Hk ].
    rewrite loop_decisions_nth in Hk.
    destruct (nth_error _ k) as [ h | ] eqn:Hh; [ | discriminate ].
    cbn [option_map] in Hk. inversion Hk; subst d.
    exists false. apply unlabelled_hand_decision; [ exact Hnone | ].
    rewrite (proj1 (Forall_forall _ _) Hhands h); [ apply Nat.le_refl | ].
    eapply nth_error_In; eauto. }
  destruct (process_frame_no_trigger f w Hno) as [ Hret | [ e Hraise ] ].
  - rewrite Hret. unfold initial_info. rewrite !len_items. reflexivity.
  - destruct (process_frame_total f w Hpass) as (info & w' & Hret).
    congruence.
Qed.

Lemma absent_handedness_never_triggers_witness :
  is_fist Samples.fist_hand = Ok true /\
  process_frame Samples.unlabelled_fist_frame Samples.expired_world
  = (Ok (mkInfo 0 2 false),
     snd (check_alert_timeout Samples.expired_world)).
Proof.
  split; [ vm_compute; reflexivity | ].
  apply (absent_handedness_never_triggers Samples.unlabelled_fist_frame
           Samples.expired_world).
  - reflexivity.
  - repeat constructor.
Defined.

(** ** The duration is fixed *)

(** [alert_duration] is set by [__init__] and never assigned again: every
    call of [process_frame] keeps it, so it is 2 in every state the
    detector reaches. *)
Lemma process_frame_keeps_duration (f : Frame) (w : World) :
  alert_duration (self (snd (process_frame f w))) = alert_duration (self w).
Proof.
  rewrite process_frame_eq.
  destruct (replay _ _ w) as [ r w1 ] eqn:Hrun.
  destruct (replay_frame _ _ _ _ _ Hrun) as (_ & Hdur & _).
  destruct r as [ info | e ]; cbn [snd]; [ | exact Hdur ].
  rewrite check_alert_timeout_eq. cbn [snd].
  destruct (alert_active (self w1)); exact Hdur.
Qed.

Lemma run_frames_keeps_duration (frames : list Frame) :
  forall w : World,
    alert_duration (detector_after frames w) = alert_duration (self w).
Proof.
  unfold detector_after.
  induction frames as [ | f rest IH ]; intros w; [ reflexivity | ].
  cbn [run_frames bind ret Monad_M].
  pose proof (process_frame_keeps_duration f w) as Hstep.
  destruct (process_frame f w) as [ [ info | e ] w1 ]; cbn [snd] in *;
    [ | exact Hstep ].
  rewrite <- Hstep, <- (IH w1).
  destruct (run_frames rest w1) as [ [ infos | e ] w2 ]; reflexivity.
Qed.

(** The sample frames are well-formed. *)
Example sample_frames_well_formed :
  well_formed Samples.left_fist_frame /\
  well_formed Samples.no_trigger_frame /\
  well_formed Samples.no_hands_frame /\
  well_formed Samples.unlabelled_fist_frame.
Proof.
  assert (Hpos : forall h,
            x (Spec.point h 0) = 0.3%float -> y (Spec.point h 0) = 0.8%float ->
            label_position_defined Samples.left_fist_frame h).
  { intros h Hx Hy. exists 384%Z, 576%Z. rewrite Hx, Hy.
    unfold fits_c_int. repeat split; try lia; vm_compute; congruence. }
  repeat split;
    repeat first
      [ apply Forall_nil
      | apply Forall_cons
      | split
      | reflexivity
      | (apply Hpos; reflexivity)
      | (left; reflexivity)
      | (right; split; [ apply Nat.le_refl | ])
      | discriminate ].
Qed.

(** * The rest of the detector: properties *)

(** ** The position heuristic *)

(** X1: [is_left_hand] reads the points 0 and 9, so it raises
    [IndexError] on fewer than 10 points; otherwise it says whether the
    wrist's x is below 0.5. The image width it is given plays no part. *)
Theorem is_left_hand_by_point_count (h : HandLandmarks) (image_width : Z) :
  is_left_hand h image_width =
  if List.length (landmark h) <? 10
  then Raise IndexError
  else Ok (PyFloat.lt (x (Spec.point h 0)) 0.5%float).
Proof.
  destruct (Nat.ltb_spec (List.length (landmark h)) 10) as [ Hlt | Hge ].
  - unfold is_left_hand.
    rewrite (getitem_out_of_range (landmark h) 9) by lia.
    destruct (getitem_cases (landmark h) 0) as [ [ a -> ] | -> ]; reflexivity.
  - apply is_left_hand_in_range, Hge.
Qed.

(** ** What the classifier looks at *)

Lemma ltb_irrefl (a : float) : PrimFloat.ltb a a = false.
Proof.
  rewrite ltb_spec. unfold SFltb, SFcompare.
  destruct (Prim2SF a) as [ s | s | | s m e ]; try (destruct s; reflexivity);
    try reflexivity.
  rewrite Z.compare_refl, Pos.compare_cont_refl. destruct s; reflexivity.
Qed.

(** X2: the verdict of [is_fist] depends on eleven coordinates only: two
    hands of 21 points or more that agree on the y of the tips and PIP
    joints of the four fingers and on the x of the points 2, 4 and 5 get
    the same verdict, whatever their wrists, their z and their other
    points are. *)
Theorem is_fist_reads_eleven_coordinates (h1 h2 : HandLandmarks) :
  21 <= List.length (landmark h1) ->
  21 <= List.length (landmark h2) ->
  same_fist_coordinates h1 h2 ->
  is_fist h1 = is_fist h2.
Proof.
  intros H1 H2 [ Hy Hx ].
  rewrite (is_fist_in_range h1 H1), (is_fist_in_range h2 H2).
  unfold Spec.curled_fingers, Spec.index_curled, Spec.middle_curled,
    Spec.ring_curled, Spec.pinky_curled, Spec.finger_curled, Spec.thumb_curled.
  rewrite (Hy 6), (Hy 8), (Hy 10), (Hy 12), (Hy 14), (Hy 16), (Hy 18), (Hy 20)
    by (cbn; tauto).
  rewrite (Hx 2), (Hx 4), (Hx 5) by (cbn; tauto).
  reflexivity.
Qed.

Lemma is_fist_reads_eleven_coordinates_witness :
  is_fist Samples.fist_hand = is_fist Samples.fist_hand_right_side.
Proof.
  apply is_fist_reads_eleven_coordinates.
  - cbn. lia.
  - cbn. lia.
  - split; intros i Hi; cbn in Hi;
      repeat (destruct Hi as [ <- | Hi ]; [ reflexivity | ]); destruct Hi.
Defined.

(** X3: the comparisons of [is_fist] are strict. A finger whose tip is
    level with its PIP joint does not count as curled, so a hand with two
    such fingers is no fist; and a thumb whose tip has the x of the index
    finger's base is not curled, so that hand is no fist either. *)
Theorem is_fist_ties_are_not_curled (h : HandLandmarks) :
  21 <= List.length (landmark h) ->
  (exists f1 f2,
     In f1 (combine finger_tips finger_pips) /\
     In f2 (combine finger_tips finger_pips) /\
     f1 <> f2 /\ level h f1 /\ level h f2) \/
  x (Spec.point h 4) = x (Spec.point h 5) ->
  is_fist h = Ok false.
Proof.
  intros Hlen Htie. rewrite (is_fist_in_range h Hlen). f_equal.
  destruct Htie as [ (f1 & f2 & Hf1 & Hf2 & Hne & Hl1 & Hl2) | Hthumb ].
  - unfold Spec.curled_fingers, Spec.index_curled, Spec.middle_curled,
      Spec.ring_curled, Spec.pinky_curled, Spec.finger_curled.
    unfold level in Hl1, Hl2.
    cbn [combine finger_tips finger_pips In] in Hf1, Hf2.
    repeat (destruct Hf1 as [ <- | Hf1 ]; [ | ]);
      try (destruct Hf1);
      repeat (destruct Hf2 as [ <- | Hf2 ]; [ | ]);
      try (destruct Hf2);
      try congruence;
      cbn [fst snd] in Hl1, Hl2; rewrite Hl1, Hl2, !ltb_irrefl;
      repeat match goal with
      | |- context [PrimFloat.ltb ?a ?b] => destruct (PrimFloat.ltb a b)
      end; reflexivity.
  - unfold Spec.thumb_curled. rewrite Hthumb, ltb_irrefl.
    apply andb_false_r.
Qed.

Lemma is_fist_ties_are_not_curled_witness :
  is_fist (Samples.hand 0.3 0.40 0.5 0.5 0.9 0.9) = Ok false /\
  is_fist (Samples.hand 0.3 0.50 0.9 0.9 0.9 0.9) = Ok false.
Proof.
  split; apply is_fist_ties_are_not_curled.
  - cbn. lia.
  - left. exists (8, 6), (12, 10). cbn. repeat split; auto; discriminate.
  - cbn. lia.
  - right. reflexivity.
Defined.

(** ** One call of [trigger_alert] for each qualifying hand *)

Lemma banners_app (n : nat) :
  alert_banner ++ banners n = banners n ++ alert_banner.
Proof.
  induction n as [ | n IH ]; cbn [banners].
  - rewrite app_nil_r. reflexivity.
  - rewrite IH at 1. rewrite app_assoc. reflexivity.
Qed.

(** What a completed loop did, by the number of its triggers. *)
Lemma replay_counts (ds : list (result bool)) :
  forall (info info' : DetectionInfo) (w w' : World),
    replay ds info w = (Ok info', w') ->
    stdout w' = stdout w ++ banners (List.length (filter is_trigger ds)) /\
    reads w' = reads w + List.length (filter is_trigger ds) /\
    (List.length (filter is_trigger ds) = 0 -> w' = w) /\
    (0 < List.length (filter is_trigger ds) ->
     alert_active (self w') = true /\
     alert_start_time (self w') = clock w (reads w' - 1)).
Proof.
  induction ds as [ | [ [ | ] | e ] ds IH ]; intros info info' w w' Hrun;
    cbn [replay bind ret Monad_M lift] in Hrun;
    cbn [filter is_trigger List.length].
  - inversion Hrun; subst. cbn [banners]. rewrite app_nil_r, Nat.add_0_r.
    repeat split; auto; lia.
  - rewrite trigger_alert_eq in Hrun.
    destruct (IH _ _ _ _ Hrun) as (Hout & Hreads & Hnone & Hsome).
    cbn [stdout reads clock] in Hout, Hreads, Hsome.
    split; [ | split; [ | split ] ].
    + rewrite Hout. cbn [banners]. rewrite <- app_assoc. reflexivity.
    + lia.
    + discriminate.
    + intros _.
      destruct (List.length (filter is_trigger ds)) as [ | k ] eqn:Hk.
      * rewrite (Hnone eq_refl).
        cbn [self alert_active alert_start_time reads].
        rewrite Nat.sub_1_r. split; reflexivity.
      * apply Hsome. lia.
  - apply (IH _ _ _ _ Hrun).
  - discriminate.
Qed.

Lemma trigger_count_reported (f : Frame) (w w' : World) (info : DetectionInfo) :
  process_frame f w = (Ok info, w') ->
  (0 < trigger_count f <-> left_fist_detected info = true).
Proof.
  intros Hret.
  destruct (process_frame_Ok f w w' info Hret) as (w1 & Hrun & _ & _).
  destruct (replay_Ok _ _ _ _ _ Hrun) as (_ & _ & _ & Hleft).
  rewrite Hleft. cbn [initial_info left_fist_detected]. unfold trigger_count.
  set (ds := loop_decisions f 0 _). clearbody ds. clear.
  induction ds as [ | [ [ | ] | e ] ds IH ]; cbn [filter is_trigger List.length In].
  - split; [ lia | intros [ H | [] ]; discriminate ].
  - split; [ auto | lia ].
  - rewrite IH. split; intros [ H | H ]; try discriminate; auto.
    destruct H as [ H | H ]; [ discriminate | auto ].
  - rewrite IH. split; intros [ H | H ]; try discriminate; auto.
    destruct H as [ H | H ]; [ discriminate | auto ].
Qed.

(** X4: the loop calls [trigger_alert] for every qualifying hand, not
    once a frame. A call of [process_frame] that returns has printed the
    three-line banner once for each hand that triggered and nothing else,
    and has read the clock once for each of them and once more for the
    timeout check when the alert was active after the loop; it reports a
    left fist exactly when that number of hands is not 0. *)
Theorem banner_printed_per_qualifying_hand
    (f : Frame) (w w' : World) (info : DetectionInfo) :
  process_frame f w = (Ok info, w') ->
  stdout w' = stdout w ++ banners (trigger_count f) /\
  reads w' = reads w + trigger_count f
             + (if (0 <? trigger_count f) || alert_active (self w)
                then 1 else 0) /\
  (0 < trigger_count f <-> left_fist_detected info = true).
Proof.
  intros Hret.
  pose proof (trigger_count_reported f w w' info Hret) as Hrep.
  destruct (process_frame_Ok f w w' info Hret) as (w1 & Hrun & -> & _).
  destruct (replay_counts _ _ _ _ _ Hrun) as (Hout & Hreads & Hnone & Hsome).
  fold (trigger_count f) in Hout, Hreads, Hnone, Hsome.
  rewrite check_alert_timeout_eq. cbn [snd].
  split; [ | split; [ | exact Hrep ] ].
  - destruct (alert_active (self w1)); cbn [stdout]; exact Hout.
  - destruct (Nat.ltb_spec 0 (trigger_count f)) as [ Hpos | Hzero ].
    + destruct (Hsome Hpos) as [ -> _ ]. cbn [orb reads]. lia.
    + rewrite (Hnone ltac:(lia)). cbn [orb].
      destruct (alert_active (self w)); cbn [reads]; lia.
Qed.

Lemma banner_printed_per_qualifying_hand_witness :
  trigger_count MoreSamples.two_left_fists_frame = 2 /\
  stdout (snd (process_frame MoreSamples.two_left_fists_frame
                 (Samples.world_at init [] 7)))
  = alert_banner ++ alert_banner.
Proof.
  split; [ vm_compute; reflexivity | ].
  destruct (banner_printed_per_qualifying_hand
              MoreSamples.two_left_fists_frame (Samples.world_at init [] 7)
              (snd (process_frame MoreSamples.two_left_fists_frame
                      (Samples.world_at init [] 7)))
              (mkInfo 0 2 true) ltac:(vm_compute; reflexivity))
    as (Hout & _).
  rewrite Hout. vm_compute. reflexivity.
Defined.

(** ** Runs of frames *)

Lemma run_frames_cons (f : Frame) (rest : list Frame) (w : World) :
  run_frames (f :: rest) w =
  match process_frame f w with
  | (Ok info, w1) =>
      match run_frames rest w1 with
      | (Ok infos, w2) => (Ok (info :: infos), w2)
      | (Raise e, w2) => (Raise e, w2)
      end
  | (Raise e, w1) => (Raise e, w1)
  end.
Proof. reflexivity. Qed.

Lemma process_frame_keeps_clock (f : Frame) (w : World) :
  clock (snd (process_frame f w)) = clock w.
Proof.
  rewrite process_frame_eq.
  destruct (replay _ _ w) as [ r w1 ] eqn:Hrun.
  destruct (replay_frame _ _ _ _ _ Hrun) as (Hclock & _ & _).
  destruct r as [ info | e ]; cbn [snd]; [ | exact Hclock ].
  rewrite check_alert_timeout_eq. cbn [snd].
  destruct (alert_active (self w1)); exact Hclock.
Qed.

(** After a frame with a trigger event the start time is the reading of
    its last trigger, and the timeout check compares it with the very
    next reading. *)
Lemma trigger_frame_last_reading
    (f : Frame) (w w' : World) (info : DetectionInfo) :
  process_frame f w = (Ok info, w') ->
  Spec.trigger_event f ->
  reads w + 2 <= reads w' /\
  alert_start_time (self w') = clock w (reads w' - 2) /\
  alert_active (self w')
  = negb (PyFloat.gt
            (PrimFloat.sub (clock w (S (reads w' - 2))) (clock w (reads w' - 2)))
            (alert_duration (self w))).
Proof.
  intros Hret Htrig.
  assert (Hpos : 0 < trigger_count f).
  { apply (trigger_count_reported f w w' info Hret).
    apply (reported_iff_trigger_event f w w' info Hret), Htrig. }
  destruct (process_frame_Ok f w w' info Hret) as (w1 & Hrun & -> & _).
  destruct (replay_frame _ _ _ _ _ Hrun) as (Hclock & Hdur & _).
  destruct (replay_counts _ _ _ _ _ Hrun) as (_ & Hreads & _ & Hsome).
  fold (trigger_count f) in Hreads, Hsome.
  destruct (Hsome Hpos) as [ Hactive Hstart ].
  rewrite check_alert_timeout_eq. cbn [snd]. rewrite Hactive.
  cbn [self reads alert_active alert_start_time].
  replace (S (reads w1) - 2) with (reads w1 - 1) by lia.
  replace (S (reads w1 - 1)) with (reads w1) by lia.
  rewrite Hstart, Hdur, Hclock. repeat split. lia.
Qed.

(** X5: a held fist keeps the alert on. When every frame of a run has a
    trigger event, the run returns, the duration is 2 and successive
    readings of the clock are never more than 2 seconds apart, the alert is
    active after the run, however long the run is, and its start time is
    the reading of the last trigger. *)
Theorem held_fist_keeps_alert_active
    (frames : list Frame) (w w' : World) (infos : list DetectionInfo) :
  frames <> [] ->
  Forall Spec.trigger_event frames ->
  alert_duration (self w) = 2%float ->
  steady_clock w 2 ->
  run_frames frames w = (Ok infos, w') ->
  alert_active (self w') = true /\
  alert_start_time (self w') = clock w (reads w' - 2).
Proof.
  revert w w' infos.
  induction frames as [ | f rest IH ]; intros w w' infos Hne Hall Hdur Hclock Hrun;
    [ congruence | ].
  inversion Hall as [ | f' rest' Htrig Hrest ]; subst.
  rewrite run_frames_cons in Hrun.
  pose proof (process_frame_keeps_clock f w) as Hc.
  pose proof (process_frame_keeps_duration f w) as Hd.
  destruct (process_frame f w) as [ [ info | e ] w1 ] eqn:Hret;
    [ | discriminate ].
  cbn [snd] in Hc, Hd.
  destruct rest as [ | g rest ].
  - cbn [run_frames ret Monad_M] in Hrun. inversion Hrun; subst.
    destruct (trigger_frame_last_reading f w w' info Hret Htrig)
      as (_ & Hstart & Hactive).
    split; [ | exact Hstart ].
    rewrite Hactive, Hdur, Hclock. reflexivity.
  - destruct (run_frames (g :: rest) w1) as [ [ infos' | e ] w2 ] eqn:Hrun';
      [ | discriminate ].
    inversion Hrun; subst.
    destruct (IH w1 w' infos' ltac:(discriminate) Hrest) as [ Hactive Hstart ];
      [ congruence | | exact Hrun' | ].
    + intros n. rewrite Hc. apply Hclock.
    + split; [ exact Hactive | ]. rewrite Hstart, Hc. reflexivity.
Qed.

Lemma held_fist_keeps_alert_active_witness :
  alert_active
    (detector_after MoreSamples.held_fist_frames MoreSamples.held_fist_world)
  = true /\
  alert_start_time
    (detector_after MoreSamples.held_fist_frames MoreSamples.held_fist_world)
  = 2%float.
Proof.
  unfold detector_after.
  apply (held_fist_keeps_alert_active
              MoreSamples.held_fist_frames MoreSamples.held_fist_world
              (snd (run_frames MoreSamples.held_fist_frames
                      MoreSamples.held_fist_world))
              [mkInfo 1 1 true; mkInfo 1 1 true; mkInfo 1 1 true]).
  - discriminate.
  - repeat constructor;
      exists 0, Samples.fist_hand, (Samples.handed "Left"),
        (mkClassification 0 0.9 "Left"); repeat split.
  - reflexivity.
  - intros n. do 6 (destruct n as [ | n ]; [ vm_compute; reflexivity | ]).
    vm_compute. reflexivity.
  - vm_compute. reflexivity.
Defined.

(** A sample frame has no trigger event: every place is looked at. *)
Ltac no_trigger_event :=
  intros (idx & h & hd & c & Hh & Hhd & Hc & Hl & Hfist);
  repeat (destruct idx as [ | idx ]; cbn in Hh, Hhd; try discriminate);
  inversion Hhd; subst hd; inversion Hc; subst c; try discriminate;
  inversion Hh; subst h; vm_compute in Hfist; discriminate.

(** X6: an idle detector does nothing. Over a run of frames without a
    trigger event, started with the alert inactive, the world stays what
    it was: no attribute changes, the clock is not read and nothing is
    printed, whether the run returns or a frame raises. *)
Theorem idle_run_changes_nothing (frames : list Frame) (w : World) :
  Forall (fun f => ~ Spec.trigger_event f) frames ->
  alert_active (self w) = false ->
  snd (run_frames frames w) = w.
Proof.
  intros Hall Hinactive.
  induction Hall as [ | f rest Hno _ IH ]; [ reflexivity | ].
  rewrite run_frames_cons.
  destruct (process_frame_no_trigger f w Hno) as [ -> | [ e -> ] ];
    [ | reflexivity ].
  rewrite check_alert_timeout_eq, Hinactive. cbn [snd].
  destruct (run_frames rest w) as [ [ infos | e ] w2 ]; exact IH.
Qed.

Lemma idle_run_changes_nothing_witness :
  snd (run_frames [Samples.no_trigger_frame; Samples.no_hands_frame;
                   Samples.unlabelled_fist_frame]
         (Samples.world_at init [] 50))
  = Samples.world_at init [] 50.
Proof.
  apply idle_run_changes_nothing; [ | reflexivity ].
  repeat constructor; no_trigger_event.
Defined.

(** X7: without a trigger the alert can only run out. Over a run of
    frames without a trigger event the start time stays what it was and
    nothing is printed, and an alert that is active after the run was
    active before it. *)
Theorem run_without_trigger_only_expires (frames : list Frame) (w : World) :
  Forall (fun f => ~ Spec.trigger_event f) frames ->
  alert_start_time (detector_after frames w) = alert_start_time (self w) /\
  stdout (snd (run_frames frames w)) = stdout w /\
  (alert_active (detector_after frames w) = true ->
   alert_active (self w) = true).
Proof.
  unfold detector_after. intros Hall. revert w.
  induction Hall as [ | f rest Hno _ IH ]; intros w; [ auto | ].
  rewrite run_frames_cons.
  destruct (process_frame_no_trigger f w Hno) as [ -> | [ e -> ] ];
    [ | auto ].
  rewrite check_alert_timeout_eq. cbn [snd].
  destruct (alert_active (self w)) eqn:Hactive.
  - match goal with
    | |- context [run_frames rest ?w1] =>
        destruct (IH w1) as (Hstart & Hout & _);
        destruct (run_frames rest w1) as [ [ infos | e ] w2 ]
    end; cbn [snd self alert_start_time stdout] in *; auto.
  - destruct (IH w) as (Hstart & Hout & Hback).
    destruct (run_frames rest w) as [ [ infos | e ] w2 ];
      cbn [snd] in *; repeat split; auto; intros H; apply Hback in H;
      congruence.
Qed.

Lemma run_without_trigger_only_expires_witness :
  alert_start_time
    (detector_after [Samples.no_hands_frame; Samples.no_trigger_frame]
                    Samples.expired_world)
  = alert_start_time (self Samples.expired_world).
Proof.
  apply (run_without_trigger_only_expires
           [Samples.no_hands_frame; Samples.no_trigger_frame]
           Samples.expired_world).
  repeat constructor; no_trigger_event.
Defined.

(** ** What a call that returns has checked *)

Lemma summary_counts (f : Frame) (w w' : World) (info : DetectionInfo) :
  process_frame f w = (Ok info, w') ->
  faces_detected info = List.length (items (detections (face_results f))) /\
  hands_detected info
  = List.length (items (multi_hand_landmarks (hand_results f))).
Proof.
  intros Hret.
  destruct (process_frame_Ok f w w' info Hret) as (w1 & Hrun & _ & _).
  destruct (replay_Ok _ _ _ _ _ Hrun) as (_ & Hfaces & Hhands & _).
  rewrite Hfaces, Hhands. unfold initial_info. cbn.
  rewrite !len_items. auto.
Qed.

(** X8: [process_frame] returns only when every hand of the frame has at
    least 21 points, and then the summary counts the faces and the hands
    the providers returned. *)
Theorem returned_summary_counts
    (f : Frame) (w w' : World) (info : DetectionInfo) :
  process_frame f w = (Ok info, w') ->
  Forall (fun h => 21 <= List.length (landmark h))
    (items (multi_hand_landmarks (hand_results f))) /\
  faces_detected info = List.length (items (detections (face_results f))) /\
  hands_detected info
  = List.length (items (multi_hand_landmarks (hand_results f))).
Proof.
  intros Hret.
  destruct (process_frame_Ok f w w' info Hret) as (w1 & Hrun & _ & Hpass).
  split; [ | apply (summary_counts f w w' info Hret) ].
  apply Forall_forall. intros h Hin.
  apply In_nth_error in Hin. destruct Hin as [ k Hk ].
  assert (Hd : In (hand_triggers f k h)
                  (loop_decisions f 0
                     (items (multi_hand_landmarks (hand_results f))))).
  { apply nth_error_In with (n := k).
    rewrite loop_decisions_nth, Hk. reflexivity. }
  destruct (proj1 (Forall_forall _ _) Hpass _ Hd) as [ b Hb ].
  unfold hand_triggers in Hb. cbn [bind Monad_result] in Hb.
  destruct (is_fist h) as [ fist | e ] eqn:Hfist; [ | discriminate ].
  apply (is_fist_Ok_length h fist Hfist).
Qed.

Lemma returned_summary_counts_witness :
  Forall (fun h => 21 <= List.length (landmark h))
    (items (multi_hand_landmarks (hand_results Samples.no_trigger_frame))) /\
  faces_detected (mkInfo 1 2 false) = 1 /\
  hands_detected (mkInfo 1 2 false) = 2.
Proof.
  apply (returned_summary_counts Samples.no_trigger_frame
           Samples.expired_world
           (snd (process_frame Samples.no_trigger_frame
                   Samples.expired_world))).
  vm_compute. reflexivity.
Defined.

(** The loop stops at the first decision that raises; the triggers
    taken before it stay, and nothing else has happened. *)
Lemma replay_first_raise (ds : list (result bool)) :
  forall (k : nat) (e : exn) (info : DetectionInfo) (w : World),
    nth_error ds k = Some (Raise e) ->
    Forall (fun d => exists b : bool, d = Ok b) (firstn k ds) ->
    exists w', replay ds info w = (Raise e, w') /\
               stdout w' = stdout w
                           ++ banners (List.length
                                         (filter is_trigger (firstn k ds))) /\
               (List.length (filter is_trigger (firstn k ds)) = 0 -> w' = w) /\
               (0 < List.length (filter is_trigger (firstn k ds)) ->
                alert_active (self w') = true).
Proof.
  induction ds as [ | d ds IH ]; intros k e info w Hk Hbefore.
  - destruct k; discriminate.
  - destruct k as [ | k ].
    + inversion Hk; subst d. cbn [replay lift firstn filter List.length banners].
      exists w. rewrite app_nil_r. repeat split; auto. lia.
    + cbn [firstn] in Hbefore.
      inversion Hbefore as [ | d' ds' [ b Hb ] Hrest ]; subst.
      cbn [nth_error] in Hk.
      destruct b; cbn [replay bind Monad_M firstn filter is_trigger List.length].
      * rewrite trigger_alert_eq.
        match goal with
        | |- context [replay ds ?i ?w1] =>
            destruct (IH k e i w1 Hk Hrest) as (w' & Hrun & Hout & Hnone & Hsome)
        end.
        exists w'. split; [ exact Hrun | ].
        split; [ rewrite Hout; cbn [stdout banners];
                 rewrite <- app_assoc; reflexivity | ].
        split; [ discriminate | ]. intros _.
        destruct (List.length (filter is_trigger (firstn k ds))) eqn:Hcount.
        -- rewrite (Hnone eq_refl). reflexivity.
        -- apply Hsome. lia.
      * apply IH; assumption.
Qed.

Lemma hand_triggers_first_hands (f : Frame) (k idx : nat) (h : HandLandmarks) :
  hand_triggers (first_hands f k) idx h = hand_triggers f idx h.
Proof. reflexivity. Qed.

Lemma loop_decisions_firstn (f : Frame) (k' : nat) :
  forall (k idx : nat) (hands : list HandLandmarks),
    loop_decisions (first_hands f k') idx (firstn k hands)
    = firstn k (loop_decisions f idx hands).
Proof.
  induction k as [ | k IH ]; intros idx hands; [ reflexivity | ].
  destruct hands as [ | h hands ]; [ reflexivity | ].
  cbn [firstn loop_decisions]. rewrite IH.
  rewrite hand_triggers_first_hands. reflexivity.
Qed.

Lemma loop_decisions_first_hands (f : Frame) (k : nat) :
  loop_decisions (first_hands f k) 0
    (items (multi_hand_landmarks (hand_results (first_hands f k))))
  = firstn k (loop_decisions f 0
                (items (multi_hand_landmarks (hand_results f)))).
Proof.
  cbn [first_hands hand_results multi_hand_landmarks items].
  apply loop_decisions_firstn.
Qed.

(** When the hands before place [k] are in order and the hand at place
    [k] makes the loop's body raise, so does [process_frame]. *)
Lemma process_frame_first_raise (f : Frame) (k : nat) (h : HandLandmarks)
    (e : exn) (w : World) :
  nth_error (items (multi_hand_landmarks (hand_results f))) k = Some h ->
  hand_triggers f k h = Raise e ->
  well_formed (first_hands f k) ->
  exists w',
    process_frame f w = (Raise e, w') /\
    stdout w' = stdout w ++ banners (trigger_count (first_hands f k)) /\
    (trigger_count (first_hands f k) = 0 -> w' = w) /\
    (0 < trigger_count (first_hands f k) -> alert_active (self w') = true).
Proof.
  intros Hh Hraise Hwf.
  apply well_formed_passes in Hwf. unfold frame_passes in Hwf.
  unfold trigger_count. rewrite loop_decisions_first_hands in *.
  rewrite process_frame_eq.
  assert (Hk : nth_error (loop_decisions f 0
                            (items (multi_hand_landmarks (hand_results f)))) k
               = Some (Raise e)).
  { rewrite loop_decisions_nth, Hh. cbn [option_map Nat.add]. congruence. }
  destruct (replay_first_raise _ k e (initial_info f) w Hk Hwf)
    as (w' & Hrun & Hrest).
  exists w'. rewrite Hrun. auto.
Qed.

(** X9: a hand with fewer than 21 points stops [process_frame]: when
    the hands before it are in order the call raises and does not return.
    The timeout check is not reached; the banners of the hands before it
    are printed and the alert they activated stays active; when none of
    them triggered, the world is what it was, even with a left fist later
    in the frame. *)
Theorem short_hand_stops_process_frame
    (f : Frame) (k : nat) (h : HandLandmarks) (w : World) :
  nth_error (items (multi_hand_landmarks (hand_results f))) k = Some h ->
  List.length (landmark h) < 21 ->
  well_formed (first_hands f k) ->
  exists e w',
    process_frame f w = (Raise e, w') /\
    stdout w' = stdout w ++ banners (trigger_count (first_hands f k)) /\
    (trigger_count (first_hands f k) = 0 -> w' = w) /\
    (0 < trigger_count (first_hands f k) -> alert_active (self w') = true).
Proof.
  intros Hh Hshort Hwf.
  exists IndexError.
  apply (process_frame_first_raise f k h IndexError w Hh); [ | exact Hwf ].
  unfold hand_triggers. rewrite (is_fist_out_of_range h Hshort). reflexivity.
Qed.

Lemma short_hand_stops_process_frame_witness :
  exists e w',
    process_frame MoreSamples.short_hand_behind_fist_frame
                  (Samples.world_at init [] 7)
    = (Raise e, w') /\
    stdout w' = alert_banner /\
    alert_active (self w') = true.
Proof.
  destruct (short_hand_stops_process_frame
              MoreSamples.short_hand_behind_fist_frame 1
              Samples.missing_point (Samples.world_at init [] 7))
    as (e & w' & Hrun & Hout & _ & Hsome).
  - reflexivity.
  - cbn. lia.
  - split.
    + repeat constructor. exists 384%Z, 576%Z.
      unfold fits_c_int. repeat split; try lia; vm_compute; congruence.
    + right. split; [ cbn; lia | repeat constructor; discriminate ].
  - exists e, w'. split; [ exact Hrun | ].
    split; [ rewrite Hout; vm_compute; reflexivity | ].
    apply Hsome. vm_compute. lia.
Defined.

(** A hand of 21 points without an entry in a handedness list that is
    not empty: the loop's body raises at [multi_handedness[idx]]. *)
Lemma hand_without_entry (f : Frame) (h : HandLandmarks) :
  items (multi_handedness (hand_results f)) <> [] ->
  List.length (landmark h) = 21 ->
  hand_triggers f (List.length (items (multi_handedness (hand_results f)))) h
  = Raise IndexError.
Proof.
  intros Hne Hlen. unfold hand_triggers.
  rewrite is_fist_in_range by lia.
  rewrite is_left_hand_in_range by lia.
  cbn [bind ret Monad_result].
  destruct (truthy (multi_handedness (hand_results f))) eqn:Htruthy.
  - rewrite getitem_out_of_range by lia. reflexivity.
  - apply truthy_false_items in Htruthy. congruence.
Qed.

(** X10: a handedness list that is not empty and shorter than the list
    of hands makes [process_frame] raise [IndexError] at the first hand
    without an entry, when the hands before it are in order (21 points
    each, a label position that can be drawn) and that hand has its 21
    points; the triggers taken before stay. *)
Theorem short_handedness_raises_index_error
    (f : Frame) (h : HandLandmarks) (w : World) :
  items (multi_handedness (hand_results f)) <> [] ->
  nth_error (items (multi_hand_landmarks (hand_results f)))
            (List.length (items (multi_handedness (hand_results f))))
  = Some h ->
  List.length (landmark h) = 21 ->
  well_formed
    (first_hands f (List.length (items (multi_handedness (hand_results f))))) ->
  exists w',
    process_frame f w = (Raise IndexError, w') /\
    stdout w' = stdout w
      ++ banners (trigger_count
           (first_hands f
              (List.length (items (multi_handedness (hand_results f)))))).
Proof.
  intros Hne Hh Hlen Hwf.
  destruct (process_frame_first_raise f _ h IndexError w Hh
              (hand_without_entry f h Hne Hlen) Hwf)
    as (w' & Hrun & Hout & _).
  eauto.
Qed.

Lemma short_handedness_raises_index_error_witness :
  exists w',
    process_frame MoreSamples.short_handedness_frame
                  (Samples.world_at init [] 7)
    = (Raise IndexError, w') /\
    stdout w' = alert_banner.
Proof.
  destruct (short_handedness_raises_index_error
              MoreSamples.short_handedness_frame Samples.open_hand
              (Samples.world_at init [] 7))
    as (w' & Hrun & Hout).
  - discriminate.
  - reflexivity.
  - reflexivity.
  - split.
    + repeat constructor. exists 384%Z, 576%Z.
      unfold fits_c_int. repeat split; try lia; vm_compute; congruence.
    + right. split; [ cbn; lia | repeat constructor; discriminate ].
  - exists w'. split; [ exact Hrun | ]. rewrite Hout. vm_compute. reflexivity.
Defined.

(** ** What no call changes *)

Lemma replay_stdout (ds : list (result bool)) :
  forall (info : DetectionInfo) (w : World) r w',
    replay ds info w = (r, w') ->
    exists n, stdout w' = stdout w ++ banners n.
Proof.
  induction ds as [ | [ [ | ] | e ] ds IH ]; intros info w r w' Hrun;
    cbn [replay bind ret Monad_M lift] in Hrun.
  - inversion Hrun; subst. exists 0. cbn. rewrite app_nil_r. reflexivity.
  - rewrite trigger_alert_eq in Hrun. apply IH in Hrun.
    destruct Hrun as [ n Hn ]. exists (S n). rewrite Hn.
    cbn [stdout banners]. rewrite <- app_assoc. reflexivity.
  - eapply IH, Hrun.
  - inversion Hrun; subst. exists 0. cbn. rewrite app_nil_r. reflexivity.
Qed.

Lemma process_frame_frame (f : Frame) (w : World) :
  clock (snd (process_frame f w)) = clock w /\
  alert_duration (self (snd (process_frame f w))) = alert_duration (self w) /\
  reads w <= reads (snd (process_frame f w)) /\
  exists n, stdout (snd (process_frame f w)) = stdout w ++ banners n.
Proof.
  split; [ apply process_frame_keeps_clock | ].
  split; [ apply process_frame_keeps_duration | ].
  rewrite process_frame_eq.
  destruct (replay _ _ w) as [ r w1 ] eqn:Hrun.
  destruct (replay_frame _ _ _ _ _ Hrun) as (_ & _ & Hreads).
  destruct (replay_stdout _ _ _ _ _ Hrun) as [ n Hout ].
  destruct r as [ info | e ]; cbn [snd]; [ | eauto ].
  rewrite check_alert_timeout_eq. cbn [snd].
  destruct (alert_active (self w1)); cbn [reads stdout]; split; eauto; lia.
Qed.

(** X11: whatever the frames are and whether the run returns or raises,
    a run of [process_frame] calls leaves the duration of the alert as it
    was, so it is 2 in every state reached from [__init__]'s; it never
    takes a reading back and only appends whole banners to the output. *)
Theorem run_keeps_duration_and_appends_banners
    (frames : list Frame) (w : World) :
  alert_duration (detector_after frames w) = alert_duration (self w) /\
  clock (snd (run_frames frames w)) = clock w /\
  reads w <= reads (snd (run_frames frames w)) /\
  exists n, stdout (snd (run_frames frames w)) = stdout w ++ banners n.
Proof.
  unfold detector_after. revert w.
  induction frames as [ | f rest IH ]; intros w.
  - cbn. repeat split; auto. exists 0. cbn. rewrite app_nil_r. reflexivity.
  - rewrite run_frames_cons.
    destruct (process_frame_frame f w) as (Hc & Hd & Hr & n & Hout).
    destruct (process_frame f w) as [ [ info | e ] w1 ]; cbn [snd] in *;
      [ | repeat split; eauto ].
    destruct (IH w1) as (Hd' & Hc' & Hr' & m & Hout').
    destruct (run_frames rest w1) as [ [ infos | e ] w2 ]; cbn [snd] in *;
      (repeat split; [ congruence | congruence | lia | ];
       exists (n + m); rewrite Hout', Hout, <- app_assoc; f_equal;
       clear; induction n as [ | n IHn ]; cbn [banners Nat.add];
       [ reflexivity | rewrite <- app_assoc, IHn; reflexivity ]).
Qed.

(** * Drawing: properties *)

Lemma draw_alert_overlay_eq (getTextSize : TextSizer) (height width : Z)
    (image : Image) (w : World) :
  draw_alert_overlay getTextSize height width image w =
  (Ok (if alert_active (self w)
       then image ++ [alert_overlay getTextSize height width]
       else image), w).
Proof.
  unfold draw_alert_overlay, alert_overlay, get_self.
  cbn [bind ret Monad_M].
  destruct (alert_active (self w)); [ | reflexivity ].
  destruct (getTextSize "ALERT: FIST DETECTED!"%string 1.5%float 3%Z)
    as [ [ text_width text_height ] baseline ].
  reflexivity.
Qed.

Lemma hand_drawing_triggers (f : Frame) (idx : nat) (h : HandLandmarks) :
  match hand_drawing f idx h, hand_triggers f idx h with
  | Ok _, Ok _ => True
  | Raise e1, Raise e2 => e1 = e2
  | _, _ => False
  end.
Proof.
  unfold hand_drawing, hand_triggers. cbn [bind ret Monad_result].
  repeat match goal with
  | |- context [match ?r with Ok _ => _ | Raise _ => _ end] =>
      lazymatch r with
      | context [match _ with _ => _ end] => fail
      | _ => destruct r; try reflexivity
      end
  | |- context [if truthy ?v then _ else _] =>
      destruct (truthy v); try reflexivity
  end; exact I.
Qed.

Lemma process_hand_drawn_eq (f : Frame) (idx : nat) (h : HandLandmarks)
    (image : Image) (info : DetectionInfo) (w : World) :
  process_hand_drawn f idx h image info w =
  match process_hand f idx h info w with
  | (Ok info', w') =>
      (Ok (image ++ match hand_drawing f idx h with
                    | Ok ops => ops
                    | Raise _ => []
                    end, info'), w')
  | (Raise e, w') => (Raise e, w')
  end.
Proof.
  unfold process_hand_drawn, process_hand, hand_drawing, lift.
  cbn [bind ret Monad_M Monad_result].
  repeat match goal with
  | |- context [match ?r with Ok _ => _ | Raise _ => _ end] =>
      lazymatch r with
      | context [match _ with _ => _ end] => fail
      | _ => destruct r; try reflexivity
      end
  | |- context [if truthy ?v then _ else _] =>
      destruct (truthy v); try reflexivity
  end.
  all: rewrite <- ?app_assoc; cbn [app].
  all: match goal with
       | |- context [if ?c then _ else _] => destruct c
       end; try rewrite trigger_alert_eq; reflexivity.
Qed.

Lemma hands_loop_drawn_eq (f : Frame) (hands : list HandLandmarks) :
  forall (idx : nat) (image : Image) (info : DetectionInfo) (w : World),
    hands_loop_drawn f idx hands image info w =
    match hands_loop f idx hands info w with
    | (Ok info', w') => (Ok (image ++ loop_drawing f idx hands, info'), w')
    | (Raise e, w') => (Raise e, w')
    end.
Proof.
  induction hands as [ | h rest IH ]; intros idx image info w.
  - cbn. rewrite app_nil_r. reflexivity.
  - cbn [hands_loop_drawn hands_loop loop_drawing bind Monad_M].
    rewrite process_hand_drawn_eq.
    destruct (process_hand f idx h info w) as [ [ info1 | e ] w1 ];
      [ | reflexivity ].
    cbn [fst snd]. rewrite IH.
    destruct (hands_loop f (S idx) rest info1 w1) as [ [ info2 | e ] w2 ];
      [ | reflexivity ].
    rewrite app_assoc. reflexivity.
Qed.

(** With its drawing, [process_frame] takes the same decisions: the
    drawn frame is what the loops drew, then the overlay when the alert is
    active after the timeout check, then the panel. *)
Lemma process_frame_drawn_eq (getTextSize : TextSizer) (f : Frame) (w : World) :
  process_frame_drawn getTextSize f w =
  match process_frame f w with
  | (Ok info, w') =>
      (Ok (draw_info_panel
             (frame_drawing f
              ++ (if alert_active (self w')
                  then [alert_overlay getTextSize (height f) (width f)]
                  else []))
             info, info), w')
  | (Raise e, w') => (Raise e, w')
  end.
Proof.
  unfold process_frame_drawn, process_frame, frame_drawing.
  destruct f as [ hh ww [ dets ] [ hands handed ] ].
  cbn [face_results hand_results detections multi_hand_landmarks
       multi_handedness height width].
  destruct dets as [ [ | d dets ] | ]; destruct hands as [ [ | h hands ] | ];
    cbn [truthy items len map app loop_drawing
         faces_detected hands_detected left_fist_detected];
    cbn [bind ret Monad_M];
    try rewrite hands_loop_drawn_eq;
    repeat match goal with
    | |- context [hands_loop ?f ?i ?hs ?info w] =>
        destruct (hands_loop f i hs info w) as [ [ info1 | e ] w1 ];
        [ | reflexivity ]
    end;
    cbn [fst snd]; rewrite check_alert_timeout_eq, draw_alert_overlay_eq;
    cbn [fst snd];
    match goal with
    | |- context [alert_active (self ?w0)] =>
        destruct (alert_active (self w0))
    end; cbn [self alert_active]; rewrite ?app_nil_r; reflexivity.
Qed.

Lemma hand_drawing_shape (f : Frame) (idx : nat) (h : HandLandmarks)
    (ops : Image) :
  hand_drawing f idx h = Ok ops ->
  exists fist,
    is_fist h = Ok fist /\
    ((truthy (multi_handedness (hand_results f)) = false /\
      ops = [draw_landmarks h]) \/
     (truthy (multi_handedness (hand_results f)) = true /\
      exists hd c pos,
        nth_error (items (multi_handedness (hand_results f))) idx = Some hd /\
        nth_error (classification hd) 0 = Some c /\
        ops = [ draw_landmarks h;
                putText (if fist then (label c ++ " - FIST")%string
                         else label c)
                        pos 0.7 (if fist then red else green) 2 ])).
Proof.
  unfold hand_drawing. cbn [bind ret Monad_result].
  destruct (is_fist h) as [ fist | ]; [ | discriminate ].
  destruct (is_left_hand h (width f)); [ | discriminate ].
  destruct (truthy (multi_handedness (hand_results f))).
  - destruct (getitem _ idx) as [ hd | ] eqn:Hhd; [ | discriminate ].
    destruct (getitem (classification hd) 0) as [ c | ] eqn:Hc;
      [ | discriminate ].
    destruct (getitem (landmark h) 0); [ | discriminate ].
    destruct (PyFloat.to_int _) as [ lx | ]; [ | discriminate ].
    destruct (PyFloat.to_int _) as [ ly | ]; [ | discriminate ].
    apply getitem_Ok in Hhd, Hc.
    intros Hops. inversion Hops; subst ops. exists fist. split; [ reflexivity | ].
    right. split; [ reflexivity | ].
    exists hd, c, (lx, (ly - 20)%Z). destruct fist; auto.
  - intros Hops. inversion Hops; subst ops. exists fist. auto.
Qed.

(** What the loops have drawn on a frame that passes. *)
Lemma loop_drawing_counts (f : Frame) (hands : list HandLandmarks) :
  forall idx,
    Forall (fun d => exists b : bool, d = Ok b) (loop_decisions f idx hands) ->
    has_overlay (loop_drawing f idx hands) = false /\
    count_op is_draw_detection (loop_drawing f idx hands) = 0 /\
    count_op is_draw_landmarks (loop_drawing f idx hands)
    = List.length hands /\
    List.length (texts (loop_drawing f idx hands))
    = if truthy (multi_handedness (hand_results f))
      then List.length hands else 0.
Proof.
  induction hands as [ | h rest IH ]; intros idx Hpass.
  - cbn. destruct (truthy _); auto.
  - cbn [loop_decisions] in Hpass.
    inversion Hpass as [ | d ds [ b Hb ] Hrest ]; subst.
    destruct (IH (S idx) Hrest) as (Hov & Hdet & Hlm & Htx).
    cbn [loop_drawing].
    pose proof (hand_drawing_triggers f idx h) as Hboth. rewrite Hb in Hboth.
    destruct (hand_drawing f idx h) as [ ops | e ] eqn:Hops; [ | destruct Hboth ].
    destruct (hand_drawing_shape f idx h ops Hops)
      as (fist & _ & [ [ Hno -> ] | (Hyes & hd & c & pos & _ & _ & ->) ]);
      unfold has_overlay, count_op, texts in *;
      rewrite ?existsb_app, ?filter_app, ?flat_map_app, ?length_app;
      rewrite Hov, Hdet, Hlm, Htx;
      [ rewrite Hno | rewrite Hyes ]; cbn; auto.
Qed.

Lemma frame_drawing_counts (f : Frame) :
  frame_passes f ->
  has_overlay (frame_drawing f) = false /\
  count_op is_draw_detection (frame_drawing f)
  = List.length (items (detections (face_results f))) /\
  count_op is_draw_landmarks (frame_drawing f)
  = List.length (items (multi_hand_landmarks (hand_results f))) /\
  List.length (texts (frame_drawing f))
  = if truthy (multi_handedness (hand_results f))
    then List.length (items (multi_hand_landmarks (hand_results f))) else 0.
Proof.
  intros Hpass.
  destruct (loop_drawing_counts f _ 0 Hpass) as (Hov & Hdet & Hlm & Htx).
  unfold frame_drawing, has_overlay, count_op, texts in *.
  rewrite existsb_app, !filter_app, flat_map_app, !length_app.
  rewrite Hov, Hdet, Hlm, Htx.
  generalize (items (detections (face_results f))) as faces.
  induction faces as [ | d faces IHf ]; [ auto | ].
  cbn [map existsb filter is_draw_detection is_draw_landmarks flat_map app
       List.length orb] in *.
  destruct IHf as (H1 & H2 & H3 & H4).
  repeat split; auto; lia.
Qed.

Lemma draw_info_panel_eq (image : Image) (info : DetectionInfo) :
  draw_info_panel image info =
  image ++ [ rectangle (10, 10)%Z (300, 100)%Z black (-1);
             rectangle (10, 10)%Z (300, 100)%Z white 2;
             putText ("Faces: " ++ fmt (faces_detected info))%string
                     (20, 30)%Z 0.6 white 2;
             putText ("Hands: " ++ fmt (hands_detected info))%string
                     (20, 60)%Z 0.6 white 2;
             putText ("Status: " ++ (if left_fist_detected info
                                     then "ALERT!" else "Normal"))%string
                     (20, 90)%Z 0.6
                     (if left_fist_detected info then red else green) 2 ].
Proof.
  unfold draw_info_panel. rewrite <- !app_assoc. cbn [app Z.add Pos.add].
  destruct (left_fist_detected info); reflexivity.
Qed.

(** A call that returns, taken apart. *)
Lemma process_frame_drawn_Ok (getTextSize : TextSizer) (f : Frame)
    (w w' : World) (image : Image) (info : DetectionInfo) :
  process_frame_drawn getTextSize f w = (Ok (image, info), w') ->
  process_frame f w = (Ok info, w') /\
  image = draw_info_panel
            (frame_drawing f
             ++ (if alert_active (self w')
                 then [alert_overlay getTextSize (height f) (width f)]
                 else []))
            info.
Proof.
  rewrite process_frame_drawn_eq.
  destruct (process_frame f w) as [ [ info1 | e ] w1 ]; [ | discriminate ].
  intros Hret. inversion Hret; subst. auto.
Qed.

(** X13: the red overlay follows the alert, the panel follows the frame.
    On the frame [process_frame] returns, the overlay is blended in
    exactly when the alert is active after the timeout check, while the
    last text, the panel's status, says ALERT! exactly when this frame has
    a trigger event: the two can differ. *)
Theorem overlay_follows_alert_panel_follows_frame
    (getTextSize : TextSizer) (f : Frame) (w w' : World)
    (image : Image) (info : DetectionInfo) :
  process_frame_drawn getTextSize f w = (Ok (image, info), w') ->
  has_overlay image = alert_active (self w') /\
  (exists labels,
     texts image
     = labels ++ [ ("Faces: " ++ fmt (faces_detected info))%string;
                   ("Hands: " ++ fmt (hands_detected info))%string;
                   ("Status: " ++ (if left_fist_detected info
                                   then "ALERT!" else "Normal"))%string ]) /\
  (left_fist_detected info = true <-> Spec.trigger_event f).
Proof.
  intros Hret.
  destruct (process_frame_drawn_Ok _ _ _ _ _ _ Hret) as [ Hplain -> ].
  destruct (process_frame_Ok f w w' info Hplain) as (_ & _ & _ & Hpass).
  destruct (frame_drawing_counts f Hpass) as (Hov & _).
  rewrite draw_info_panel_eq.
  split; [ | split; [ | apply (reported_iff_trigger_event f w w' info Hplain) ] ].
  - unfold has_overlay in *. rewrite !existsb_app, Hov.
    destruct (alert_active (self w')); reflexivity.
  - exists (texts (frame_drawing f)).
    unfold texts. rewrite !flat_map_app.
    destruct (alert_active (self w')); cbn [flat_map app alert_overlay];
      rewrite ?app_nil_r; reflexivity.
Qed.

Lemma overlay_follows_alert_panel_follows_frame_witness :
  exists image w',
    process_frame_drawn sample_sizer Samples.no_trigger_frame
      (Samples.world_at (mkDetector true 10 2) [] 10.5)
    = (Ok (image, mkInfo 1 2 false), w') /\
    has_overlay image = true /\
    last (texts image) EmptyString = "Status: Normal"%string.
Proof.
  do 2 eexists. split; [ vm_compute; reflexivity | ].
  match goal with
  | |- has_overlay ?img = _ /\ _ =>
      destruct (overlay_follows_alert_panel_follows_frame
                  sample_sizer Samples.no_trigger_frame
                  (Samples.world_at (mkDetector true 10 2) [] 10.5)
                  _ img (mkInfo 1 2 false) ltac:(vm_compute; reflexivity))
        as (Hov & (labels & Htexts) & _)
  end.
  split.
  - rewrite Hov. reflexivity.
  - rewrite Htexts.
    match goal with
    | |- last (?l ++ [?a; ?b; ?c]) _ = _ =>
        change (l ++ [a; b; c]) with (l ++ ([a; b] ++ [c]));
        rewrite app_assoc, last_last
    end.
    reflexivity.
Defined.

(** X14: on the frame [process_frame] returns, [draw_detection] was
    called once for each face counted in the summary, [draw_landmarks]
    once for each hand counted, and the texts are a label for every hand
    when the provider gave a handedness list, none otherwise, and the
    three lines of the panel. *)
Theorem drawn_once_per_detection
    (getTextSize : TextSizer) (f : Frame) (w w' : World)
    (image : Image) (info : DetectionInfo) :
  process_frame_drawn getTextSize f w = (Ok (image, info), w') ->
  count_op is_draw_detection image = faces_detected info /\
  count_op is_draw_landmarks image = hands_detected info /\
  List.length (texts image)
  = (if truthy (multi_handedness (hand_results f))
     then hands_detected info else 0) + 3.
Proof.
  intros Hret.
  destruct (process_frame_drawn_Ok _ _ _ _ _ _ Hret) as [ Hplain -> ].
  destruct (process_frame_Ok f w w' info Hplain) as (_ & _ & _ & Hpass).
  destruct (summary_counts f w w' info Hplain) as (Hfaces & Hhands).
  destruct (frame_drawing_counts f Hpass) as (_ & Hdet & Hlm & Htx).
  rewrite draw_info_panel_eq, Hfaces, Hhands.
  unfold count_op, texts in *.
  rewrite !filter_app, !flat_map_app, !length_app, Hdet, Hlm, Htx.
  destruct (alert_active (self w')); cbn; lia.
Qed.

Lemma drawn_once_per_detection_witness :
  exists image w',
    process_frame_drawn sample_sizer Samples.no_trigger_frame
      Samples.expired_world
    = (Ok (image, mkInfo 1 2 false), w') /\
    count_op is_draw_detection image = 1 /\
    count_op is_draw_landmarks image = 2 /\
    List.length (texts image) = 5.
Proof.
  do 2 eexists. split; [ vm_compute; reflexivity | ].
  match goal with
  | |- count_op _ ?img = _ /\ _ =>
      destruct (drawn_once_per_detection
                  sample_sizer Samples.no_trigger_frame Samples.expired_world
                  _ img (mkInfo 1 2 false) ltac:(vm_compute; reflexivity))
        as (Hfaces & Hhands & Htexts)
  end.
  rewrite Hfaces, Hhands, Htexts. repeat split.
Defined.

Lemma loop_drawing_nth (f : Frame) (hands : list HandLandmarks) :
  forall idx k h ops,
    nth_error hands k = Some h ->
    hand_drawing f (idx + k) h = Ok ops ->
    incl ops (loop_drawing f idx hands).
Proof.
  induction hands as [ | h0 rest IH ]; intros idx k h ops Hk Hops.
  - destruct k; discriminate.
  - cbn [loop_drawing]. destruct k as [ | k ].
    + inversion Hk; subst h0. rewrite Nat.add_0_r in Hops. rewrite Hops.
      apply incl_appl, incl_refl.
    + apply incl_appr. apply (IH (S idx) k h ops Hk).
      rewrite Nat.add_succ_comm. exact Hops.
Qed.

(** X15: every hand is labelled, not the left ones only. On the frame
    [process_frame] returns, a hand with a handedness entry has a label
    drawn at scale 0.7: the provider's label in green, or the label
    followed by " - FIST" in red when [is_fist] is true, so a right fist
    is marked in red though it raises no alert. *)
Theorem hand_label_marks_every_fist
    (getTextSize : TextSizer) (f : Frame) (w w' : World)
    (image : Image) (info : DetectionInfo)
    (idx : nat) (h : HandLandmarks) (hd : ClassificationList)
    (c : Classification) :
  process_frame_drawn getTextSize f w = (Ok (image, info), w') ->
  nth_error (items (multi_hand_landmarks (hand_results f))) idx = Some h ->
  nth_error (items (multi_handedness (hand_results f))) idx = Some hd ->
  nth_error (classification hd) 0 = Some c ->
  exists fist pos,
    is_fist h = Ok fist /\
    In (putText (if fist then (label c ++ " - FIST")%string else label c)
                pos 0.7 (if fist then red else green) 2)
       image.
Proof.
  intros Hret Hh Hhd Hc.
  destruct (process_frame_drawn_Ok _ _ _ _ _ _ Hret) as [ Hplain -> ].
  destruct (process_frame_Ok f w w' info Hplain) as (_ & _ & _ & Hpass).
  assert (Hd : In (hand_triggers f idx h)
                  (loop_decisions f 0
                     (items (multi_hand_landmarks (hand_results f))))).
  { apply nth_error_In with (n := idx).
    rewrite loop_decisions_nth, Hh. reflexivity. }
  destruct (proj1 (Forall_forall _ _) Hpass _ Hd) as [ b Hb ].
  pose proof (hand_drawing_triggers f idx h) as Hboth. rewrite Hb in Hboth.
  destruct (hand_drawing f idx h) as [ ops | e ] eqn:Hops; [ | destruct Hboth ].
  pose proof (loop_drawing_nth f _ 0 idx h ops Hh Hops) as Hincl.
  destruct (hand_drawing_shape f idx h ops Hops)
    as (fist & Hfist & [ [ Hno _ ] | (_ & hd' & c' & pos & Hhd' & Hc' & ->) ]).
  - apply truthy_false_items in Hno. rewrite Hno in Hhd.
    destruct idx; discriminate.
  - rewrite Hhd in Hhd'. inversion Hhd'; subst hd'.
    rewrite Hc in Hc'. inversion Hc'; subst c'.
    exists fist, pos. split; [ exact Hfist | ].
    rewrite draw_info_panel_eq. unfold frame_drawing.
    apply in_or_app. left. apply in_or_app. left. apply in_or_app. right.
    apply Hincl. right. left. reflexivity.
Qed.

Lemma hand_label_marks_every_fist_witness :
  exists pos,
    In (putText "Right - FIST" pos 0.7 red 2)
       (fst (match fst (process_frame_drawn sample_sizer Samples.no_trigger_frame
                          Samples.expired_world) with
             | Ok r => r
             | Raise _ => ([], mkInfo 0 0 false)
             end)).
Proof.
  destruct (hand_label_marks_every_fist
              sample_sizer Samples.no_trigger_frame Samples.expired_world
              _ _ _ 0 Samples.fist_hand (Samples.handed "Right")
              (mkClassification 0 0.9 "Right")
              ltac:(vm_compute; reflexivity) eq_refl eq_refl eq_refl)
    as (fist & pos & Hfist & Hin).
  vm_compute in Hfist. inversion Hfist; subst fist.
  exists pos. exact Hin.
Defined.

(** X16: the banner of the overlay is centred. On an active alert
    [draw_alert_overlay] blends one overlay into the image: the red
    border, the filled box and the text at [text_x]; the space right of
    the text is the space left of it or one pixel more, whatever the width
    of the image and the size of the text, also when the text is wider
    than the image. On an inactive alert the image is returned as it is.
    The state is not written. *)
Theorem alert_banner_centred
    (getTextSize : TextSizer) (height width : Z) (image : Image) (w : World) :
  let text_width :=
    fst (fst (getTextSize "ALERT: FIST DETECTED!"%string 1.5%float 3%Z)) in
  let text_height :=
    snd (fst (getTextSize "ALERT: FIST DETECTED!"%string 1.5%float 3%Z)) in
  exists text_x,
    (0 <= (width - (text_x + text_width)) - text_x <= 1)%Z /\
    draw_alert_overlay getTextSize height width image w =
    (Ok (if alert_active (self w)
         then image ++
              [ addWeighted
                  [ rectangle (0, 0)%Z (width, height) red 30;
                    rectangle (text_x - 10, 80 - text_height - 10)%Z
                              (text_x + text_width + 10, 80 + 10)%Z red (-1);
                    putText "ALERT: FIST DETECTED!" (text_x, 80%Z) 1.5
                            white 3 ]
                  0.7 0.3 0 ]
         else image), w).
Proof.
  intros text_width text_height.
  exists ((width - text_width) / 2)%Z. split.
  - pose proof (Z.div_mod (width - text_width) 2 ltac:(lia)) as Hdiv.
    pose proof (Z.mod_pos_bound (width - text_width) 2 ltac:(lia)) as Hmod.
    lia.
  - rewrite draw_alert_overlay_eq. reflexivity.
Qed.

(** * The program: properties *)

(** ** Strings and numbers *)

Lemma list_ascii_of_append (s t : string) :
  list_ascii_of_string (s ++ t)
  = list_ascii_of_string s ++ list_ascii_of_string t.
Proof.
  induction s as [ | c s IH ]; cbn; [ | rewrite IH ]; reflexivity.
Qed.

Lemma append_inv_tail (s1 s2 t : string) :
  (s1 ++ t)%string = (s2 ++ t)%string -> s1 = s2.
Proof.
  intros H. apply (f_equal list_ascii_of_string) in H.
  rewrite !list_ascii_of_append in H. apply app_inv_tail in H.
  rewrite <- (string_of_list_ascii_of_string s1),
          <- (string_of_list_ascii_of_string s2), H.
  reflexivity.
Qed.

Lemma append_inv_head (s t1 t2 : string) :
  (s ++ t1)%string = (s ++ t2)%string -> t1 = t2.
Proof.
  induction s as [ | c s IH ]; cbn; intros H; [ exact H | ].
  inversion H. auto.
Qed.

(** Two counts are printed alike only when they are equal. *)
Lemma fmt_inj (n m : nat) : fmt n = fmt m -> n = m.
Proof.
  unfold fmt. intros H.
  apply (f_equal DecimalString.NilEmpty.uint_of_string) in H.
  rewrite !DecimalString.NilEmpty.usu in H. inversion H as [ H' ].
  apply DecimalNat.Unsigned.to_uint_inj, H'.
Qed.

Lemma screenshot_name_inj (n m : nat) :
  screenshot_name n = screenshot_name m -> n = m.
Proof.
  unfold screenshot_name. intros H.
  apply append_inv_head, append_inv_tail in H. apply fmt_inj, H.
Qed.

(** ** The state through [say], [act] and the loop *)

Lemma say_all_actions (lines : list string) :
  forall r,
    actions (fold_left (fun r s => say s r) lines r) = actions r /\
    frame_count (fold_left (fun r s => say s r) lines r) = frame_count r /\
    screenshot_count (fold_left (fun r s => say s r) lines r)
    = screenshot_count r /\
    stdout (world (fold_left (fun r s => say s r) lines r))
    = stdout (world r) ++ lines.
Proof.
  induction lines as [ | s lines IH ]; intros r; cbn [fold_left].
  - rewrite app_nil_r. auto.
  - destruct (IH (say s r)) as (Ha & Hf & Hs & Ho).
    rewrite Ha, Hf, Hs, Ho. cbn. rewrite <- app_assoc. auto.
Qed.

(** One turn of the loop on a frame that is processed to the end. *)
Lemma main_loop_step (sizer : TextSizer) (f : Frame) (key : Z)
    (window : WindowProbe) (rest : list Tick) (r : Run)
    (image : Image) (info : DetectionInfo) (w' : World) :
  process_frame_drawn sizer f (world r) = (Ok (image, info), w') ->
  let numbered :=
    image ++ [putText ("Frame: " ++ fmt (frame_count r + 1))
                      (width f - 150, 30)%Z 0.5 white 1] in
  let r1 := mkRun w' (actions r ++ [imshow window_title numbered])
                  (frame_count r + 1) (screenshot_count r) in
  main_loop sizer (Grabbed f key window :: rest) r =
  match window with
  | cv2_error => (Returned, say (newline ++ "Window closed by user...") r1)
  | Visible window_prop =>
      if PyFloat.lt window_prop 1 then
        (Returned, say (newline ++ "Window closed by user...") r1)
      else if (key mod 256 =? ord_q)%Z then
        (Returned, say (newline ++ "Quitting...") r1)
      else if (key mod 256 =? ord_s)%Z then
        main_loop sizer rest
          (say ("Screenshot saved: "
                ++ screenshot_name (screenshot_count r + 1))
             (mkRun w'
                (actions r1
                 ++ [imwrite (screenshot_name (screenshot_count r + 1))
                             numbered])
                (frame_count r + 1) (screenshot_count r + 1)))
      else main_loop sizer rest r1
  end.
Proof.
  intros Hret numbered r1. cbn [main_loop]. rewrite Hret.
  change 255%Z with (Z.ones 8). rewrite Z.land_ones by lia.
  change (2 ^ 8)%Z with 256%Z.
  destruct window as [ v | ]; reflexivity.
Qed.

Lemma frame_number_text_numbered (image : Image) (text : string)
    (org : Point) (font_scale : float) (color : Color) (thickness : Z) :
  frame_number_text (image ++ [putText text org font_scale color thickness])
  = text.
Proof.
  unfold frame_number_text, texts. rewrite flat_map_app. cbn [flat_map app].
  apply last_last.
Qed.

(** What the loop logs: the images it shows and the files it writes,
    numbered on from the two counters. *)
Lemma main_loop_log (sizer : TextSizer) (ticks : list Tick) :
  forall (r r' : Run) (o : Outcome),
    main_loop sizer ticks r = (o, r') ->
    frame_count r <= frame_count r' /\
    screenshot_count r <= screenshot_count r' /\
    exists more,
      actions r' = actions r ++ more /\
      forallb is_display more = true /\
      written more
      = map screenshot_name
            (seq (S (screenshot_count r))
                 (screenshot_count r' - screenshot_count r)) /\
      map frame_number_text (shown more)
      = map (fun n => ("Frame: " ++ fmt n)%string)
            (seq (S (frame_count r)) (frame_count r' - frame_count r)).
Proof.
  induction ticks as [ | t rest IH ]; intros r r' o Hrun.
  - cbn in Hrun. inversion Hrun; subst.
    repeat split; auto. exists []. rewrite app_nil_r, !Nat.sub_diag. auto.
  - destruct t as [ | | f key window ].
    + cbn in Hrun. inversion Hrun; subst. cbn.
      repeat split; auto. exists []. rewrite app_nil_r, !Nat.sub_diag. auto.
    + cbn in Hrun. inversion Hrun; subst. cbn.
      repeat split; auto. exists []. rewrite app_nil_r, !Nat.sub_diag. auto.
    + destruct (process_frame_drawn sizer f (world r))
        as [ [ [ image info ] | e ] w1 ] eqn:Hret.
      2:{ cbn [main_loop] in Hrun. rewrite Hret in Hrun.
          inversion Hrun; subst. cbn.
          repeat split; auto. exists [].
          rewrite app_nil_r, !Nat.sub_diag. auto. }
      rewrite (main_loop_step sizer f key window rest r image info w1 Hret)
        in Hrun.
      cbv zeta in Hrun.
      assert (Hstop :
        forall line,
          (o, r') =
          (Returned,
           say line
             (mkRun w1
                (actions r ++
                 [imshow window_title
                    (image ++
                     [putText ("Frame: " ++ fmt (frame_count r + 1))
                              (width f - 150, 30)%Z 0.5 white 1])])
                (frame_count r + 1) (screenshot_count r))) ->
          frame_count r <= frame_count r' /\
          screenshot_count r <= screenshot_count r' /\
          exists more,
            actions r' = actions r ++ more /\
            forallb is_display more = true /\
            written more
            = map screenshot_name
                (seq (S (screenshot_count r))
                     (screenshot_count r' - screenshot_count r)) /\
            map frame_number_text (shown more)
            = map (fun n => ("Frame: " ++ fmt n)%string)
                (seq (S (frame_count r)) (frame_count r' - frame_count r))).
      { intros line Heq. inversion Heq; subst.
        cbn [say actions frame_count screenshot_count].
        split; [ lia | ]. split; [ lia | ].
        eexists. split; [ reflexivity | ].
        rewrite Nat.sub_diag.
        replace (frame_count r + 1 - frame_count r) with 1 by lia.
        cbn [forallb is_display andb written shown flat_map app map seq].
        rewrite frame_number_text_numbered, Nat.add_1_r. auto. }
      destruct window as [ v | ]; [ | apply (Hstop _ (eq_sym Hrun)) ].
      destruct (PyFloat.lt v 1); [ apply (Hstop _ (eq_sym Hrun)) | ].
      destruct (key mod 256 =? ord_q)%Z; [ apply (Hstop _ (eq_sym Hrun)) | ].
      destruct (key mod 256 =? ord_s)%Z.
      * destruct (IH _ _ _ Hrun) as (Hf & Hs & more & Hact & Hdisp & Hwr & Hsh).
        cbn [say actions frame_count screenshot_count] in Hf, Hs, Hact, Hwr, Hsh.
        split; [ lia | ]. split; [ lia | ].
        eexists. split; [ rewrite Hact, <- !app_assoc; reflexivity | ].
        cbn [app forallb is_display andb written shown flat_map map].
        split; [ exact Hdisp | ].
        fold (written more). fold (shown more).
        rewrite Hwr, Hsh, frame_number_text_numbered.
        replace (screenshot_count r' - screenshot_count r)
          with (S (screenshot_count r' - (screenshot_count r + 1))) by lia.
        replace (frame_count r' - frame_count r)
          with (S (frame_count r' - (frame_count r + 1))) by lia.
        cbn [seq map]. rewrite !Nat.add_1_r. auto.
      * destruct (IH _ _ _ Hrun) as (Hf & Hs & more & Hact & Hdisp & Hwr & Hsh).
        cbn [actions frame_count screenshot_count] in Hf, Hs, Hact, Hwr, Hsh.
        split; [ lia | ]. split; [ lia | ].
        eexists. split; [ rewrite Hact, <- !app_assoc; reflexivity | ].
        cbn [app forallb is_display andb written shown flat_map map].
        split; [ exact Hdisp | ].
        fold (written more). fold (shown more).
        rewrite Hwr, Hsh, frame_number_text_numbered.
        replace (frame_count r' - frame_count r)
          with (S (frame_count r' - (frame_count r + 1))) by lia.
        cbn [seq map]. rewrite !Nat.add_1_r. auto.
Qed.

(** ** Opening the camera *)

Ltac capture_cases :=
  repeat match goal with
  | H : _ /\ _ |- _ => destruct H
  | H : _ \/ _ |- _ => destruct H
  | H : False |- _ => destruct H
  | H : VideoCapture _ _ = VideoCapture _ _ |- _ => inversion H; subst; clear H
  | H : test_cap_release _ _ = test_cap_release _ _ |- _ =>
      inversion H; subst; clear H
  | H : VideoCapture _ _ = test_cap_release _ _ |- _ => discriminate H
  | H : test_cap_release _ _ = VideoCapture _ _ |- _ => discriminate H
  | H : ?c <> ?c |- _ => destruct (H eq_refl)
  end.

(** X17: the camera is looked for under DirectShow first, at the indices
    0, 1, 2 in order, then under the default backend: a camera that opens
    under DirectShow at index 2 is preferred to one that opens under the
    default backend at index 0. Every capture that was created and is not
    the one chosen has been released; the chosen one has not. *)
Theorem camera_is_first_that_opens (opens : nat -> Backend -> bool) (r : Run) :
  fst (open_camera opens r) = first_camera opens /\
  exists tried,
    actions (snd (open_camera opens r)) = actions r ++ tried /\
    forallb is_capture_action tried = true /\
    forall i b,
      In (test_cap_release i b) tried <->
      In (VideoCapture i b) tried /\ first_camera opens <> Some (i, b).
Proof.
  unfold open_camera, first_camera.
  cbn [try_dshow try_default find].
  destruct (opens 0 CAP_DSHOW) eqn:H0; [ | destruct (opens 1 CAP_DSHOW) eqn:H1;
    [ | destruct (opens 2 CAP_DSHOW) eqn:H2;
      [ | destruct (opens 0 CAP_ANY) eqn:A0;
        [ | destruct (opens 1 CAP_ANY) eqn:A1;
          [ | destruct (opens 2 CAP_ANY) eqn:A2 ] ] ] ] ];
    cbn [fst snd say act actions];
    (split; [ reflexivity | ]);
    rewrite <- ?app_assoc; cbn [app];
    (eexists; split; [ reflexivity | ]);
    (split; [ reflexivity | ]);
    intros i b; cbn [In]; split; intros H; capture_cases;
    try discriminate;
    repeat split; try congruence; auto 20.
Qed.

(** Looking for the camera logs captures and their releases only. *)
Lemma open_camera_actions (opens : nat -> Backend -> bool) (r : Run) :
  exists tried,
    actions (snd (open_camera opens r)) = actions r ++ tried /\
    forallb is_capture_action tried = true /\
    (fst (open_camera opens r) = None <->
     forall i b, i < 3 -> opens i b = false).
Proof.
  unfold open_camera. cbn [try_dshow try_default].
  destruct (opens 0 CAP_DSHOW) eqn:H0; [ | destruct (opens 1 CAP_DSHOW) eqn:H1;
    [ | destruct (opens 2 CAP_DSHOW) eqn:H2;
      [ | destruct (opens 0 CAP_ANY) eqn:A0;
        [ | destruct (opens 1 CAP_ANY) eqn:A1;
          [ | destruct (opens 2 CAP_ANY) eqn:A2 ] ] ] ] ];
    cbn [fst snd say act actions];
    rewrite <- ?app_assoc; cbn [app];
    (eexists; split; [ reflexivity | ]);
    (split; [ reflexivity | ]);
    (split; [ try discriminate | ]);
    try (intros Hnone; exfalso;
         match goal with
         | H : opens ?i ?b = true |- _ =>
             rewrite (Hnone i b) in H by lia; discriminate
         end);
    try (intros _; reflexivity).
  intros _ i b Hi.
  destruct i as [ | [ | [ | i ] ] ]; [ | | | lia ]; destruct b; assumption.
Qed.

Example directshow_preferred :
  fst (open_camera
         (fun i b => match b with
                     | CAP_DSHOW => Nat.eqb i 2
                     | CAP_ANY => true
                     end)
         (mkRun (mkWorld init (fun _ => 0%float) 0 []) [] 0 0))
  = Some (2, CAP_DSHOW).
Proof. reflexivity. Qed.

Lemma open_camera_counts (opens : nat -> Backend -> bool) (r : Run) :
  frame_count (snd (open_camera opens r)) = frame_count r /\
  screenshot_count (snd (open_camera opens r)) = screenshot_count r.
Proof.
  unfold open_camera. cbn [try_dshow try_default].
  destruct (opens 0 CAP_DSHOW); [ | destruct (opens 1 CAP_DSHOW);
    [ | destruct (opens 2 CAP_DSHOW);
      [ | destruct (opens 0 CAP_ANY);
        [ | destruct (opens 1 CAP_ANY);
          [ | destruct (opens 2 CAP_ANY) ] ] ] ] ];
    split; reflexivity.
Qed.

(** The state of [main] when the camera has been looked for. *)
Lemma main_before_loop (env : Env) :
  exists tried,
    actions (snd (open_camera (opens env)
                    (act Hands_init
                       (act FaceDetection_init
                          (fold_left (fun r s => say s r) greeting
                             (mkRun (mkWorld init (time_readings env) 0 [])
                                    [] 0 0))))))
    = [FaceDetection_init; Hands_init] ++ tried /\
    forallb is_capture_action tried = true.
Proof.
  match goal with
  | |- context [open_camera ?o ?r0] =>
      destruct (open_camera_actions o r0) as (tried & Hact & Hcap & _)
  end.
  exists tried. rewrite Hact. cbn [act actions].
  rewrite (proj1 (say_all_actions greeting _)). cbn. auto.
Qed.

(** ** [main], taken apart *)

Lemma main_eq (env : Env) :
  main env =
  if camera_ready env then
    match main_loop (getTextSize env) (ticks env) (loop_start env) with
    | (Running, r) => (Running, r)
    | (outcome, r) => (outcome, finally r)
    end
  else
    (SystemExit 1,
     fold_left (fun r s => say s r) no_camera_help
       (snd (open_camera (opens env) (before_camera env)))).
Proof.
  unfold main, camera_ready, loop_start. fold (before_camera env).
  destruct (open_camera (opens env) (before_camera env)) as [ [ cap | ] r1 ];
    cbn [fst snd]; [ | reflexivity ].
  destruct (still_opened env); reflexivity.
Qed.

Lemma capture_actions_silent (tried : list Action) :
  forallb is_capture_action tried = true ->
  existsb is_closing tried = false /\
  written tried = [] /\ shown tried = [].
Proof.
  induction tried as [ | a tried IH ]; [ auto | ].
  cbn [forallb]. rewrite andb_true_iff. intros [ Ha Hrest ].
  destruct (IH Hrest) as (Hc & Hw & Hs).
  destruct a; try discriminate; cbn; auto.
Qed.

Lemma display_actions_not_closing (more : list Action) :
  forallb is_display more = true -> existsb is_closing more = false.
Proof.
  induction more as [ | a more IH ]; [ auto | ].
  cbn [forallb]. rewrite andb_true_iff. intros [ Ha Hrest ].
  destruct a; try discriminate; cbn; auto.
Qed.

(** When the program enters the loop it has created the detector's two
    MediaPipe objects, tried captures and set the camera up; nothing is
    shown, written or closed yet. *)
Lemma loop_start_log (env : Env) :
  frame_count (loop_start env) = 0 /\
  screenshot_count (loop_start env) = 0 /\
  existsb is_closing (actions (loop_start env)) = false /\
  written (actions (loop_start env)) = [] /\
  shown (actions (loop_start env)) = [].
Proof.
  unfold loop_start. cbn [frame_count screenshot_count act actions].
  destruct (open_camera_actions (opens env) (before_camera env))
    as (tried & Hact & Hcap & _).
  destruct (capture_actions_silent tried Hcap) as (Hc & Hw & Hs).
  rewrite Hact. unfold before_camera. cbn [act actions].
  rewrite (proj1 (say_all_actions greeting _)). cbn [actions app].
  unfold written, shown in *.
  cbn [existsb flat_map is_closing orb app].
  rewrite !existsb_app, !flat_map_app, Hc, Hw, Hs. cbn. auto.
Qed.

Lemma no_camera_log (env : Env) :
  let r := fold_left (fun r s => say s r) no_camera_help
             (snd (open_camera (opens env) (before_camera env))) in
  frame_count r = 0 /\
  screenshot_count r = 0 /\
  existsb is_closing (actions r) = false /\
  written (actions r) = [] /\
  shown (actions r) = [] /\
  In Hands_init (actions r) /\ In FaceDetection_init (actions r).
Proof.
  cbv zeta.
  destruct (say_all_actions no_camera_help
              (snd (open_camera (opens env) (before_camera env))))
    as (Ha & Hf & Hs & _).
  rewrite Ha, Hf, Hs.
  destruct (open_camera_counts (opens env) (before_camera env)) as [ -> -> ].
  destruct (open_camera_actions (opens env) (before_camera env))
    as (tried & Hact & Hcap & _).
  destruct (capture_actions_silent tried Hcap) as (Hc & Hw & Hsh).
  rewrite Hact. unfold before_camera. cbn [act actions frame_count screenshot_count].
  destruct (say_all_actions greeting
              (mkRun (mkWorld init (time_readings env) 0 []) [] 0 0))
    as (Ha0 & Hf0 & Hs0 & _).
  rewrite Ha0, Hf0, Hs0. cbn [actions frame_count screenshot_count app].
  unfold written, shown in *.
  cbn [existsb flat_map is_closing orb app In].
  rewrite Hc, Hw, Hsh. auto 10.
Qed.

Lemma main_loop_outcome (sizer : TextSizer) (ticks : list Tick) :
  forall (r r' : Run) (o : Outcome),
    main_loop sizer ticks r = (o, r') ->
    o = Returned \/ (exists e, o = Uncaught e) \/ o = Running.
Proof.
  induction ticks as [ | t rest IH ]; intros r r' o Hrun.
  - inversion Hrun; auto.
  - destruct t as [ | | f key window ];
      [ inversion Hrun; auto | inversion Hrun; auto | ].
    cbn [main_loop] in Hrun.
    destruct (process_frame_drawn sizer f (world r))
      as [ [ [ image info ] | e ] w1 ];
      [ | inversion Hrun; eauto ].
    destruct window as [ v | ]; [ | inversion Hrun; auto ].
    destruct (PyFloat.lt v 1); [ inversion Hrun; auto | ].
    destruct (Z.land key 255 =? ord_q)%Z; [ inversion Hrun; auto | ].
    destruct (Z.land key 255 =? ord_s)%Z; eapply IH; exact Hrun.
Qed.

Lemma finally_log (r : Run) :
  actions (finally r) = actions r ++ closing /\
  frame_count (finally r) = frame_count r /\
  screenshot_count (finally r) = screenshot_count r /\
  last (stdout (world (finally r))) EmptyString = "Done!"%string.
Proof.
  unfold finally, cleanup, closing, say, act, print.
  cbn [actions frame_count screenshot_count world snd stdout].
  rewrite <- !app_assoc. cbn [app]. repeat split.
  change [(newline ++ "Cleaning up...")%string; "Done!"%string]
    with ([(newline ++ "Cleaning up...")%string] ++ ["Done!"%string]).
  rewrite app_assoc. apply last_last.
Qed.

(** X18: [main] leaves with [sys.exit(1)] exactly when no capture opens
    at the indices 0, 1, 2 under either backend, or the chosen capture
    says it is no longer open; it has then shown and written nothing, and
    the detector's two MediaPipe objects, created before the camera was
    looked for, are not closed: the exit is before the [try]. *)
Theorem exits_with_1_without_camera (env : Env) :
  (fst (main env) = SystemExit 1 <->
   (forall i b, i < 3 -> opens env i b = false) \/ still_opened env = false) /\
  (forall code, fst (main env) = SystemExit code ->
     code = 1%Z /\
     In Hands_init (actions (snd (main env))) /\
     In FaceDetection_init (actions (snd (main env))) /\
     existsb is_closing (actions (snd (main env))) = false /\
     shown (actions (snd (main env))) = []).
Proof.
  rewrite main_eq.
  destruct (open_camera_actions (opens env) (before_camera env))
    as (_ & _ & _ & Hnone).
  pose proof (no_camera_log env) as Hlog. cbv zeta in Hlog.
  unfold camera_ready.
  destruct (fst (open_camera (opens env) (before_camera env))) as [ cap | ]
    eqn:Hcap.
  - destruct (still_opened env) eqn:Hstill.
    + destruct (main_loop (getTextSize env) (ticks env) (loop_start env))
        as [ o r ] eqn:Hrun.
      destruct (main_loop_outcome _ _ _ _ _ Hrun) as [ -> | [ [ e -> ] | -> ] ];
        cbn [fst snd]; (split; [ split | intros code H; discriminate H ]);
        try discriminate;
        intros [ Hall | H ]; try discriminate;
        apply Hnone in Hall; discriminate.
    + cbn [fst snd]. split; [ split; auto | ].
      intros code Hcode. inversion Hcode; subst.
      destruct Hlog as (_ & _ & Hc & _ & Hs & Hh & Hf). auto.
  - cbn [fst snd]. split; [ split; [ intros _; left; apply Hnone; reflexivity
                                   | reflexivity ] | ].
    intros code Hcode. inversion Hcode; subst.
    destruct Hlog as (_ & _ & Hc & _ & Hs & Hh & Hf). auto.
Qed.

(** X19: the [finally] block. When [main] returns or an exception leaves
    it, its last four actions are the release of the camera,
    [destroyAllWindows] and the two closes of [GestureDetector.cleanup],
    in this order and nowhere before, and its last line is Done!. While
    the loop waits, and after [sys.exit], none of the four has happened. *)
Theorem cleanup_runs_once_at_the_end (env : Env) :
  match fst (main env) with
  | Returned | Uncaught _ =>
      exists before,
        actions (snd (main env)) = before ++ closing /\
        existsb is_closing before = false /\
        last (stdout (world (snd (main env)))) EmptyString = "Done!"%string
  | SystemExit _ | Running =>
      existsb is_closing (actions (snd (main env))) = false
  end.
Proof.
  rewrite main_eq.
  destruct (camera_ready env).
  - destruct (main_loop (getTextSize env) (ticks env) (loop_start env))
      as [ o r ] eqn:Hrun.
    destruct (main_loop_log _ _ _ _ _ Hrun) as (_ & _ & more & Hact & Hdisp & _).
    destruct (loop_start_log env) as (_ & _ & Hstart & _).
    assert (Hnone : existsb is_closing (actions r) = false).
    { rewrite Hact, existsb_app, Hstart.
      apply (display_actions_not_closing more Hdisp). }
    destruct (main_loop_outcome _ _ _ _ _ Hrun) as [ -> | [ [ e -> ] | -> ] ];
      cbn [fst snd]; try exact Hnone;
      destruct (finally_log r) as (Hfin & _ & _ & Hdone);
      exists (actions r); auto.
  - cbn [fst snd]. apply (no_camera_log env).
Qed.

Lemma exits_with_1_without_camera_witness :
  fst (main (Runs.no_camera [NoFrame])) = SystemExit 1.
Proof.
  apply (proj1 (exits_with_1_without_camera (Runs.no_camera [NoFrame]))).
  left. intros i b _. reflexivity.
Defined.

(** ** Keys and the window *)

(** X20: only the low byte of what [cv2.waitKey] returns counts. Two
    turns that differ in the key only, by a multiple of 256, go the same
    way; so a key whose low byte is 113, the code of q, ends the loop on
    a frame that is processed and a window that is visible, whatever
    turns would follow, and writes no file. *)
Theorem key_is_read_by_its_low_byte (sizer : TextSizer) (f : Frame)
    (key key' : Z) (window : WindowProbe) (rest : list Tick) (r : Run) :
  (key mod 256 = key' mod 256)%Z ->
  main_loop sizer (Grabbed f key window :: rest) r
  = main_loop sizer (Grabbed f key' window :: rest) r /\
  (forall image info w' v,
     process_frame_drawn sizer f (world r) = (Ok (image, info), w') ->
     window = Visible v -> PyFloat.lt v 1 = false ->
     (key mod 256 = 113)%Z ->
     exists r',
       main_loop sizer (Grabbed f key window :: rest) r = (Returned, r') /\
       written (actions r') = written (actions r) /\
       frame_count r' = frame_count r + 1).
Proof.
  intros Hkey. split.
  - cbn [main_loop]. change 255%Z with (Z.ones 8).
    rewrite !Z.land_ones by lia. change (2 ^ 8)%Z with 256%Z.
    rewrite Hkey. reflexivity.
  - intros image info w' v Hret -> Hvisible Hq.
    rewrite (main_loop_step sizer f key (Visible v) rest r image info w' Hret).
    cbv zeta. rewrite Hvisible, Hq. cbn [Z.eqb ord_q Pos.eqb].
    eexists. split; [ reflexivity | ].
    cbn [say actions frame_count]. unfold written.
    rewrite flat_map_app. cbn. rewrite app_nil_r. auto.
Qed.

Lemma key_is_read_by_its_low_byte_witness :
  fst (main_loop sample_sizer
         (Grabbed Samples.no_hands_frame (113 + 512) (Visible 1)
          :: [Runs.turn 115]) Runs.start)
  = Returned.
Proof.
  destruct (proj2 (key_is_read_by_its_low_byte sample_sizer
                     Samples.no_hands_frame (113 + 512) 113 (Visible 1)
                     [Runs.turn 115] Runs.start eq_refl)
              _ _ _ 1%float ltac:(vm_compute; reflexivity) eq_refl
              ltac:(vm_compute; reflexivity) eq_refl)
    as (r' & Hrun & _).
  rewrite Hrun. reflexivity.
Defined.

(** X21: the window is looked at before the key. On a turn whose frame
    is processed, when [cv2.getWindowProperty] raises or returns less
    than 1 the loop ends, whatever the key is: the frame has been counted
    and shown, but an s writes no screenshot. *)
Theorem closed_window_ends_loop_before_keys (sizer : TextSizer) (f : Frame)
    (key : Z) (window : WindowProbe) (rest : list Tick) (r : Run)
    (image : Image) (info : DetectionInfo) (w' : World) :
  process_frame_drawn sizer f (world r) = (Ok (image, info), w') ->
  window = cv2_error \/
  (exists v, window = Visible v /\ PyFloat.lt v 1 = true) ->
  exists r',
    main_loop sizer (Grabbed f key window :: rest) r = (Returned, r') /\
    frame_count r' = frame_count r + 1 /\
    screenshot_count r' = screenshot_count r /\
    written (actions r') = written (actions r) /\
    shown (actions r')
    = shown (actions r)
      ++ [image ++ [putText ("Frame: " ++ fmt (frame_count r + 1))
                            (width f - 150, 30)%Z 0.5 white 1]] /\
    last (stdout (world r')) EmptyString
    = (newline ++ "Window closed by user...")%string.
Proof.
  intros Hret Hclosed.
  rewrite (main_loop_step sizer f key window rest r image info w' Hret).
  cbv zeta.
  assert (Hlog : forall r1',
    r1' = say (newline ++ "Window closed by user...")
            (mkRun w'
               (actions r ++
                [imshow window_title
                   (image ++
                    [putText ("Frame: " ++ fmt (frame_count r + 1))
                             (width f - 150, 30)%Z 0.5 white 1])])
               (frame_count r + 1) (screenshot_count r)) ->
    frame_count r1' = frame_count r + 1 /\
    screenshot_count r1' = screenshot_count r /\
    written (actions r1') = written (actions r) /\
    shown (actions r1')
    = shown (actions r)
      ++ [image ++ [putText ("Frame: " ++ fmt (frame_count r + 1))
                            (width f - 150, 30)%Z 0.5 white 1]] /\
    last (stdout (world r1')) EmptyString
    = (newline ++ "Window closed by user...")%string).
  { intros r1' ->. unfold say, print.
    cbn [actions frame_count screenshot_count world snd stdout].
    unfold written, shown. rewrite !flat_map_app. cbn [flat_map app].
    rewrite app_nil_r. repeat split. apply last_last. }
  destruct Hclosed as [ -> | (v & -> & Hless) ]; [ | rewrite Hless ];
    eexists; (split; [ reflexivity | apply Hlog; reflexivity ]).
Qed.

Lemma closed_window_ends_loop_before_keys_witness :
  exists r',
    main_loop sample_sizer
      [Grabbed Samples.no_hands_frame 115 (Visible 0); Runs.turn 115]
      Runs.start
    = (Returned, r') /\
    written (actions r') = [].
Proof.
  destruct (closed_window_ends_loop_before_keys sample_sizer
              Samples.no_hands_frame 115 (Visible 0) [Runs.turn 115]
              Runs.start _ _ _ ltac:(vm_compute; reflexivity))
    as (r' & Hrun & _ & _ & Hwritten & _).
  - right. exists 0%float. split; [ reflexivity | vm_compute; reflexivity ].
  - exists r'. split; [ exact Hrun | exact Hwritten ].
Defined.

(** ** Counters *)

(** The log of [main] is the log at the start of the loop, what the
    loop showed and wrote, and the closing actions when the loop ended. *)
Lemma main_log (env : Env) :
  written (actions (snd (main env)))
  = map screenshot_name (seq 1 (screenshot_count (snd (main env)))) /\
  map frame_number_text (shown (actions (snd (main env))))
  = map (fun n => ("Frame: " ++ fmt n)%string)
        (seq 1 (frame_count (snd (main env)))).
Proof.
  rewrite main_eq. destruct (camera_ready env).
  - destruct (main_loop (getTextSize env) (ticks env) (loop_start env))
      as [ o r ] eqn:Hrun.
    destruct (main_loop_log _ _ _ _ _ Hrun)
      as (_ & _ & more & Hact & _ & Hwritten & Hshown).
    destruct (loop_start_log env) as (Hf0 & Hs0 & _ & Hw0 & Hsh0).
    rewrite Hf0, Hs0, !Nat.sub_0_r in *.
    assert (Hr : written (actions r)
                 = map screenshot_name (seq 1 (screenshot_count r)) /\
                 map frame_number_text (shown (actions r))
                 = map (fun n => ("Frame: " ++ fmt n)%string)
                       (seq 1 (frame_count r))).
    { rewrite Hact. unfold written, shown in *.
      rewrite !flat_map_app, Hw0, Hsh0. cbn [app]. auto. }
    destruct (finally_log r) as (Hfin & Hff & Hfs & _).
    assert (Hfinal : written (actions (finally r))
                     = map screenshot_name
                           (seq 1 (screenshot_count (finally r))) /\
                     map frame_number_text (shown (actions (finally r)))
                     = map (fun n => ("Frame: " ++ fmt n)%string)
                           (seq 1 (frame_count (finally r)))).
    { rewrite Hfin, Hff, Hfs. unfold written, shown in *.
      rewrite !flat_map_app. cbn [closing flat_map app].
      rewrite !app_nil_r. exact Hr. }
    destruct o; cbn [snd]; assumption.
  - cbn [snd].
    destruct (no_camera_log env) as (Hf & Hs & _ & Hw & Hsh & _).
    rewrite Hf, Hs, Hw, Hsh. auto.
Qed.

(** X22: the screenshots of a run are numbered from 1 without a gap.
    At every moment of every run the files written are, in order,
    screenshot_1.png up to the file of the screenshot counter, so no two
    of them have the same name and none overwrites another in the same
    run; the counter starts at 0 in every run. *)
Theorem screenshots_numbered_from_1 (env : Env) :
  written (actions (snd (main env)))
  = map screenshot_name (seq 1 (screenshot_count (snd (main env)))) /\
  NoDup (written (actions (snd (main env)))).
Proof.
  destruct (main_log env) as [ Hwritten _ ].
  split; [ exact Hwritten | ].
  rewrite Hwritten.
  generalize (seq_NoDup (screenshot_count (snd (main env))) 1).
  generalize (seq 1 (screenshot_count (snd (main env)))) as numbers.
  induction numbers as [ | n numbers IH ]; intros Hnodup; cbn [map];
    [ constructor | ].
  inversion Hnodup as [ | n' l' Hnotin Hrest ]; subst.
  constructor; [ | apply IH, Hrest ].
  intros Hin. apply in_map_iff in Hin. destruct Hin as (m & Hname & Hm).
  apply screenshot_name_inj in Hname. subst m. contradiction.
Qed.

(** X23: the frames shown are numbered from 1 without a gap. Every
    image the program shows ends with the text of its number, and at every
    moment of every run these numbers are 1 up to the frame counter: a
    frame is counted when [process_frame] has returned on it, and every
    counted frame is shown once. *)
Theorem frames_shown_numbered_from_1 (env : Env) :
  map frame_number_text (shown (actions (snd (main env))))
  = map (fun n => ("Frame: " ++ fmt n)%string)
        (seq 1 (frame_count (snd (main env)))) /\
  List.length (shown (actions (snd (main env))))
  = frame_count (snd (main env)).
Proof.
  destruct (main_log env) as [ _ Hshown ].
  split; [ exact Hshown | ].
  apply (f_equal (@List.length string)) in Hshown.
  rewrite !length_map, length_seq in Hshown. exact Hshown.
Qed.

Example two_screenshots_run :
  fst (main (sample_env Runs.two_screenshots)) = Returned /\
  written (actions (snd (main (sample_env Runs.two_screenshots))))
  = ["screenshot_1.png"; "screenshot_2.png"]%string /\
  map frame_number_text
      (shown (actions (snd (main (sample_env Runs.two_screenshots)))))
  = ["Frame: 1"; "Frame: 2"; "Frame: 3"; "Frame: 4"]%string.
Proof. vm_compute. auto. Qed.

(** ** A frame that raises *)

(** X24: only [KeyboardInterrupt] is caught. When a camera is ready and
    [process_frame] raises on the first frame, as it does with
    [IndexError] at [multi_handedness[idx]] when the frame has a handedness
    list that is not empty and shorter than its list of hands (the hands
    of 21 points each, the labels drawable), the exception leaves [main]:
    no frame is counted or shown, no later turn is taken, and the
    [finally] block has run. *)
Theorem frame_exception_leaves_main (env : Env) (f : Frame) (key : Z)
    (window : WindowProbe) (rest : list Tick) (h : HandLandmarks) :
  camera_ready env = true ->
  ticks env = Grabbed f key window :: rest ->
  items (multi_handedness (hand_results f)) <> [] ->
  nth_error (items (multi_hand_landmarks (hand_results f)))
            (List.length (items (multi_handedness (hand_results f))))
  = Some h ->
  List.length (landmark h) = 21 ->
  well_formed
    (first_hands f (List.length (items (multi_handedness (hand_results f))))) ->
  fst (main env) = Uncaught IndexError /\
  frame_count (snd (main env)) = 0 /\
  shown (actions (snd (main env))) = [] /\
  exists before, actions (snd (main env)) = before ++ closing.
Proof.
  intros Hready Hticks Hne Hh Hlen Hwf.
  destruct (process_frame_first_raise f _ h IndexError
              (world (loop_start env)) Hh
              (hand_without_entry f h Hne Hlen) Hwf)
    as (w' & Hraise & _).
  rewrite main_eq, Hready, Hticks. cbn [main_loop].
  rewrite process_frame_drawn_eq, Hraise. cbn [fst snd].
  destruct (finally_log (set_world w' (loop_start env)))
    as (Hfin & Hff & _ & _).
  destruct (loop_start_log env) as (Hf0 & _ & _ & _ & Hsh0).
  rewrite Hfin, Hff. cbn [set_world actions frame_count].
  split; [ reflexivity | ]. split; [ exact Hf0 | ].
  split; [ | eauto ].
  unfold shown in *. rewrite flat_map_app, Hsh0. reflexivity.
Qed.

Lemma frame_exception_leaves_main_witness :
  fst (main (sample_env Runs.short_handedness_first)) = Uncaught IndexError.
Proof.
  apply (frame_exception_leaves_main (sample_env Runs.short_handedness_first)
           MoreSamples.short_handedness_frame 115 (Visible 1)
           [Runs.turn 115] Samples.open_hand).
  - reflexivity.
  - reflexivity.
  - discriminate.
  - reflexivity.
  - reflexivity.
  - split.
    + repeat constructor. exists 384%Z, 576%Z.
      unfold fits_c_int. repeat split; try lia; vm_compute; congruence.
    + right. split; [ cbn; lia | repeat constructor; discriminate ].
Defined.

(** ** The detector inside the program *)

(** What was printed before plays no part in [process_frame]. *)
Lemma replay_same_detector (ds : list (result bool)) :
  forall (info : DetectionInfo) (w1 w2 : World),
    same_detector w1 w2 ->
    fst (replay ds info w1) = fst (replay ds info w2) /\
    same_detector (snd (replay ds info w1)) (snd (replay ds info w2)).
Proof.
  induction ds as [ | [ [ | ] | e ] ds IH ]; intros info w1 w2 Hsame;
    cbn [replay bind ret Monad_M lift fst snd]; auto.
  rewrite !trigger_alert_eq. apply IH.
  destruct Hsame as (Hself & Hclock & Hreads).
  unfold same_detector. cbn [self clock reads].
  rewrite Hself, Hclock, Hreads. auto.
Qed.

Lemma process_frame_same_detector (f : Frame) (w1 w2 : World) :
  same_detector w1 w2 ->
  fst (process_frame f w1) = fst (process_frame f w2) /\
  same_detector (snd (process_frame f w1)) (snd (process_frame f w2)).
Proof.
  intros Hsame. rewrite !process_frame_eq.
  destruct (replay_same_detector
              (loop_decisions f 0
                 (items (multi_hand_landmarks (hand_results f))))
              (initial_info f) w1 w2 Hsame) as [ Hres Hafter ].
  destruct (replay _ _ w1) as [ r1 v1 ].
  destruct (replay _ _ w2) as [ r2 v2 ].
  cbn [fst snd] in Hres, Hafter. subst r2.
  destruct r1 as [ info | e ]; cbn [fst snd]; [ | auto ].
  rewrite !check_alert_timeout_eq. cbn [snd].
  destruct Hafter as (Hself & Hclock & Hreads). rewrite Hself.
  split; [ reflexivity | ].
  destruct (alert_active (self v2)); unfold same_detector;
    cbn [self clock reads]; rewrite ?Hclock, ?Hreads; auto.
Qed.

(** X25: inside the program the detector goes through the frames as
    [process_frame] alone does. While the loop is still running, every
    turn was a frame that was processed, counted and shown, and the
    detector's attributes and the clock's readings are those of the run of
    [process_frame] over these frames from the state the loop started in:
    the screenshots, the keys and the lines the program prints take no
    part in the alert. *)
Theorem program_alert_is_detector_run (sizer : TextSizer) (ticks : list Tick) :
  forall (r r' : Run) (w : World),
    same_detector (world r) w ->
    main_loop sizer ticks r = (Running, r') ->
    self (world r') = detector_after (frames_of ticks) w /\
    reads (world r') = reads (snd (run_frames (frames_of ticks) w)) /\
    frame_count r' = frame_count r + List.length ticks /\
    List.length (frames_of ticks) = List.length ticks.
Proof.
  unfold detector_after.
  induction ticks as [ | t rest IH ]; intros r r' w Hsame Hrun.
  - cbn in Hrun. inversion Hrun; subst. cbn.
    destruct Hsame as (Hself & _ & Hreads). rewrite Nat.add_0_r. auto.
  - destruct t as [ | | f key window ]; try discriminate Hrun.
    destruct (process_frame_drawn sizer f (world r))
      as [ [ [ image info ] | e ] w1 ] eqn:Hret;
      [ | cbn [main_loop] in Hrun; rewrite Hret in Hrun; discriminate Hrun ].
    rewrite (main_loop_step sizer f key window rest r image info w1 Hret)
      in Hrun.
    cbv zeta in Hrun.
    destruct (process_frame_drawn_Ok _ _ _ _ _ _ Hret) as [ Hplain _ ].
    destruct (process_frame_same_detector f (world r) w Hsame)
      as [ Hres Hafter ].
    rewrite Hplain in Hres, Hafter. cbn [fst snd] in Hres, Hafter.
    cbn [frames_of flat_map app]. fold (frames_of rest).
    rewrite run_frames_cons.
    destruct (process_frame f w) as [ r2 w2 ]. cbn [fst snd] in Hres, Hafter.
    subst r2.
    destruct window as [ v | ]; [ | discriminate Hrun ].
    destruct (PyFloat.lt v 1); [ discriminate Hrun | ].
    destruct (key mod 256 =? ord_q)%Z; [ discriminate Hrun | ].
    assert (Hstep : forall r1,
              same_detector (world r1) w2 ->
              frame_count r1 = frame_count r + 1 ->
              main_loop sizer rest r1 = (Running, r') ->
              self (world r')
              = self (snd (match run_frames (frames_of rest) w2 with
                           | (Ok infos, w3) => (Ok (info :: infos), w3)
                           | (Raise e, w3) => (Raise e, w3)
                           end)) /\
              reads (world r')
              = reads (snd (match run_frames (frames_of rest) w2 with
                            | (Ok infos, w3) => (Ok (info :: infos), w3)
                            | (Raise e, w3) => (Raise e, w3)
                            end)) /\
              frame_count r' = frame_count r + List.length (Grabbed f key (Visible v) :: rest) /\
              List.length (f :: frames_of rest)
              = List.length (Grabbed f key (Visible v) :: rest)).
    { intros r1 Hsame1 Hcount1 Hrun1.
      destruct (IH r1 r' w2 Hsame1 Hrun1) as (Hself & Hreads & Hcount & Hlen).
      destruct (run_frames (frames_of rest) w2) as [ [ infos | e ] w3 ];
        cbn [snd List.length] in *; repeat split; auto; lia. }
    destruct (key mod 256 =? ord_s)%Z;
      (refine (Hstep _ _ _ Hrun); [ exact Hafter | reflexivity ]).
Qed.

Lemma program_alert_is_detector_run_witness :
  self (world (snd (main_loop sample_sizer
                      [Runs.turn (-1); Runs.turn 115] Runs.start)))
  = detector_after [Samples.no_hands_frame; Samples.no_hands_frame]
                   (world Runs.start).
Proof.
  apply (program_alert_is_detector_run sample_sizer
           [Runs.turn (-1); Runs.turn 115] Runs.start
           (snd (main_loop sample_sizer
                   [Runs.turn (-1); Runs.turn 115] Runs.start))
           (world Runs.start)).
  - repeat split.
  - vm_compute. reflexivity.
Defined.
